(** * Launchpad retracer operator: the charm and its workload, embedded in Rocq

    The development follows [src/retracer.py] (class [Retracer]) and
    [src/charm.py] (class [LaunchpadRetracerCharm]).

    - Python [str] values are [string]; dictionaries that are only looked
      up are [gmap string _]; the [proxies] dictionary, which is iterated
      in insertion order, is an association list.
    - A character is a code point below 256, so a [str] of the model is a
      string over these.
    - The host (file system, service manager, package manager, git, ...) is
      an explicit [World]; every call that leaves the process is appended
      to [trace] and may raise an exception chosen by a fault oracle. What
      the package manager and git leave of the files, the directories and
      the services is the host's to decide, like what a process prints
      and the chunks in which the body of a URL arrives.
    - Methods are computations in a state-and-exception monad: a raised
      exception keeps the state reached so far (nothing is rolled back). *)

From Stdlib Require Import String Ascii List NArith Lia Bool.
From stdpp Require Import base gmap strings list.

Import ListNotations.

(** ** Python string primitives used by the source *)

Module PyStr.

Definition nl : string := String "010"%char "".

(** [c in s] for a one-character [c]. *)
Fixpoint contains (c : ascii) (s : string) : bool :=
  match s with
  | EmptyString => false
  | String x s' => Ascii.eqb x c || contains c s'
  end.

(** [s.split(sep)] for a one-character separator: never empty,
    [''.split('@') == ['']]. *)
Fixpoint split (sep : ascii) (s : string) : list string :=
  match s with
  | EmptyString => [EmptyString]
  | String x s' =>
      if Ascii.eqb x sep then EmptyString :: split sep s'
      else match split sep s' with
           | [] => [String x EmptyString]
           | h :: t => String x h :: t
           end
  end.

(** White space as [str.split()] and [str.strip()] see it, among the
    code points below 256: TAB, LF, VT, FF, CR, FS, GS, RS, US, SPACE,
    NEL (U+0085) and NBSP (U+00A0). *)
Definition is_space (x : ascii) : bool :=
  let n := N_of_ascii x in
  ((9 <=? n) && (n <=? 13) || (28 <=? n) && (n <=? 32)
   || (n =? 133) || (n =? 160))%N.

(** [s.split()]: runs of white space separate the words, and no empty
    word is produced. [cur] is the word being read, reversed. *)
Fixpoint split_ws_go (cur : option string) (s : string) : list string :=
  match s with
  | EmptyString => option_list (String.rev <$> cur)
  | String x s' =>
      if is_space x
      then option_list (String.rev <$> cur) ++ split_ws_go None s'
      else split_ws_go (Some (String x (default EmptyString cur))) s'
  end.
Definition split_ws (s : string) : list string := split_ws_go None s.

Definition upper_char (x : ascii) : ascii :=
  let n := N_of_ascii x in
  if ((97 <=? n) && (n <=? 122))%N then ascii_of_N (n - 32) else x.

(** [s.upper()] on ASCII letters. *)
Fixpoint upper (s : string) : string :=
  match s with
  | EmptyString => EmptyString
  | String x s' => String (upper_char x) (upper s')
  end.

Fixpoint strip_prefix (p s : string) : option string :=
  match p, s with
  | EmptyString, _ => Some s
  | String a p', String b s' =>
      if Ascii.eqb a b then strip_prefix p' s' else None
  | String _ _, EmptyString => None
  end.

Fixpoint endswith (suf s : string) : bool :=
  String.eqb s suf ||
  match s with
  | EmptyString => false
  | String _ s' => endswith suf s'
  end.

(** [fnmatch] for a pattern [pre*suf] whose two parts are literal:
    the star takes any text, also none. *)
Definition fnmatch_star (pre suf name : string) : bool :=
  match strip_prefix pre name with
  | Some rest => endswith suf rest
  | None => false
  end.

Fixpoint lstrip (s : string) : string :=
  match s with
  | EmptyString => EmptyString
  | String x s' => if is_space x then lstrip s' else s
  end.

(** [s.strip()]. *)
Definition strip (s : string) : string :=
  String.rev (lstrip (String.rev (lstrip s))).

(** Truth value of an optional string: [None] and [''] are falsy. *)
Definition truthy (o : option string) : bool :=
  match o with
  | Some (String _ _) => true
  | _ => false
  end.

End PyStr.

(** ** Exceptions *)

Inductive Exn : Type :=
| OSError
| FileNotFoundError
| ShutilError
| RequestException
| CalledProcessError
| SystemdError
| PackageError
| PackageNotFoundError
| ValueError (msg : string)
| KeyError (key : string)
| IndexError
| LookupError
| TypeError
| SecretNotFoundError
| ModelError
| RuntimeError.

(** [isinstance] tests behind the [except] clauses of the source.
    [FileNotFoundError], [shutil.Error] and [requests.RequestException]
    derive from [OSError]; [SecretNotFoundError] derives from
    [ModelError]; everything derives from [Exception]. *)
Definition is_OSError (e : Exn) : bool :=
  match e with
  | OSError | FileNotFoundError | ShutilError | RequestException => true
  | _ => false
  end.
Definition is_ShutilError (e : Exn) : bool :=
  match e with ShutilError => true | _ => false end.
Definition is_RequestException (e : Exn) : bool :=
  match e with RequestException => true | _ => false end.
Definition is_CalledProcessError (e : Exn) : bool :=
  match e with CalledProcessError => true | _ => false end.
Definition is_PackageError (e : Exn) : bool :=
  match e with PackageError => true | _ => false end.
Definition is_PackageNotFoundError (e : Exn) : bool :=
  match e with PackageNotFoundError => true | _ => false end.
Definition is_ValueError (e : Exn) : bool :=
  match e with ValueError _ => true | _ => false end.
Definition is_KeyError (e : Exn) : bool :=
  match e with KeyError _ => true | _ => false end.
Definition is_TypeError (e : Exn) : bool :=
  match e with TypeError => true | _ => false end.
Definition is_SecretNotFoundError (e : Exn) : bool :=
  match e with SecretNotFoundError => true | _ => false end.
Definition is_ModelError (e : Exn) : bool :=
  match e with SecretNotFoundError | ModelError => true | _ => false end.
Definition is_Exception (e : Exn) : bool := true.

(** [str(e)], as the log formats it. *)
Definition exn_str (e : Exn) : string :=
  match e with
  | OSError => "OSError"
  | FileNotFoundError => "FileNotFoundError"
  | ShutilError => "shutil.Error"
  | RequestException => "RequestException"
  | CalledProcessError => "CalledProcessError"
  | SystemdError => "SystemdError"
  | PackageError => "PackageError"
  | PackageNotFoundError => "PackageNotFoundError"
  | ValueError msg => msg
  | KeyError key => key
  | IndexError => "IndexError"
  | LookupError => "LookupError"
  | TypeError => "TypeError"
  | SecretNotFoundError => "SecretNotFoundError"
  | ModelError => "ModelError"
  | RuntimeError => "RuntimeError"
  end.

(** ** The state-and-exception monad *)

Inductive Result (A : Type) : Type :=
| Ok (a : A)
| Raise (e : Exn).
Arguments Ok {A} a.
Arguments Raise {A} e.

Definition M (S A : Type) : Type := S -> Result A * S.

Definition ret {S A} (a : A) : M S A := fun s => (Ok a, s).
Definition raise {S A} (e : Exn) : M S A := fun s => (Raise e, s).
Definition bind {S A B} (m : M S A) (k : A -> M S B) : M S B :=
  fun s => match m s with
           | (Ok a, s') => k a s'
           | (Raise e, s') => (Raise e, s')
           end.
Definition modify {S} (f : S -> S) : M S unit := fun s => (Ok tt, f s).
Definition gets {S A} (f : S -> A) : M S A := fun s => (Ok (f s), s).

#[global] Instance M_ret {S} : MRet (M S) := fun A => @ret S A.
#[global] Instance M_bind {S} : MBind (M S) := fun A B k m => bind m k.

(** [try: body  except <classes> as e: handler e]. *)
Definition try_except {S A} (body : M S A) (classes : Exn -> bool)
    (handler : Exn -> M S A) : M S A :=
  fun s => match body s with
           | (Raise e, s') =>
               if classes e then handler e s' else (Raise e, s')
           | r => r
           end.

(** [with ... : body], [try: body  finally: cleanup]: the cleanup runs
    however the body ends, and an exception of the cleanup replaces the
    outcome of the body. *)
Definition try_finally {S A} (body : M S A) (cleanup : M S unit) : M S A :=
  fun s => match body s with
           | (r, s') =>
               match cleanup s' with
               | (Ok _, s'') => (r, s'')
               | (Raise e, s'') => (Raise e, s'')
               end
           end.

(** [for x in xs: body x]. *)
Fixpoint for_each {S A} (xs : list A) (body : A -> M S unit) : M S unit :=
  match xs with
  | [] => ret tt
  | x :: xs' => bind (body x) (fun _ => for_each xs' body)
  end.

(** A list comprehension whose element expression may raise. *)
Fixpoint comprehension {A B} (f : A -> Result B) (xs : list A)
    : Result (list B) :=
  match xs with
  | [] => Ok []
  | x :: xs' =>
      match f x with
      | Raise e => Raise e
      | Ok b => match comprehension f xs' with
                | Raise e => Raise e
                | Ok bs => Ok (b :: bs)
                end
      end
  end.

Definition of_result {S A} (r : Result A) : M S A := fun s => (r, s).

(** ** The host *)

Record File : Type := mkFile {
  content : string;
  mode : N;
  owner : string;
  group : string }.

Inductive Level : Type := DEBUG | WARNING | ERROR.

(** A log record: level, the format string of the source, its arguments. *)
Record LogRecord : Type := mkLog {
  level : Level;
  fmt : string;
  args : list string }.

(** Calls that leave the process. *)
Inductive Call : Type :=
| MkdirP (path : string)
| Chown (path user grp : string)
| Chmod (path : string) (bits : N)
| ReadText (path : string)
| WriteText (path data : string)
| Unlink (path : string)
| OsOpen (path : string) (flags bits : N)
| OsWrite (fd data : string)
| OsClose (fd : string)
| ShutilCopy (src dst : string)
| AptUpdate
| AptAddPackage (name : string)
| Run (argv : list string)
| HttpGet (url : string)
| IterContent (url : string)
| ServiceEnable (argv : list string)
| ServiceStop (unit_name : string)
| ServiceDisable (unit_name : string)
| ServiceRestart (unit_name : string)
| DaemonReload
| SetWorkloadVersion (version : string).

(** [wants] lists the entries of
    [/etc/systemd/system/timers.target.wants], the directory the source
    globs to find the enabled worker timers; [active] lists the started
    units. *)
Record World : Type := mkWorld {
  files : gmap string File;
  dirs : gset string;
  wants : list string;
  active : list string;
  packages : list string;
  umask : N;
  log : list LogRecord;
  trace : list Call }.

(** What the program cannot decide: whether a call fails (and with which
    exception, given the calls made so far), what a process prints, the
    chunks in which the body of a URL arrives, and what a run of the
    package manager or of git leaves on the machine. *)
Record Host : Type := mkHost {
  fault : list Call -> Call -> option Exn;
  proc_stdout : list string -> string;
  iter_content : string -> list string;
  outside : Call -> World -> World }.

Definition set_files (f : gmap string File -> gmap string File) (w : World) :=
  mkWorld (f (files w)) (dirs w) (wants w) (active w) (packages w)
          (umask w) (log w) (trace w).
Definition set_dirs (f : gset string -> gset string) (w : World) :=
  mkWorld (files w) (f (dirs w)) (wants w) (active w) (packages w)
          (umask w) (log w) (trace w).
Definition set_wants (f : list string -> list string) (w : World) :=
  mkWorld (files w) (dirs w) (f (wants w)) (active w) (packages w)
          (umask w) (log w) (trace w).
Definition set_active (f : list string -> list string) (w : World) :=
  mkWorld (files w) (dirs w) (wants w) (f (active w)) (packages w)
          (umask w) (log w) (trace w).
Definition set_packages (f : list string -> list string) (w : World) :=
  mkWorld (files w) (dirs w) (wants w) (active w) (f (packages w))
          (umask w) (log w) (trace w).
Definition set_log (f : list LogRecord -> list LogRecord) (w : World) :=
  mkWorld (files w) (dirs w) (wants w) (active w) (packages w)
          (umask w) (f (log w)) (trace w).
Definition set_trace (f : list Call -> list Call) (w : World) :=
  mkWorld (files w) (dirs w) (wants w) (active w) (packages w)
          (umask w) (log w) (f (trace w)).

(** Adding an entry to a directory listing, removing one. *)
Definition add_entry (x : string) (l : list string) : list string :=
  if bool_decide (x ∈ l) then l else l ++ [x].
Definition remove_entry (x : string) (l : list string) : list string :=
  filter (fun y => y ≠ x) l.

Definition O_WRONLY : N := 1.
Definition O_CREAT : N := 64.
Definition O_TRUNC : N := 512.

Module Sys.
Section WithHost.
Variable host : Host.

(** An outside call: recorded, then either raising what the oracle
    says (and changing nothing else) or having its effect. The package
    manager and git, which may fail half way, have [call_leaving] and
    [run_leaving] below. *)
Definition call (c : Call) (effect : World -> World) : M World unit :=
  fun w =>
    let w1 := set_trace (fun t => t ++ [c]) w in
    match fault host (trace w) c with
    | Some e => (Raise e, w1)
    | None => (Ok tt, effect w1)
    end.

(** The same for a call whose outcome depends on the state it finds. *)
Definition call_with {A} (c : Call) (run : World -> Result A * World)
    : M World A :=
  fun w =>
    let w1 := set_trace (fun t => t ++ [c]) w in
    match fault host (trace w) c with
    | Some e => (Raise e, w1)
    | None => run w1
    end.

Definition logger (lvl : Level) (f : string) (a : list string)
    : M World unit :=
  modify (set_log (fun l => l ++ [mkLog lvl f a])).

(** [Path(p).exists()]. *)
Definition path_exists (p : string) (w : World) : bool :=
  bool_decide (is_Some (files w !! p)) || bool_decide (p ∈ dirs w).

(** [Path(p).mkdir(parents=True, exist_ok=True)]; the parents are not
    tracked. A regular file in the way is an error. *)
Definition mkdir_p (p : string) : M World unit :=
  call_with (MkdirP p) (fun w =>
    match files w !! p with
    | Some _ => (Raise OSError, w)
    | None => (Ok tt, set_dirs (fun d => {[p]} ∪ d) w)
    end).

(** [shutil.chown(p, user, group)]. *)
Definition chown (p user grp : string) : M World unit :=
  call_with (Chown p user grp) (fun w =>
    match files w !! p with
    | Some f =>
        (Ok tt, set_files <[p := mkFile (content f) (mode f) user grp]> w)
    | None =>
        if bool_decide (p ∈ dirs w) then (Ok tt, w)
        else (Raise FileNotFoundError, w)
    end).

(** [os.chmod(p, bits)]. *)
Definition chmod (p : string) (bits : N) : M World unit :=
  call_with (Chmod p bits) (fun w =>
    match files w !! p with
    | Some f =>
        (Ok tt,
         set_files <[p := mkFile (content f) bits (owner f) (group f)]> w)
    | None =>
        if bool_decide (p ∈ dirs w) then (Ok tt, w)
        else (Raise FileNotFoundError, w)
    end).

(** [Path(p).read_text()]. *)
Definition read_text (p : string) : M World string :=
  call_with (ReadText p) (fun w =>
    match files w !! p with
    | Some f => (Ok (content f), w)
    | None => (Raise FileNotFoundError, w)
    end).

(** What opening for writing with creation and truncation leaves: a new
    file gets the requested permission bits less the umask, an existing
    one keeps its bits and its owner and loses its content. *)
Definition create_or_truncate (p : string) (bits : N) (w : World) : File :=
  match files w !! p with
  | Some f => mkFile "" (mode f) (owner f) (group f)
  | None => mkFile "" (N.ldiff bits (umask w)) "root" "root"
  end.

(** [Path(p).write_text(data)]. *)
Definition write_text (p data : string) : M World unit :=
  call (WriteText p data) (fun w =>
    let f := create_or_truncate p 438 w in
    set_files <[p := mkFile data (mode f) (owner f) (group f)]> w).

(** [Path(p).unlink(missing_ok=True)]. *)
Definition unlink_missing_ok (p : string) : M World unit :=
  call (Unlink p) (set_files (delete p)).

(** [os.open(p, flags, bits)]; the descriptor is represented by the
    path it is open on. *)
Definition os_open (p : string) (flags bits : N) : M World string :=
  call_with (OsOpen p flags bits) (fun w =>
    match files w !! p with
    | Some f =>
        if N.testbit flags 9
        then (Ok p, set_files <[p := create_or_truncate p bits w]> w)
        else (Ok p, w)
    | None =>
        if N.testbit flags 6
        then (Ok p, set_files <[p := create_or_truncate p bits w]> w)
        else (Raise FileNotFoundError, w)
    end).

(** [os.write(fd, data)] on a descriptor at offset 0. *)
Definition os_write (fd data : string) : M World unit :=
  call_with (OsWrite fd data) (fun w =>
    match files w !! fd with
    | Some f =>
        let old := content f in
        let rest := String.substring (String.length data)
                      (String.length old - String.length data) old in
        (Ok tt,
         set_files <[fd := mkFile (data +:+ rest) (mode f) (owner f)
                                  (group f)]> w)
    | None => (Raise OSError, w)
    end).

Definition os_close (fd : string) : M World unit :=
  call (OsClose fd) id.

(** [open(p, "wb")]: the file is created, or truncated; the object
    returned is represented by the path. *)
Definition open_wb (p : string) : M World string :=
  os_open p (N.lor (N.lor O_CREAT O_WRONLY) O_TRUNC) 438.

(** [f.write(data)] on a file written from its start: the data go after
    what was written before. *)
Definition file_write (f data : string) : M World unit :=
  call_with (OsWrite f data) (fun w =>
    match files w !! f with
    | Some old =>
        (Ok tt,
         set_files <[f := mkFile (content old +:+ data) (mode old)
                                 (owner old) (group old)]> w)
    | None => (Raise OSError, w)
    end).

(** [shutil.copy(src, dst)] onto a file path: content and permission
    bits are copied. *)
Definition shutil_copy (src dst : string) : M World unit :=
  call_with (ShutilCopy src dst) (fun w =>
    match files w !! src with
    | Some f =>
        let d := create_or_truncate dst (mode f) w in
        (Ok tt,
         set_files <[dst := mkFile (content f) (mode f) (owner d)
                                   (group d)]> w)
    | None => (Raise FileNotFoundError, w)
    end).

(** What a run of the package manager leaves: the files, the
    directories and the services are as the host decides. *)
Definition apt_leaves (c : Call) (w : World) : World :=
  let o := outside host c w in
  mkWorld (files o) (dirs o) (wants o) (active o) (packages w) (umask w)
          (log w) (trace w).

(** What a run of git leaves: the files and the directories are as the
    host decides. *)
Definition git_leaves (c : Call) (w : World) : World :=
  let o := outside host c w in
  mkWorld (files o) (dirs o) (wants w) (active w) (packages w) (umask w)
          (log w) (trace w).

(** An outside call to a program that changes the machine on its own
    account: recorded, then the machine is as the program [leaves] it,
    whether it fails or not; [effect] is what its success adds. *)
Definition call_leaving (c : Call) (leaves effect : World -> World)
    : M World unit :=
  fun w =>
    let w1 := leaves (set_trace (fun t => t ++ [c]) w) in
    match fault host (trace w) c with
    | Some e => (Raise e, w1)
    | None => (Ok tt, effect w1)
    end.

(** [apt.update()] and [apt.add_package(p)]; [packages] lists the names
    the package manager has installed on request. *)
Definition apt_update : M World unit :=
  call_leaving AptUpdate (apt_leaves AptUpdate) id.
Definition apt_add_package (p : string) : M World unit :=
  call_leaving (AptAddPackage p) (apt_leaves (AptAddPackage p))
    (set_packages (add_entry p)).

(** [subprocess.run(argv, check=True, stdout=PIPE, ...)]: the captured
    output. [effect] is what the process does to the host. *)
Definition run (argv : list string) (effect : World -> World)
    : M World string :=
  call_with (Run argv) (fun w => (Ok (proc_stdout host argv), effect w)).

(** The same for a process that changes the machine on its own account,
    whether it fails or not. *)
Definition run_leaving (argv : list string) (leaves effect : World -> World)
    : M World string :=
  fun w =>
    let w1 := leaves (set_trace (fun t => t ++ [Run argv]) w) in
    match fault host (trace w) (Run argv) with
    | Some e => (Raise e, w1)
    | None => (Ok (proc_stdout host argv), effect w1)
    end.

(** [systemd.service_enable("--now", unit)]: the unit is enabled, which
    for a timer installed under [timers.target] adds its entry to
    [wants], and started. *)
Definition service_enable_now (u : string) : M World unit :=
  call (ServiceEnable ["--now"; u])
       (fun w => set_active (add_entry u) (set_wants (add_entry u) w)).
Definition service_stop (u : string) : M World unit :=
  call (ServiceStop u) (set_active (remove_entry u)).
Definition service_disable (u : string) : M World unit :=
  call (ServiceDisable u) (set_wants (remove_entry u)).
Definition service_restart (u : string) : M World unit :=
  call (ServiceRestart u) (set_active (add_entry u)).
Definition daemon_reload : M World unit := call DaemonReload id.

(** [glob.glob(dir + "/" + pre + "*" + suf)] over [wants]. *)
Definition glob_wants (dir pre suf : string) (w : World) : list string :=
  (fun n => dir +:+ "/" +:+ n) <$>
    filter (fun n => PyStr.fnmatch_star pre suf n = true) (wants w).

End WithHost.
End Sys.

(** ** [src/retracer.py] *)

Definition PACKAGES : list string :=
  ["apport-retrace"; "git"; "nginx-light"; "python3-apt"; "python3-requests"].
Definition RETRACER_CONFIG_LOCATION : string := "/app/config-apport".
Definition RETRACER_CONFIG_URL : string :=
  "https://git.launchpad.net/~ubuntu-archive/+git/lp-retracer-config".
Definition SRVDIR : string := "/srv/retracers".
Definition LP_CREDENTIALS : string := "/app/launchpad-credentials".
Definition NGINX_SITE_CONFIG_PATH : string := "/etc/nginx/conf.d/crashdb.conf".

(** The instance attributes set by [Retracer.__init__]. *)
Record Retracer : Type := mkRetracer {
  env : gmap string string;
  proxies : list (string * string) }.

Module Retracer.

(** [Retracer.__init__], from [os.environ]. *)
Definition __init__ (environ : gmap string string) : Retracer :=
  let env0 := environ in
  let proxies0 : list (string * string) := [] in
  let juju_http_proxy := env0 !! "JUJU_CHARM_HTTP_PROXY" in
  let juju_https_proxy := env0 !! "JUJU_CHARM_HTTPS_PROXY" in
  let '(env1, proxies1) :=
    match juju_http_proxy with
    | Some (String _ _ as p) =>
        (<["HTTP_PROXY" := p]> env0, proxies0 ++ [("http", p)])
    | _ => (env0, proxies0)
    end in
  let '(env2, proxies2) :=
    match juju_https_proxy with
    | Some (String _ _ as p) =>
        (<["HTTPS_PROXY" := p]> env1, proxies1 ++ [("https", p)])
    | _ => (env1, proxies1)
    end in
  mkRetracer env2 proxies2.

(** The loop of lines 121 to 124: the text appended to the service
    units. *)
Definition systemd_proxy (self : Retracer) : string :=
  fold_left
    (fun acc '(proto, proxy) =>
       (acc +:+ (PyStr.nl +:+ "Environment=" +:+ proto +:+ "_proxy="
                 +:+ proxy))
       +:+ (PyStr.nl +:+ "Environment=" +:+ PyStr.upper proto +:+ "_proxy="
            +:+ proxy))
    (proxies self) "".

Definition systemd_unit_location : string := "/etc/systemd/system".
Definition wants_dir : string :=
  "/etc/systemd/system/timers.target.wants".
Definition worker_prefix : string := "launchpad-retracer-worker@".
Definition timer_suffix : string := ".timer".
Definition service_suffix : string := ".service".

(** [f"launchpad-retracer-worker@{arch}.timer"] and its service. *)
Definition worker_timer (arch : string) : string :=
  worker_prefix +:+ arch +:+ timer_suffix.
Definition worker_service (arch : string) : string :=
  worker_prefix +:+ arch +:+ service_suffix.

(** [t.split("@")[1].split(".")[0]], line 152. *)
Definition arch_of (t : string) : Result string :=
  match PyStr.split "@" t !! 1%nat with
  | None => Raise IndexError
  | Some x =>
      match PyStr.split "." x !! 0%nat with
      | None => Raise IndexError
      | Some a => Ok a
      end
  end.

Section WithHost.
Variable host : Host.

Definition has_credentials (w : World) : bool :=
  Sys.path_exists LP_CREDENTIALS w.

Definition import_lpcredentials (lpcredentials : string) : M World unit :=
  try_except
    (fd ← Sys.os_open host LP_CREDENTIALS
            (N.lor (N.lor O_CREAT O_WRONLY) O_TRUNC) 384;
     Sys.os_write host fd lpcredentials;;
     Sys.os_close host fd;;
     Sys.chown host LP_CREDENTIALS "ubuntu" "ubuntu")
    is_OSError
    (fun e =>
       Sys.logger DEBUG "Error creating launchpad credentials: %s" [exn_str e];;
       raise e).

Definition _install_packages : M World unit :=
  try_except
    (Sys.apt_update host;;
     Sys.logger DEBUG "Apt index refreshed." [])
    is_CalledProcessError
    (fun e =>
       Sys.logger ERROR "Failed to update package cache: %s" [exn_str e];;
       raise e);;
  for_each PACKAGES (fun p =>
    try_except
      (Sys.apt_add_package host p;;
       Sys.logger DEBUG "Package %s installed" [p])
      (fun e => is_PackageNotFoundError e || is_PackageError e)
      (fun e =>
         (if is_PackageNotFoundError e
          then Sys.logger ERROR "Failed to find package %s in package cache" [p]
          else Sys.logger ERROR "Failed to install %s: %s" [p; exn_str e]);;
         raise e)).

(** The retirement of one architecture, lines 161 to 173. *)
Definition retire (arch : string) : M World unit :=
  try_except
    (Sys.service_stop host (worker_timer arch);;
     Sys.service_stop host (worker_service arch);;
     Sys.service_disable host (worker_timer arch);;
     Sys.unlink_missing_ok host
       (systemd_unit_location +:+ "/" +:+ worker_timer arch);;
     Sys.unlink_missing_ok host
       (systemd_unit_location +:+ "/" +:+ worker_service arch);;
     Sys.logger DEBUG "Disabled and cleaned up retired worker for %s" [arch])
    is_Exception
    (fun e =>
       Sys.logger WARNING "Failed to disable retired worker for %s: %s"
         [arch; exn_str e]).

Definition _setup_systemd_units (self : Retracer)
    (architectures : list string) : M World unit :=
  Sys.mkdir_p host systemd_unit_location;;
  let systemd_proxy := systemd_proxy self in
  (* Dupcheck units *)
  service_txt ← Sys.read_text host
                  "src/systemd/launchpad-retracer-dupcheck.service";
  timer_txt ← Sys.read_text host
                "src/systemd/launchpad-retracer-dupcheck.timer";
  Sys.write_text host
    (systemd_unit_location +:+ "/launchpad-retracer-dupcheck.service")
    (service_txt +:+ systemd_proxy);;
  Sys.write_text host
    (systemd_unit_location +:+ "/launchpad-retracer-dupcheck.timer")
    timer_txt;;
  Sys.service_enable_now host "launchpad-retracer-dupcheck.timer";;
  (* Worker units *)
  worker_service_txt ← Sys.read_text host
                         "src/systemd/launchpad-retracer-worker@.service";
  worker_timer_txt ← Sys.read_text host
                       "src/systemd/launchpad-retracer-worker@.timer";
  Sys.write_text host
    (systemd_unit_location +:+ "/launchpad-retracer-worker@.service")
    (worker_service_txt +:+ systemd_proxy);;
  Sys.write_text host
    (systemd_unit_location +:+ "/launchpad-retracer-worker@.timer")
    worker_timer_txt;;
  Sys.daemon_reload host;;
  (* Handle architecture changes *)
  active_timers ← gets (Sys.glob_wants wants_dir worker_prefix timer_suffix);
  current_archs ← of_result (comprehension arch_of active_timers);
  (* Enable units *)
  for_each architectures (fun arch =>
    Sys.service_enable_now host (worker_timer arch));;
  (* Disable and clean up retired ones *)
  for_each current_archs (fun arch =>
    if bool_decide (arch ∉ architectures) then retire arch else ret tt);;
  Sys.logger DEBUG "Systemd units synchronized" [].

Definition _create_directories (architectures : list string)
    : M World unit :=
  try_except
    (Sys.mkdir_p host SRVDIR;;
     Sys.chown host SRVDIR "ubuntu" "ubuntu";;
     Sys.logger DEBUG "Directory %s created" [SRVDIR])
    is_OSError
    (fun e =>
       Sys.logger ERROR "Setting up %s directory failed: %s" [SRVDIR; exn_str e];;
       raise e);;
  let publish_db_dir := SRVDIR +:+ "/apport-duplicates" in
  Sys.mkdir_p host publish_db_dir;;
  Sys.chown host publish_db_dir "ubuntu" "ubuntu";;
  let ubuntu_home := "/home/ubuntu" in
  for_each architectures (fun arch =>
    let cache_dir := ubuntu_home +:+ "/cache-" +:+ arch in
    Sys.mkdir_p host cache_dir;;
    Sys.chown host cache_dir "ubuntu" "ubuntu");;
  (* Needed by apport in sandbox mode *)
  let debugdir := "/usr/lib/debug/.dwz" in
  try_except
    (Sys.mkdir_p host debugdir;;
     Sys.chown host debugdir "ubuntu" "ubuntu";;
     Sys.logger DEBUG "Directory %s created" [debugdir])
    is_OSError
    (fun e =>
       Sys.logger ERROR "Setting up %s directory failed: %s"
         [debugdir; exn_str e];;
       raise e).

Definition _install_scripts : M World unit :=
  let wrapper_source := "src/scripts/worker-wrapper" in
  let wrapper_dest := "/app/retracer-worker-wrapper" in
  try_except
    (Sys.shutil_copy host wrapper_source wrapper_dest;;
     Sys.chmod host wrapper_dest 493;;
     Sys.logger DEBUG "Worker wrapper script installed." [])
    is_OSError
    (fun e =>
       Sys.logger ERROR "Failed to install worker wrapper script: %s"
         [exn_str e];;
       raise e).

Definition _clone_repository (self : Retracer) (url directory : string)
    : M World unit :=
  already ← gets (Sys.path_exists directory);
  if already : bool then
    Sys.logger DEBUG "Directory %s already exists, skipping clone." [directory]
  else
    try_except
      (let argv := ["git"; "clone"; "-b"; "main"; url; directory] in
       (* a clone that succeeds has made the directory *)
       Sys.run_leaving host argv (Sys.git_leaves host (Run argv))
         (set_dirs (fun d => {[directory]} ∪ d));;
       Sys.logger DEBUG "Repository %s cloned to %s." [url; directory])
      is_CalledProcessError
      (fun e =>
         Sys.logger ERROR "Git clone of the code failed: %s" [exn_str e];;
         raise e).

Definition _update_checkout (self : Retracer) (directory : string)
    : M World unit :=
  try_except
    (let argv := ["git"; "-C"; directory; "pull"] in
     Sys.run_leaving host argv (Sys.git_leaves host (Run argv)) id;;
     Sys.logger DEBUG "%s checkout updated." [directory])
    is_CalledProcessError
    (fun e =>
       Sys.logger DEBUG "Git pull in the %s directory failed: %s"
         [directory; exn_str e];;
       raise e).

Definition get_workload_version (self : Retracer) : M World string :=
  try_except
    (stdout ← Sys.run host
                ["dpkg-query"; "-W"; "-f=${Version}"; "apport-retrace"] id;
     let workload_version := PyStr.strip stdout in
     Sys.logger DEBUG "Current 'apport-retrace' version: %s" [workload_version];;
     ret workload_version)
    is_CalledProcessError
    (fun e =>
       Sys.logger WARNING "Failed to get 'apport-retrace' version: %s"
         [exn_str e];;
       ret "unknown").

Definition _download_crashdb (self : Retracer) : M World unit :=
  let db_path := SRVDIR +:+ "/apport_duplicates.db" in
  already ← gets (Sys.path_exists db_path);
  if already : bool then
    Sys.logger DEBUG "Crashdb %s already exists, skipping download." [db_path]
  else
    let url :=
      "https://ubuntu-archive-team.ubuntu.com/apport-duplicates/apport_duplicates.db" in
    try_except
      ((* [requests.get] and [raise_for_status] *)
       Sys.call host (HttpGet url) id;;
       f ← Sys.open_wb host db_path;
       try_finally
         (for_each (iter_content host url) (fun chunk =>
            Sys.call host (IterContent url) id;;
            Sys.file_write host f chunk);;
          (* the read that finds the end of the body *)
          Sys.call host (IterContent url) id)
         (Sys.os_close host f);;
       Sys.chown host db_path "ubuntu" "ubuntu")
      is_Exception
      (fun e =>
         (if is_RequestException e
          then Sys.logger ERROR "Could not download the crashdb: %s" [exn_str e]
          else if is_OSError e
          then Sys.logger ERROR "Could not write the crashdb to %s: %s"
                 [SRVDIR; exn_str e]
          else Sys.logger ERROR "Error in download_crashdb" []);;
         raise e).

Definition _nginx_config : M World unit :=
  try_except
    (Sys.shutil_copy host "src/nginx/crashdb.conf" NGINX_SITE_CONFIG_PATH;;
     Sys.logger DEBUG "Nginx config copied" [])
    (fun e => is_OSError e || is_ShutilError e)
    (fun e =>
       Sys.logger WARNING "Error copying files: %s" [exn_str e];;
       raise e);;
  (* Remove default nginx configuration *)
  Sys.unlink_missing_ok host "/etc/nginx/sites-enabled/default";;
  Sys.logger DEBUG "Nginx default configuration removed" [].

Definition install (self : Retracer) (architectures : list string)
    : M World unit :=
  _install_packages;;
  _clone_repository self RETRACER_CONFIG_URL RETRACER_CONFIG_LOCATION;;
  _install_scripts;;
  _create_directories architectures;;
  _download_crashdb self;;
  _setup_systemd_units self architectures;;
  _nginx_config.

Definition configure (self : Retracer) (architectures : list string)
    : M World unit :=
  _create_directories architectures;;
  _setup_systemd_units self architectures.

Definition start (self : Retracer) (architectures : list string)
    : M World unit :=
  _update_checkout self RETRACER_CONFIG_LOCATION;;
  try_except
    (Sys.service_restart host "nginx";;
     Sys.logger DEBUG "Nginx restarted" [])
    is_CalledProcessError
    (fun e =>
       Sys.logger ERROR "Failed to start systemd services: %s" [exn_str e];;
       raise e).

End WithHost.
End Retracer.

(** ** [src/charm.py] *)

Inductive Status : Type :=
| UnknownStatus
| MaintenanceStatus (message : string)
| BlockedStatus (message : string)
| ActiveStatus.

(** A secret as the handler uses it: [get_content(refresh=True)]. *)
Record Secret : Type := mkSecret {
  get_content : Result (gmap string string) }.

(** What Juju hands to a hook: the charm configuration and
    [model.get_secret(id=...)]. *)
Record Model : Type := mkModel {
  config : gmap string string;
  get_secret : string -> Result Secret }.

Record Charm : Type := mkCharm {
  model : Model;
  _retracer : Retracer;
  unit_status : Status;
  workload_version : option string;
  world : World }.

Definition set_status (st : Status) : M Charm unit :=
  modify (fun c => mkCharm (model c) (_retracer c) st (workload_version c)
                           (world c)).
Definition set_version (v : string) : M Charm unit :=
  modify (fun c => mkCharm (model c) (_retracer c) (unit_status c) (Some v)
                           (world c)).

(** A computation on the host, run from the charm. *)
Definition lift {A} (m : M World A) : M Charm A :=
  fun c => let '(r, w) := m (world c) in
           (r, mkCharm (model c) (_retracer c) (unit_status c)
                       (workload_version c) w).

(** [self.config[key]]. *)
Definition config_get (key : string) : M Charm string :=
  fun c => match config (model c) !! key with
           | Some v => (Ok v, c)
           | None => (Raise (KeyError key), c)
           end.

Module LaunchpadRetracerCharm.
Section WithHost.
Variable host : Host.

Definition _get_architectures : M Charm (list string) :=
  raw ← config_get "architectures";
  let architectures := PyStr.split_ws raw in
  match architectures with
  | [] => raise (ValueError "Config 'architectures' cannot be empty.")
  | _ => ret architectures
  end.

Definition _on_install : M Charm unit :=
  set_status (MaintenanceStatus "Setting up environment");;
  ok ← try_except
         (architectures ← _get_architectures;
          self ← gets _retracer;
          lift (Retracer.install host self architectures);;
          ret true)
         (fun e => is_CalledProcessError e || is_PackageError e
                   || is_PackageNotFoundError e || is_OSError e
                   || is_ShutilError e || is_ValueError e)
         (fun _ =>
            set_status (BlockedStatus
              "Failed to set up the environment. Check `juju debug-log` for details.");;
            ret false);
  if ok : bool then set_status ActiveStatus else ret tt.

Definition _on_start : M Charm unit :=
  set_status (MaintenanceStatus "Starting retracer service");;
  try_except
    (self ← gets _retracer;
     (* Get the apport commit id as workload version *)
     apportversion ← lift (Retracer.get_workload_version host self);
     lift (Sys.call host (SetWorkloadVersion apportversion) id);;
     set_version apportversion;;
     has ← gets (fun c => Retracer.has_credentials (world c));
     if negb has then
       set_status (BlockedStatus "Launchpad credentials not available.")
     else
       architectures ← _get_architectures;
       lift (Retracer.start host self architectures);;
       set_status ActiveStatus)
    (fun e => is_CalledProcessError e || is_ValueError e)
    (fun _ =>
       set_status (BlockedStatus
         "Failed to start services. Check `juju debug-log` for details.")).

Definition _on_config_changed : M Charm unit :=
  set_status (MaintenanceStatus "Importing launchpad credentials");;
  secret_id ← try_except
    (v ← config_get "launchpad-credentials-id"; ret (Some v))
    is_KeyError
    (fun _ =>
       lift (Sys.logger WARNING "No 'launchpad-credentials-id' config" []);;
       set_status (BlockedStatus "Config 'launchpad-credentials-id' required.");;
       ret None);
  match secret_id with
  | None => ret tt
  | Some secret_id =>
  launchpad_secret ← try_except
    (v ← (fun c => (get_secret (model c) secret_id, c)); ret (Some v))
    (fun e => is_SecretNotFoundError e || is_ModelError e || is_TypeError e)
    (fun _ =>
       lift (Sys.logger WARNING "Error getting secret" []);;
       set_status (BlockedStatus
         "Secret not available. Check that access was granted.");;
       ret None);
  match launchpad_secret with
  | None => ret tt
  | Some launchpad_secret =>
  secret_content ← of_result (get_content launchpad_secret);
  let lpcredentials := secret_content !! "lpcredentials" in
  match lpcredentials with
  | None | Some EmptyString =>
      lift (Sys.logger WARNING "Launchpad credentials secret not found" []);;
      set_status (BlockedStatus
        "Secret not available. Check that the 'lpcredentials' key exists.")
  | Some lpcredentials =>
  self ← gets _retracer;
  imported ← try_except
    (lift (Retracer.import_lpcredentials host lpcredentials);;
     lift (Sys.logger DEBUG "Launchpad credentials imported" []);;
     ret true)
    (fun e => is_OSError e || is_KeyError e)
    (fun _ =>
       set_status (BlockedStatus
         "Failed to import the launchpad credentials. Check `juju debug-log` for details.");;
       ret false);
  if negb imported then ret tt else
  configured ← try_except
    (architectures ← _get_architectures;
     lift (Retracer.configure host self architectures);;
     ret true)
    (fun e => is_CalledProcessError e || is_OSError e || is_ValueError e)
    (fun _ =>
       set_status (BlockedStatus
         "Failed to configure the retracer. Check `juju debug-log` for details.");;
       ret false);
  if negb configured then ret tt else
  set_status ActiveStatus
  end end end.

End WithHost.
End LaunchpadRetracerCharm.

(** ** Notions used in the statements *)

(** The two lines one protocol contributes, as the loop body builds them. *)
Definition proxy_lines (proto proxy : string) : string :=
  (PyStr.nl +:+ "Environment=" +:+ proto +:+ "_proxy=" +:+ proxy)
  +:+ (PyStr.nl +:+ "Environment=" +:+ PyStr.upper proto +:+ "_proxy="
       +:+ proxy).

Definition squid_environ : gmap string string :=
  {[ "JUJU_CHARM_HTTP_PROXY" := "http://squid.internal:3128" ]}.

(** An identifier with neither [@] nor [.] in it. *)
Definition clean (a : string) : bool :=
  negb (PyStr.contains "@" a) && negb (PyStr.contains "." a).

(** The path [glob] returns for an entry of the directory. *)
Definition timer_path (n : string) : string :=
  Retracer.wants_dir +:+ "/" +:+ n.

(** A host on which no call ever fails. *)
Definition calm_host : Host :=
  mkHost (fun _ _ => None) (fun _ => "2.33.1-0ubuntu2") (fun _ => [])
         (fun _ w => w).

Definition stale_world : World :=
  mkWorld {[ LP_CREDENTIALS := mkFile "old token" 420 "root" "root" ]}
          ∅ [] [] [] 18 [] [].

Definition fresh_world : World := mkWorld ∅ ∅ [] [] [] 18 [] [].

Definition with_status (st : Status) (f : World -> World) (c : Charm)
    : Charm :=
  mkCharm (model c) (_retracer c) st (workload_version c) (f (world c)).

Definition warn (message : string) : World -> World :=
  set_log (fun l => l ++ [mkLog WARNING message []]).

Definition msg_key_missing : string :=
  "Secret not available. Check that the 'lpcredentials' key exists.".
Definition msg_not_granted : string :=
  "Secret not available. Check that access was granted.".

Definition lp_model (raw_architectures : string)
    (secret_content : gmap string string) : Model :=
  mkModel
    (<["launchpad-credentials-id" := "secret:lp"]>
       {[ "architectures" := raw_architectures ]})
    (fun id => if String.eqb id "secret:lp"
               then Ok (mkSecret (Ok secret_content))
               else Raise SecretNotFoundError).

Definition new_charm (m : Model) (w : World) : Charm :=
  mkCharm m (Retracer.__init__ ∅) UnknownStatus None w.

Definition dpkg_query : list string :=
  ["dpkg-query"; "-W"; "-f=${Version}"; "apport-retrace"].
Definition git_pull : list string :=
  ["git"; "-C"; RETRACER_CONFIG_LOCATION; "pull"].

(** The calls of [import_lpcredentials]. *)
Definition is_import_call (c : Call) : bool :=
  match c with
  | OsOpen p _ _ | OsWrite p _ | OsClose p | Chown p _ _ =>
      String.eqb p LP_CREDENTIALS
  | _ => false
  end.

(** [w'] differs from [w] at most by calls of the import, the credential
    file and the log. *)
Definition import_frame (w w' : World) : Prop :=
  (exists delta, trace w' = trace w ++ delta
                 /\ Forall (fun c => is_import_call c = true) delta)
  /\ (forall p, p <> LP_CREDENTIALS -> files w' !! p = files w !! p)
  /\ dirs w' = dirs w /\ wants w' = wants w /\ active w' = active w
  /\ packages w' = packages w.

Definition msg_install_failed : string :=
  "Failed to set up the environment. Check `juju debug-log` for details.".

(** The function in two parts: the unit files (lines 118 to 146) and the
    synchronisation of the architectures (lines 148 to 175). *)
Definition dupcheck_timer : string := "launchpad-retracer-dupcheck.timer".
Definition src_dupcheck_service : string :=
  "src/systemd/launchpad-retracer-dupcheck.service".
Definition src_dupcheck_timer : string :=
  "src/systemd/launchpad-retracer-dupcheck.timer".
Definition src_worker_service : string :=
  "src/systemd/launchpad-retracer-worker@.service".
Definition src_worker_timer : string :=
  "src/systemd/launchpad-retracer-worker@.timer".
Definition etc_dupcheck_service : string :=
  Retracer.systemd_unit_location +:+ "/launchpad-retracer-dupcheck.service".
Definition etc_dupcheck_timer : string :=
  Retracer.systemd_unit_location +:+ "/launchpad-retracer-dupcheck.timer".
Definition etc_worker_service : string :=
  Retracer.systemd_unit_location +:+ "/launchpad-retracer-worker@.service".
Definition etc_worker_timer : string :=
  Retracer.systemd_unit_location +:+ "/launchpad-retracer-worker@.timer".

Definition write_units (host : Host) (self : Retracer) : M World unit :=
  Sys.mkdir_p host Retracer.systemd_unit_location;;
  service_txt ← Sys.read_text host src_dupcheck_service;
  timer_txt ← Sys.read_text host src_dupcheck_timer;
  Sys.write_text host etc_dupcheck_service
    (service_txt +:+ Retracer.systemd_proxy self);;
  Sys.write_text host etc_dupcheck_timer timer_txt;;
  Sys.service_enable_now host dupcheck_timer;;
  worker_service_txt ← Sys.read_text host src_worker_service;
  worker_timer_txt ← Sys.read_text host src_worker_timer;
  Sys.write_text host etc_worker_service
    (worker_service_txt +:+ Retracer.systemd_proxy self);;
  Sys.write_text host etc_worker_timer worker_timer_txt;;
  Sys.daemon_reload host.

Definition enable_all (host : Host) (architectures : list string)
    : M World unit :=
  for_each architectures (fun arch =>
    Sys.service_enable_now host (Retracer.worker_timer arch)).

Definition retire_all (host : Host) (architectures current_archs : list string)
    : M World unit :=
  for_each current_archs (fun arch =>
    if bool_decide (arch ∉ architectures) then Retracer.retire host arch
    else ret tt).

Definition current_archs (w : World) : Result (list string) :=
  comprehension Retracer.arch_of
    (Sys.glob_wants Retracer.wants_dir Retracer.worker_prefix
       Retracer.timer_suffix w).

Definition sync_units (host : Host) (architectures : list string)
    : M World unit :=
  current ← (fun w => (current_archs w, w));
  enable_all host architectures;;
  retire_all host architectures current;;
  Sys.logger DEBUG "Systemd units synchronized" [].

(** A world after one more recorded call. *)
Definition called (c : Call) (w : World) : World :=
  set_trace (fun t => t ++ [c]) w.

(** The effect of [write_text]. *)
Definition written (p data : string) (w : World) : World :=
  let f := Sys.create_or_truncate p 438 w in
  set_files <[p := mkFile data (mode f) (owner f) (group f)]> w.

(** The effect of [service_enable("--now", u)]. *)
Definition enabled_now (u : string) (w : World) : World :=
  set_active (add_entry u)
    (set_wants (add_entry u) (called (ServiceEnable ["--now"; u]) w)).

(** The world [write_units] leaves when every step succeeds, from the
    four template texts. *)
Definition units_world (self : Retracer) (ds dt ws wt : string) (w : World)
    : World :=
  let proxy := Retracer.systemd_proxy self in
  let w1 := set_dirs (fun d => {[Retracer.systemd_unit_location]} ∪ d)
              (called (MkdirP Retracer.systemd_unit_location) w) in
  let w2 := called (ReadText src_dupcheck_timer)
              (called (ReadText src_dupcheck_service) w1) in
  let w3 := written etc_dupcheck_service (ds +:+ proxy)
              (called (WriteText etc_dupcheck_service (ds +:+ proxy)) w2) in
  let w4 := written etc_dupcheck_timer dt
              (called (WriteText etc_dupcheck_timer dt) w3) in
  let w5 := enabled_now dupcheck_timer w4 in
  let w6 := called (ReadText src_worker_timer)
              (called (ReadText src_worker_service) w5) in
  let w7 := written etc_worker_service (ws +:+ proxy)
              (called (WriteText etc_worker_service (ws +:+ proxy)) w6) in
  let w8 := written etc_worker_timer wt
              (called (WriteText etc_worker_timer wt) w7) in
  called DaemonReload w8.

(** The calls of [write_units], in order. *)
Definition units_calls (self : Retracer) (ds dt ws wt : string) : list Call :=
  let proxy := Retracer.systemd_proxy self in
  [MkdirP Retracer.systemd_unit_location;
   ReadText src_dupcheck_service; ReadText src_dupcheck_timer;
   WriteText etc_dupcheck_service (ds +:+ proxy);
   WriteText etc_dupcheck_timer dt;
   ServiceEnable ["--now"; dupcheck_timer];
   ReadText src_worker_service; ReadText src_worker_timer;
   WriteText etc_worker_service (ws +:+ proxy);
   WriteText etc_worker_timer wt;
   DaemonReload].

(** Paths under the unit directory. *)
Definition under_units (p : string) : bool :=
  bool_decide (is_Some (PyStr.strip_prefix "/etc/systemd/system/" p)).

(** No call fails once the history [t] has been reached. *)
Definition quiet_from (host : Host) (t : list Call) : Prop :=
  forall h c, fault host (t ++ h) c = None.

Fixpoint enable_world (architectures : list string) (w : World) : World :=
  match architectures with
  | [] => w
  | arch :: rest =>
      enable_world rest (enabled_now (Retracer.worker_timer arch) w)
  end.

Definition enable_calls (architectures : list string) : list Call :=
  (fun arch => ServiceEnable ["--now"; Retracer.worker_timer arch])
    <$> architectures.

Definition unit_path (name : string) : string :=
  Retracer.systemd_unit_location +:+ "/" +:+ name.

(** The five steps of one retirement, in the order of the source. *)
Definition retire_calls (arch : string) : list Call :=
  [ServiceStop (Retracer.worker_timer arch);
   ServiceStop (Retracer.worker_service arch);
   ServiceDisable (Retracer.worker_timer arch);
   Unlink (unit_path (Retracer.worker_timer arch));
   Unlink (unit_path (Retracer.worker_service arch))].

Definition is_retire_call (c : Call) : bool :=
  match c with
  | ServiceStop _ | ServiceDisable _ | Unlink _ => true
  | _ => false
  end.

Definition stopped (u : string) (w : World) : World :=
  set_active (remove_entry u) (called (ServiceStop u) w).
Definition disabled (u : string) (w : World) : World :=
  set_wants (remove_entry u) (called (ServiceDisable u) w).
Definition unlinked (p : string) (w : World) : World :=
  set_files (delete p) (called (Unlink p) w).

Definition retired_msg : string :=
  "Disabled and cleaned up retired worker for %s".
Definition retire_failed_msg : string :=
  "Failed to disable retired worker for %s: %s".

(** The world a retirement leaves when its five steps succeed. *)
Definition retired (arch : string) (w : World) : World :=
  set_log (fun l => l ++ [mkLog DEBUG retired_msg [arch]])
    (unlinked (unit_path (Retracer.worker_service arch))
       (unlinked (unit_path (Retracer.worker_timer arch))
          (disabled (Retracer.worker_timer arch)
             (stopped (Retracer.worker_service arch)
                (stopped (Retracer.worker_timer arch) w))))).

(** What a retirement that was cut short leaves: the first [n] calls
    were made, the last of them raised [e], and a warning is logged. *)
Definition cut_short (arch : string) (n : nat) (e : Exn) (w w' : World)
    : Prop :=
  1 <= n <= 5
  /\ trace w' = trace w ++ take n (retire_calls arch)
  /\ log w' = log w ++ [mkLog WARNING retire_failed_msg [arch; exn_str e]].

(** The warning the handler of line 173 logs. *)
Definition warned (arch : string) (e : Exn) (w : World) : World :=
  set_log (fun l => l ++ [mkLog WARNING retire_failed_msg [arch; exn_str e]])
          w.

(** A host on which no step of a retirement ever fails. *)
Definition retire_reliable (host : Host) : Prop :=
  forall h c, is_retire_call c = true -> fault host h c = None.

(** The loop of lines 159 to 173 on such a host. *)
Fixpoint retire_world (architectures current : list string) (w : World)
    : World :=
  match current with
  | [] => w
  | arch :: rest =>
      retire_world architectures rest
        (if bool_decide (arch ∉ architectures) then retired arch w else w)
  end.

Definition retirees (architectures current : list string) : list string :=
  filter (fun arch => arch ∉ architectures) current.

(** Every enabled worker timer is for an identifier without [@] and [.]. *)
Definition live_clean (w : World) : Prop :=
  forall arch, Retracer.worker_timer arch ∈ wants w -> clean arch = true.

Definition synced_msg : LogRecord :=
  mkLog DEBUG "Systemd units synchronized" [].

(** The four templates, as they sit in the charm's directory. *)
Definition unit_templates : gmap string File :=
  <[src_dupcheck_service := mkFile "[Service]" 420 "root" "root"]>
  (<[src_dupcheck_timer := mkFile "[Timer]" 420 "root" "root"]>
  (<[src_worker_service := mkFile "[Service] %i" 420 "root" "root"]>
  (<[src_worker_timer := mkFile "[Timer] %i" 420 "root" "root"]> ∅))).

(** A machine on which the workers of amd64 and arm64 are enabled. *)
Definition two_workers : World :=
  mkWorld unit_templates ∅
    [Retracer.worker_timer "amd64"; Retracer.worker_timer "arm64"]
    [Retracer.worker_timer "amd64"; Retracer.worker_timer "arm64"]
    [] 18 [] [].

#[global] Instance Call_eq_dec : EqDecision Call.
Proof. solve_decision. Defined.

Definition is_stop (c : Call) : bool :=
  match c with ServiceStop _ => true | _ => false end.

(** A host on which the first attempt ever to stop a unit fails. *)
Definition stop_fails_once : Host :=
  mkHost (fun h c =>
            match c with
            | ServiceStop _ =>
                if existsb is_stop h then None else Some SystemdError
            | _ => None
            end)
         (fun _ => "") (fun _ => []) (fun _ w => w).


(** Every outcome of [m], normal or not, is related to its start by [R]. *)
Definition keeps (R : World -> World -> Prop) {A} (m : M World A) : Prop :=
  forall w r w', m w = (r, w') -> R w w'.

(** Every character of [s] passes [P]. *)
Fixpoint all_chars (P : ascii -> bool) (s : string) : bool :=
  match s with
  | EmptyString => true
  | String x s' => P x && all_chars P s'
  end.

(** A word: not empty, no white space in it. *)
Definition is_word (a : string) : bool :=
  match a with
  | EmptyString => false
  | String _ _ => all_chars (fun x => negb (PyStr.is_space x)) a
  end.

(** [" ".join(ws)]. *)
Fixpoint join_sp (ws : list string) : string :=
  match ws with
  | [] => ""
  | a :: ws' =>
      match ws' with
      | [] => a
      | _ :: _ => a +:+ " " +:+ join_sp ws'
      end
  end.

Definition msg_empty_architectures : string :=
  "Config 'architectures' cannot be empty.".

(** Empty, or starting with a character that is not white space. *)
Definition starts_clean (s : string) : bool :=
  match s with
  | EmptyString => true
  | String x _ => negb (PyStr.is_space x)
  end.

(** The command line of the clone, lines 226 to 233. *)
Definition git_clone (url directory : string) : list string :=
  ["git"; "clone"; "-b"; "main"; url; directory].

(** The crash database and where it comes from, lines 287 and 292. *)
Definition crashdb_path : string := SRVDIR +:+ "/apport_duplicates.db".
Definition crashdb_url : string :=
  "https://ubuntu-archive-team.ubuntu.com/apport-duplicates/apport_duplicates.db".

(** The loop of lines 105 to 114, over any list of packages. *)
Definition add_packages (host : Host) (ps : list string) : M World unit :=
  for_each ps (fun p =>
    try_except
      (Sys.apt_add_package host p;;
       Sys.logger DEBUG "Package %s installed" [p])
      (fun e => is_PackageNotFoundError e || is_PackageError e)
      (fun e =>
         (if is_PackageNotFoundError e
          then Sys.logger ERROR "Failed to find package %s in package cache" [p]
          else Sys.logger ERROR "Failed to install %s: %s" [p; exn_str e]);;
         raise e)).

(** The calls of [_install_packages] that reaches the [n]-th package. *)
Definition install_calls (n : nat) : list Call :=
  AptUpdate :: (AptAddPackage <$> take n PACKAGES).

(** The directories of lines 187, 193 and 199. *)
Definition publish_db_dir : string := SRVDIR +:+ "/apport-duplicates".
Definition cache_dir (arch : string) : string :=
  "/home/ubuntu" +:+ "/cache-" +:+ arch.
Definition debugdir : string := "/usr/lib/debug/.dwz".

(** [w'] has the files, services and packages of [w], and at least its
    directories. *)
Definition dirs_grow (w w' : World) : Prop :=
  files w' = files w /\ dirs w ⊆ dirs w' /\ wants w' = wants w
  /\ active w' = active w /\ packages w' = packages w.

(** The paths of lines 209, 210, 314 and 321. *)
Definition wrapper_source : string := "src/scripts/worker-wrapper".
Definition wrapper_dest : string := "/app/retracer-worker-wrapper".
Definition nginx_source : string := "src/nginx/crashdb.conf".
Definition nginx_default : string := "/etc/nginx/sites-enabled/default".

(** Owner and group a copy onto [p] ends with: those of the file it
    replaces, or [root]. *)
Definition owner_at (p : string) (w : World) : string :=
  match files w !! p with Some old => owner old | None => "root" end.
Definition group_at (p : string) (w : World) : string :=
  match files w !! p with Some old => group old | None => "root" end.

Definition msg_starting : string := "Starting retracer service".
Definition msg_no_credentials : string :=
  "Launchpad credentials not available.".
Definition msg_start_failed : string :=
  "Failed to start services. Check `juju debug-log` for details.".

(** The exceptions the start handler catches, line 80. *)
Definition start_caught (e : Exn) : bool :=
  is_CalledProcessError e || is_ValueError e.

(** The text of [s] before the first [sep], all of [s] if there is none. *)
Fixpoint before (sep : ascii) (s : string) : string :=
  match s with
  | EmptyString => EmptyString
  | String x s' =>
      if Ascii.eqb x sep then EmptyString else String x (before sep s')
  end.

(** What line 152 keeps of an identifier: its text before the first [@]
    or [.]. *)
Definition stem (a : string) : string := before "." (before "@" a).

(** Every stop, disabling or deletion made between [w] and [w'] is a step
    of the retirement of an architecture outside [architectures]. *)
Definition spares (architectures : list string) (w w' : World) : Prop :=
  exists d,
    trace w' = trace w ++ d
    /\ Forall (fun c =>
                is_retire_call c = true ->
                exists a, (a ∉ architectures) /\ c ∈ retire_calls a) d.

(** [w'] has the packages of [w], at least its directories, and its
    files outside the unit directory. *)
Definition units_only (w w' : World) : Prop :=
  packages w' = packages w /\ dirs w ⊆ dirs w'
  /\ forall q, under_units q = false -> files w' !! q = files w !! q.

(** What a pass must leave alone of the dupcheck units. *)
Definition dupcheck_retire_calls : list Call :=
  [ServiceStop dupcheck_timer; ServiceDisable dupcheck_timer;
   Unlink etc_dupcheck_timer; Unlink etc_dupcheck_service].

(** The unit or the path a stop, a disabling or a deletion is about. *)
Definition call_unit (c : Call) : string :=
  match c with
  | ServiceStop u | ServiceDisable u | Unlink u => u
  | _ => ""
  end.

(** The unit [u], if enabled in [w], is enabled in [w'], and likewise if
    started. *)
Definition stays (u : string) (w w' : World) : Prop :=
  (u ∈ wants w -> u ∈ wants w') /\ (u ∈ active w -> u ∈ active w').

Definition msg_importing : string := "Importing launchpad credentials".
Definition msg_id_required : string :=
  "Config 'launchpad-credentials-id' required.".
Definition msg_import_failed : string :=
  "Failed to import the launchpad credentials. Check `juju debug-log` for details.".
Definition msg_configure_failed : string :=
  "Failed to configure the retracer. Check `juju debug-log` for details.".

(** The credential file holds [lp] and belongs to [ubuntu:ubuntu]. *)
Definition credentials_stored (lp : string) (w : World) : Prop :=
  exists f, files w !! LP_CREDENTIALS = Some f
            /\ content f = lp /\ owner f = "ubuntu" /\ group f = "ubuntu".

(** [w'] has at least the packages and the directories of [w], and its
    files outside the unit directory and [touched]. *)
Definition frame (touched : list string) (w w' : World) : Prop :=
  (forall p, p ∈ packages w -> p ∈ packages w')
  /\ dirs w ⊆ dirs w'
  /\ forall q, under_units q = false -> q ∉ touched ->
               files w' !! q = files w !! q.

(** The files [install] writes outside the unit directory. *)
Definition install_touched : list string :=
  [wrapper_dest; crashdb_path; NGINX_SITE_CONFIG_PATH; nginx_default].

(** What [install] has put in place in [w']. *)
Definition installed (architectures : list string) (w' : World) : Prop :=
  (forall p, p ∈ PACKAGES -> p ∈ packages w')
  /\ Sys.path_exists RETRACER_CONFIG_LOCATION w' = true
  /\ (exists src f,
        files w' !! wrapper_source = Some src
        /\ files w' !! wrapper_dest = Some f
        /\ content f = content src /\ mode f = 493%N)
  /\ (SRVDIR ∈ dirs w' /\ publish_db_dir ∈ dirs w' /\ debugdir ∈ dirs w')
  /\ Sys.path_exists crashdb_path w' = true
  /\ (dupcheck_timer ∈ wants w' /\ dupcheck_timer ∈ active w')
  /\ (forall arch, arch ∈ architectures ->
        cache_dir arch ∈ dirs w'
        /\ Retracer.worker_timer arch ∈ wants w'
        /\ Retracer.worker_timer arch ∈ active w')
  /\ (exists src f,
        files w' !! nginx_source = Some src
        /\ files w' !! NGINX_SITE_CONFIG_PATH = Some f
        /\ content f = content src)
  /\ files w' !! nginx_default = None.

(** The first two steps of [install], lines 58 and 59. *)
Definition fetch (host : Host) (self : Retracer) : M World unit :=
  Retracer._install_packages host;;
  Retracer._clone_repository host self RETRACER_CONFIG_URL
    RETRACER_CONFIG_LOCATION.

Definition msg_setting_up : string := "Setting up environment".

(** The exceptions the install handler catches, lines 51 to 58. *)
Definition install_caught (e : Exn) : bool :=
  is_CalledProcessError e || is_PackageError e || is_PackageNotFoundError e
  || is_OSError e || is_ShutilError e || is_ValueError e.

(** A fresh machine with the charm's files in its working directory. *)
Definition charm_files : gmap string File :=
  <[wrapper_source := mkFile "#!/bin/sh" 420 "root" "root"]>
  (<[nginx_source := mkFile "server {}" 420 "root" "root"]> unit_templates).
Definition new_machine : World := mkWorld charm_files ∅ [] [] [] 18 [] [].

(** The call that opens the credential file, line 84. *)
Definition open_credentials : Call :=
  OsOpen LP_CREDENTIALS (N.lor (N.lor O_CREAT O_WRONLY) O_TRUNC) 384.

(** The call that opens the crash database for writing, line 296. *)
Definition open_crashdb : Call :=
  OsOpen crashdb_path (N.lor (N.lor O_CREAT O_WRONLY) O_TRUNC) 438.

(** [b"".join(chunks)]. *)
Definition join_chunks (chunks : list string) : string :=
  fold_right String.append "" chunks.

(** The calls of the loop of lines 297 and 298 over [chunks]. *)
Definition stream_calls (chunks : list string) : list Call :=
  chunks ≫= (fun chunk =>
    [IterContent crashdb_url; OsWrite crashdb_path chunk]).

(** The calls of a download that succeeds. *)
Definition download_calls (chunks : list string) : list Call :=
  [HttpGet crashdb_url; open_crashdb] ++ stream_calls chunks
  ++ [IterContent crashdb_url; OsClose crashdb_path;
      Chown crashdb_path "ubuntu" "ubuntu"].

(** [w'] differs from [w] by its files and its recorded calls at most. *)
Definition only_files (w w' : World) : Prop :=
  dirs w' = dirs w /\ wants w' = wants w /\ active w' = active w
  /\ packages w' = packages w /\ umask w' = umask w /\ log w' = log w.

(** A host on which nothing fails, the crash database arrives in two
    chunks, git leaves a file in the checkout and the installation of
    nginx leaves its default site and the server started. *)
Definition busy_host : Host :=
  mkHost (fun _ _ => None) (fun _ => "2.33.1-0ubuntu2")
         (fun _ => ["SQLite format 3"; " and the rest"])
         (fun c w =>
            match c with
            | Run _ =>
                set_files
                  <["/app/config-apport/README" :=
                      mkFile "retracer configuration" 420 "root" "root"]> w
            | AptAddPackage "nginx-light" =>
                set_active (add_entry "nginx")
                  (set_files
                     <[nginx_default := mkFile "server {}" 420 "root" "root"]>
                     w)
            | _ => w
            end).

(** A host on which the body of the crash database breaks off after its
    first chunk. *)
Definition broken_download : Host :=
  mkHost (fun h c =>
            match c with
            | IterContent _ =>
                if bool_decide (IterContent crashdb_url ∈ h)
                then Some RequestException else None
            | _ => None
            end)
         (fun _ => "") (fun _ => ["SQLite format 3"; " and the rest"])
         (fun _ w => w).

(** The steps [cs] as the host lets them go from the history [t]: the
    calls made, up to and with the first that fails, and the exception
    of that one. *)
Fixpoint attempt (host : Host) (t cs : list Call) : list Call * option Exn :=
  match cs with
  | [] => ([], None)
  | c :: cs' =>
      match fault host t c with
      | Some e => ([c], Some e)
      | None =>
          let '(d, r) := attempt host (t ++ [c]) cs' in (c :: d, r)
      end
  end.



(** Nothing is enabled, started or created between [w] and [w']. *)
Definition shrinks (w w' : World) : Prop :=
  (forall u, u ∈ wants w' -> u ∈ wants w)
  /\ (forall u, u ∈ active w' -> u ∈ active w)
  /\ (forall p, files w !! p = None -> files w' !! p = None).


(** * Properties *)

Example split_at_ex :
  PyStr.split "@" "dir/launchpad-retracer-worker@amd64.timer"
  = ["dir/launchpad-retracer-worker"; "amd64.timer"].
Proof. reflexivity. Qed.

Example split_ws_ex : PyStr.split_ws "  amd64   arm64 " = ["amd64"; "arm64"].
Proof. reflexivity. Qed.

Example split_ws_blank : PyStr.split_ws "   " = [].
Proof. reflexivity. Qed.

(** A no-break space, U+00A0, separates words like any white space. *)
Example split_ws_nbsp :
  PyStr.split_ws (String "160"%char "") = []
  /\ PyStr.split_ws ("amd64" +:+ String "160"%char "arm64")
     = ["amd64"; "arm64"].
Proof. split; vm_compute; reflexivity. Qed.

Example upper_ex : PyStr.upper "https" = "HTTPS".
Proof. reflexivity. Qed.

Example fnmatch_ex :
  PyStr.fnmatch_star "w@" ".timer" "w@.timer" = true
  /\ PyStr.fnmatch_star "w@" ".timer" "w@x.time" = false.
Proof. split; reflexivity. Qed.

(** ** Strings *)

Lemma str_app_cons a s t : String a s +:+ t = String a (s +:+ t).
Proof. reflexivity. Qed.

Lemma str_app_nil_l t : "" +:+ t = t.
Proof. reflexivity. Qed.

Lemma str_app_nil_r s : s +:+ "" = s.
Proof. induction s as [|a s IH]; [done|]. by rewrite str_app_cons, IH. Qed.

Lemma str_app_length s t :
  String.length (s +:+ t) = String.length s + String.length t.
Proof. induction s as [|a s IH]; [done|]. rewrite str_app_cons. simpl. by rewrite IH. Qed.

Lemma str_app_inj_r s1 s2 t : s1 +:+ t = s2 +:+ t -> s1 = s2.
Proof.
  revert s2. induction s1 as [|a s1 IH]; intros [|b s2] H.
  - done.
  - apply (f_equal String.length) in H.
    rewrite str_app_nil_l, str_app_cons in H. simpl in H.
    rewrite str_app_length in H. lia.
  - apply (f_equal String.length) in H.
    rewrite str_app_nil_l, str_app_cons in H. simpl in H.
    rewrite str_app_length in H. lia.
  - rewrite !str_app_cons in H. injection H as -> H. f_equal. by apply IH.
Qed.

Lemma contains_app c s t :
  PyStr.contains c (s +:+ t) = PyStr.contains c s || PyStr.contains c t.
Proof.
  induction s as [|a s IH]; [done|].
  rewrite str_app_cons. simpl. rewrite IH. by rewrite orb_assoc.
Qed.

Lemma split_not_nil sep s : PyStr.split sep s <> [].
Proof.
  destruct s as [|a s]; simpl; [done|].
  destruct (Ascii.eqb a sep); [done|]. by destruct (PyStr.split sep s).
Qed.

Lemma split_no_sep sep s :
  PyStr.contains sep s = false -> PyStr.split sep s = [s].
Proof.
  induction s as [|a s IH]; simpl; [done|].
  intros [Ha Hs]%orb_false_elim. rewrite Ha. by rewrite (IH Hs).
Qed.

Lemma split_app_sep sep s r :
  PyStr.contains sep s = false ->
  PyStr.split sep (s +:+ String sep r) = s :: PyStr.split sep r.
Proof.
  induction s as [|a s IH].
  - intros _. rewrite str_app_nil_l. simpl. by rewrite Ascii.eqb_refl.
  - simpl PyStr.contains. intros [Ha Hs]%orb_false_elim.
    rewrite str_app_cons. simpl. rewrite Ha. by rewrite (IH Hs).
Qed.

Lemma strip_prefix_app p s : PyStr.strip_prefix p (p +:+ s) = Some s.
Proof.
  induction p as [|a p IH]; [done|].
  rewrite str_app_cons. simpl. by rewrite Ascii.eqb_refl.
Qed.

Lemma strip_prefix_Some p s r :
  PyStr.strip_prefix p s = Some r -> s = p +:+ r.
Proof.
  revert s. induction p as [|a p IH]; intros s; simpl.
  - by intros [= ->].
  - destruct s as [|b s]; [done|].
    destruct (Ascii.eqb a b) eqn:E; [|done].
    apply Ascii.eqb_eq in E as ->. intros H. rewrite str_app_cons. f_equal. auto.
Qed.

Lemma endswith_nil suf :
  PyStr.endswith suf "" = String.eqb "" suf || false.
Proof. reflexivity. Qed.

Lemma endswith_cons suf x s :
  PyStr.endswith suf (String x s)
  = String.eqb (String x s) suf || PyStr.endswith suf s.
Proof. reflexivity. Qed.

Lemma endswith_self suf : PyStr.endswith suf suf = true.
Proof.
  destruct suf; [done|]. by rewrite endswith_cons, String.eqb_refl.
Qed.

Lemma endswith_app suf a : PyStr.endswith suf (a +:+ suf) = true.
Proof.
  induction a as [|x a IH].
  - rewrite str_app_nil_l. apply endswith_self.
  - rewrite str_app_cons, endswith_cons, IH. apply orb_true_r.
Qed.

Lemma endswith_true suf s :
  PyStr.endswith suf s = true -> exists a, s = a +:+ suf.
Proof.
  induction s as [|x s IH].
  - rewrite endswith_nil, orb_false_r.
    intros H%String.eqb_eq. exists "". by subst.
  - rewrite endswith_cons.
    intros [H%String.eqb_eq | H]%orb_true_iff.
    + exists "". by subst.
    + destruct (IH H) as [a ->]. by exists (String x a).
Qed.

(** The pattern [pre*suf] takes exactly the names [pre ++ a ++ suf]. *)
Lemma fnmatch_star_spec pre suf n :
  PyStr.fnmatch_star pre suf n = true <-> exists a, n = pre +:+ a +:+ suf.
Proof.
  unfold PyStr.fnmatch_star. split.
  - destruct (PyStr.strip_prefix pre n) as [r|] eqn:E; [|done].
    intros [a ->]%endswith_true. exists a. by apply strip_prefix_Some.
  - intros [a ->]. rewrite strip_prefix_app. apply endswith_app.
Qed.

(** ** The proxy block (lines 121 to 124) *)

Lemma str_app_assoc s t u : (s +:+ t) +:+ u = s +:+ t +:+ u.
Proof.
  induction s as [|a s IH]; [done|]. by rewrite !str_app_cons, IH.
Qed.

Lemma systemd_proxy_nil e : Retracer.systemd_proxy (mkRetracer e []) = "".
Proof. reflexivity. Qed.

Lemma systemd_proxy_snoc e l proto proxy :
  Retracer.systemd_proxy (mkRetracer e (l ++ [(proto, proxy)]))
  = Retracer.systemd_proxy (mkRetracer e l) +:+ proxy_lines proto proxy.
Proof.
  unfold Retracer.systemd_proxy, proxy_lines. simpl proxies.
  rewrite fold_left_app. simpl fold_left. by rewrite str_app_assoc.
Qed.

(** [__init__] records at most the two protocols, [http] first. *)
Lemma init_proxies environ :
  proxies (Retracer.__init__ environ)
  = (if PyStr.truthy (environ !! "JUJU_CHARM_HTTP_PROXY")
     then [("http", default "" (environ !! "JUJU_CHARM_HTTP_PROXY"))]
     else [])
    ++ (if PyStr.truthy (environ !! "JUJU_CHARM_HTTPS_PROXY")
        then [("https", default "" (environ !! "JUJU_CHARM_HTTPS_PROXY"))]
        else []).
Proof.
  unfold Retracer.__init__.
  destruct (environ !! "JUJU_CHARM_HTTP_PROXY") as [[|??]|];
    destruct (environ !! "JUJU_CHARM_HTTPS_PROXY") as [[|??]|]; reflexivity.
Qed.

(** C5. With the HTTP proxy configured, the block holds two lines for the
    protocol, both set to the proxy URL; the first key is [http_proxy],
    the second is [HTTP_proxy] (the protocol in upper case followed by a
    lower-case [_proxy]), and no line has the key [HTTP_PROXY], which is
    the name [__init__] itself exports into [env]. *)
Theorem systemd_proxy_upper_case_key :
  let self := Retracer.__init__ squid_environ in
  proxies self = [("http", "http://squid.internal:3128")]
  /\ PyStr.split "010" (Retracer.systemd_proxy self)
     = [""; "Environment=http_proxy=http://squid.internal:3128";
        "Environment=HTTP_proxy=http://squid.internal:3128"]
  /\ ("Environment=HTTP_PROXY=http://squid.internal:3128"
        ∉ PyStr.split "010" (Retracer.systemd_proxy self))
  /\ env self !! "HTTP_PROXY" = Some "http://squid.internal:3128".
Proof.
  assert (E : proxies (Retracer.__init__ squid_environ)
              = [("http", "http://squid.internal:3128")]) by (vm_compute; reflexivity).
  cbv zeta. split; [exact E|].
  assert (L : PyStr.split "010"
                (Retracer.systemd_proxy (Retracer.__init__ squid_environ))
              = [""; "Environment=http_proxy=http://squid.internal:3128";
                 "Environment=HTTP_proxy=http://squid.internal:3128"]).
  { unfold Retracer.systemd_proxy. rewrite E. vm_compute. reflexivity. }
  split; [exact L|]. split.
  - rewrite L. intros H. repeat (apply elem_of_cons in H as [H|H]; [discriminate H|]).
    by apply elem_of_nil in H.
  - vm_compute. reflexivity.
Qed.

(** ** Live-set discovery (lines 148 to 152) *)

Lemma worker_timer_inj a b :
  Retracer.worker_timer a = Retracer.worker_timer b -> a = b.
Proof.
  unfold Retracer.worker_timer. intros H.
  apply (inj (String.app _)) in H. by apply str_app_inj_r in H.
Qed.

Lemma worker_timer_match a :
  PyStr.fnmatch_star Retracer.worker_prefix Retracer.timer_suffix
    (Retracer.worker_timer a) = true.
Proof. apply fnmatch_star_spec. by exists a. Qed.

Lemma match_worker_timer n :
  PyStr.fnmatch_star Retracer.worker_prefix Retracer.timer_suffix n = true ->
  exists a, n = Retracer.worker_timer a.
Proof. intros [a ->]%fnmatch_star_spec. by exists a. Qed.

Lemma split_at_timer_path rest :
  PyStr.split "@" (timer_path (Retracer.worker_prefix +:+ rest))
  = "/etc/systemd/system/timers.target.wants/launchpad-retracer-worker"
    :: PyStr.split "@" rest.
Proof.
  unfold timer_path, Retracer.wants_dir, Retracer.worker_prefix.
  rewrite !str_app_cons, !str_app_nil_l. reflexivity.
Qed.

(** For an identifier without [@] and [.], line 152 recovers it from the
    timer's path. *)
Lemma arch_of_clean a :
  clean a = true -> Retracer.arch_of (timer_path (Retracer.worker_timer a)) = Ok a.
Proof.
  unfold clean. intros [Hat Hdot]%andb_true_iff.
  apply negb_true_iff in Hat, Hdot.
  unfold Retracer.arch_of, Retracer.worker_timer.
  rewrite split_at_timer_path.
  rewrite (split_no_sep "@" (a +:+ Retracer.timer_suffix)).
  2:{ rewrite contains_app, Hat. reflexivity. }
  simpl lookup. unfold Retracer.timer_suffix.
  by rewrite (split_app_sep "." a "timer" Hdot).
Qed.

(** A name the pattern takes never makes line 152 raise [IndexError]. *)
Lemma arch_of_match_total n :
  PyStr.fnmatch_star Retracer.worker_prefix Retracer.timer_suffix n = true ->
  exists a, Retracer.arch_of (timer_path n) = Ok a.
Proof.
  intros [rest ->]%fnmatch_star_spec.
  unfold Retracer.arch_of. rewrite split_at_timer_path.
  pose proof (split_not_nil "@" (rest +:+ Retracer.timer_suffix)) as H1.
  destruct (PyStr.split "@" (rest +:+ Retracer.timer_suffix)) as [|x xs];
    [done|]. simpl.
  pose proof (split_not_nil "." x) as H2.
  destruct (PyStr.split "." x) as [|y ys]; [done|]. simpl. by exists y.
Qed.

(** Names outside the pattern are not listed. *)
Lemma glob_wants_elem w p :
  p ∈ Sys.glob_wants Retracer.wants_dir Retracer.worker_prefix
        Retracer.timer_suffix w
  <-> exists n, p = timer_path n /\ n ∈ wants w
                /\ PyStr.fnmatch_star Retracer.worker_prefix
                     Retracer.timer_suffix n = true.
Proof.
  unfold Sys.glob_wants. rewrite list_elem_of_fmap.
  split.
  - intros (n & -> & [Hm Hn]%list_elem_of_filter). by exists n.
  - intros (n & -> & Hn & Hm). exists n. split; [done|].
    by apply list_elem_of_filter.
Qed.

(** C7. The timer of an architecture named [amd64.v3] is one the pattern
    takes; the text between [@] and [.timer] is [amd64.v3], and line 152
    yields [amd64]. *)
Theorem arch_of_dotted_identifier :
  let n := Retracer.worker_timer "amd64.v3" in
  n = "launchpad-retracer-worker@amd64.v3.timer"
  /\ PyStr.fnmatch_star Retracer.worker_prefix Retracer.timer_suffix n = true
  /\ Retracer.arch_of (timer_path n) = Ok "amd64"
  /\ Retracer.arch_of (timer_path n) <> Ok "amd64.v3".
Proof. cbv zeta. repeat split; try reflexivity. vm_compute. discriminate. Qed.

(** ** Reasoning about computations *)

Lemma bind_unfold {S A B} (m : M S A) (k : A -> M S B) s :
  (m ≫= k) s = match m s with
               | (Ok a, s') => k a s'
               | (Raise e, s') => (Raise e, s')
               end.
Proof. reflexivity. Qed.

Lemma bind_ok_inv {S A B} (m : M S A) (k : A -> M S B) s b s' :
  (m ≫= k) s = (Ok b, s') ->
  exists a s1, m s = (Ok a, s1) /\ k a s1 = (Ok b, s').
Proof.
  rewrite bind_unfold. destruct (m s) as [[a|e] s1]; [|done]. eauto.
Qed.

Lemma try_except_unfold {S A} (body : M S A) cls h s :
  try_except body cls h s
  = match body s with
    | (Raise e, s') => if cls e then h e s' else (Raise e, s')
    | r => r
    end.
Proof. reflexivity. Qed.

(** One outside call, its two outcomes. *)
Lemma call_with_cases host {A} c (run : World -> Result A * World) w :
  (fault host (trace w) c = None
   /\ Sys.call_with host c run w = run (set_trace (fun t => t ++ [c]) w))
  \/ (exists e, fault host (trace w) c = Some e
      /\ Sys.call_with host c run w
         = (Raise e, set_trace (fun t => t ++ [c]) w)).
Proof.
  unfold Sys.call_with. destruct (fault host (trace w) c) as [e|]; eauto.
Qed.

Lemma call_cases host c effect w :
  (fault host (trace w) c = None
   /\ Sys.call host c effect w
      = (Ok tt, effect (set_trace (fun t => t ++ [c]) w)))
  \/ (exists e, fault host (trace w) c = Some e
      /\ Sys.call host c effect w
         = (Raise e, set_trace (fun t => t ++ [c]) w)).
Proof.
  unfold Sys.call. destruct (fault host (trace w) c) as [e|]; eauto.
Qed.

Lemma call_ok_inv host c effect w r w' :
  Sys.call host c effect w = (Ok r, w') ->
  fault host (trace w) c = None
  /\ w' = effect (set_trace (fun t => t ++ [c]) w).
Proof.
  destruct (call_cases host c effect w) as [[H ->]|(e & H & ->)]; [|done].
  by intros [= <-].
Qed.

Lemma call_with_ok_inv host {A} c (run : World -> Result A * World) w r w' :
  Sys.call_with host c run w = (Ok r, w') ->
  fault host (trace w) c = None
  /\ run (set_trace (fun t => t ++ [c]) w) = (Ok r, w').
Proof.
  destruct (call_with_cases host c run w) as [[H ->]|(e & H & ->)]; [|done].
  done.
Qed.

Lemma call_leaving_cases host c leaves effect w :
  (fault host (trace w) c = None
   /\ Sys.call_leaving host c leaves effect w
      = (Ok tt, effect (leaves (set_trace (fun t => t ++ [c]) w))))
  \/ (exists e, fault host (trace w) c = Some e
      /\ Sys.call_leaving host c leaves effect w
         = (Raise e, leaves (set_trace (fun t => t ++ [c]) w))).
Proof.
  unfold Sys.call_leaving. destruct (fault host (trace w) c) as [e|]; eauto.
Qed.

Lemma run_leaving_cases host argv leaves effect w :
  (fault host (trace w) (Run argv) = None
   /\ Sys.run_leaving host argv leaves effect w
      = (Ok (proc_stdout host argv),
         effect (leaves (set_trace (fun t => t ++ [Run argv]) w))))
  \/ (exists e, fault host (trace w) (Run argv) = Some e
      /\ Sys.run_leaving host argv leaves effect w
         = (Raise e, leaves (set_trace (fun t => t ++ [Run argv]) w))).
Proof.
  unfold Sys.run_leaving.
  destruct (fault host (trace w) (Run argv)) as [e|]; eauto.
Qed.

(** *** Relations every step respects *)

Section Keeps.
Variable R : World -> World -> Prop.
Hypothesis R_refl : forall w, R w w.
Hypothesis R_trans : forall w1 w2 w3, R w1 w2 -> R w2 w3 -> R w1 w3.

Lemma keeps_ret {A} (a : A) : keeps R (ret a).
Proof. intros w r w' [= <- <-]. apply R_refl. Qed.

Lemma keeps_raise {A} e : keeps R (@raise World A e).
Proof. intros w r w' [= <- <-]. apply R_refl. Qed.

Lemma keeps_bind_val {A B} (m : M World A) (k : A -> M World B) :
  keeps R m ->
  (forall w a w', m w = (Ok a, w') -> keeps R (k a)) ->
  keeps R (m ≫= k).
Proof.
  intros Hm Hk w r w'. rewrite bind_unfold.
  destruct (m w) as [[a|e] w1] eqn:E.
  - intros H. eapply R_trans; [by eapply Hm|]. by eapply (Hk _ _ _ E).
  - intros [= <- <-]. by eapply Hm.
Qed.

Lemma keeps_bind {A B} (m : M World A) (k : A -> M World B) :
  keeps R m -> (forall a, keeps R (k a)) -> keeps R (m ≫= k).
Proof. intros Hm Hk. apply keeps_bind_val; [done|]. intros _ a _ _. apply Hk. Qed.

Lemma keeps_try_except {A} (body : M World A) cls h :
  keeps R body -> (forall e, keeps R (h e)) ->
  keeps R (try_except body cls h).
Proof.
  intros Hb Hh w r w'. rewrite try_except_unfold.
  destruct (body w) as [[a|e] w1] eqn:E.
  - intros [= <- <-]. by eapply Hb.
  - destruct (cls e).
    + intros H. eapply R_trans; [by eapply Hb|by eapply Hh].
    + intros [= <- <-]. by eapply Hb.
Qed.

Lemma keeps_for_each {A} (xs : list A) (body : A -> M World unit) :
  (forall x, keeps R (body x)) -> keeps R (for_each xs body).
Proof.
  intros Hb. induction xs as [|x xs IH]; cbn [for_each].
  - apply keeps_ret.
  - apply (keeps_bind (body x) (fun _ => for_each xs body)); [apply Hb|].
    intros _. apply IH.
Qed.

Lemma keeps_call host c effect :
  (forall w, R w (called c w)) ->
  (forall w, R w (effect w)) ->
  keeps R (Sys.call host c effect).
Proof.
  intros Hc Heff w r w'.
  destruct (call_cases host c effect w) as [[_ ->]|(e & _ & ->)];
    intros [= <- <-]; [|apply Hc].
  eapply R_trans; [apply Hc|apply Heff].
Qed.

Lemma keeps_call_with host {A} c (run : World -> Result A * World) :
  (forall w, R w (called c w)) ->
  keeps R run -> keeps R (Sys.call_with host c run).
Proof.
  intros Hc Hrun w r w'.
  destruct (call_with_cases host c run w) as [[_ ->]|(e & _ & ->)].
  - intros H. eapply R_trans; [apply Hc|by eapply Hrun].
  - intros [= <- <-]. apply Hc.
Qed.

Lemma keeps_logger lvl f a :
  (forall g w, R w (set_log g w)) -> keeps R (Sys.logger lvl f a).
Proof. intros Hlog w r w' [= <- <-]. apply Hlog. Qed.
End Keeps.

(** ** Credential import (lines 81 to 94) *)

Lemma ldiff_unmasked (bits mask : N) :
  N.land bits mask = 0%N -> N.ldiff bits mask = bits.
Proof.
  intros H. apply N.bits_inj. intros n.
  rewrite N.ldiff_spec.
  assert (Hn : N.testbit (N.land bits mask) n = false)
    by (rewrite H; apply N.bits_0).
  rewrite N.land_spec in Hn.
  destruct (N.testbit bits n), (N.testbit mask n); done.
Qed.

Lemma substring_empty n m : String.substring n m "" = "".
Proof. by destruct n, m. Qed.

#[local] Arguments N.ldiff : simpl never.
#[local] Arguments String.substring : simpl never.

(** What a successful import leaves at the credential path. *)
Lemma import_lpcredentials_file host lpcredentials w w' :
  Retracer.import_lpcredentials host lpcredentials w = (Ok tt, w') ->
  files w' !! LP_CREDENTIALS
  = Some (mkFile lpcredentials
            (match files w !! LP_CREDENTIALS with
             | Some old => mode old
             | None => N.ldiff 384 (umask w)
             end) "ubuntu" "ubuntu").
Proof.
  unfold Retracer.import_lpcredentials. rewrite try_except_unfold.
  match goal with |- context [match ?b with _ => _ end] =>
    destruct b as [[[]|e] w1] eqn:Hbody end.
  2:{ destruct (is_OSError e); [|done]. rewrite bind_unfold.
      unfold Sys.logger, modify. done. }
  intros [= <-].
  apply bind_ok_inv in Hbody as (fd & w2 & Hopen & Hbody).
  apply bind_ok_inv in Hbody as ([] & w3 & Hwrite & Hbody).
  apply bind_ok_inv in Hbody as ([] & w4 & Hclose & Hchown).
  apply call_with_ok_inv in Hopen as [_ Hopen].
  assert (Hfd : fd = LP_CREDENTIALS
          /\ w2 = set_files <[LP_CREDENTIALS :=
                    Sys.create_or_truncate LP_CREDENTIALS 384
                      (set_trace (fun t => t ++ [OsOpen LP_CREDENTIALS
                         (N.lor (N.lor O_CREAT O_WRONLY) O_TRUNC) 384]) w)]>
                    (set_trace (fun t => t ++ [OsOpen LP_CREDENTIALS
                         (N.lor (N.lor O_CREAT O_WRONLY) O_TRUNC) 384]) w)).
  { simpl in Hopen. destruct (files w !! LP_CREDENTIALS);
      by injection Hopen as <- <-. }
  destruct Hfd as [-> ->].
  apply call_with_ok_inv in Hwrite as [_ Hwrite].
  simpl in Hwrite. rewrite lookup_insert_eq in Hwrite.
  injection Hwrite as <-.
  apply call_ok_inv in Hclose as [_ ->].
  apply call_with_ok_inv in Hchown as [_ Hchown].
  simpl in Hchown. rewrite lookup_insert_eq in Hchown.
  injection Hchown as <-. simpl. rewrite lookup_insert_eq.
  unfold Sys.create_or_truncate. simpl.
  destruct (files w !! LP_CREDENTIALS) as [old|]; simpl;
    by rewrite substring_empty, str_app_nil_r.
Qed.

(** C9, as stated, fails when the credential file is already there with
    other permission bits: [os.open] applies its mode argument only to a
    file it creates. *)
Lemma import_lpcredentials_keeps_mode :
  ~ (forall host lpcredentials w w',
       Retracer.import_lpcredentials host lpcredentials w = (Ok tt, w') ->
       exists f, files w' !! LP_CREDENTIALS = Some f
                 /\ content f = lpcredentials /\ mode f = 384%N
                 /\ Retracer.has_credentials w' = true).
Proof.
  intros H.
  destruct (H calm_host "token" stale_world
              (snd (Retracer.import_lpcredentials calm_host "token"
                      stale_world)))
    as (f & Hf & _ & Hmode & _).
  - vm_compute. reflexivity.
  - rewrite (import_lpcredentials_file calm_host "token" stale_world) in Hf.
    2:{ vm_compute. reflexivity. }
    injection Hf as <-. vm_compute in Hmode. discriminate Hmode.
Qed.

(** C9, amended. After a successful import the credential file holds
    exactly the imported content and belongs to [ubuntu:ubuntu]; its
    permission bits are 0600 less the umask if the import created it, and
    the bits it already had otherwise; so they are exactly 0600 whenever
    the file was absent (and the umask leaves the owner's bits alone) or
    already had them; and [has_credentials] then answers true. *)
Theorem import_lpcredentials_spec host lpcredentials w w' :
  Retracer.import_lpcredentials host lpcredentials w = (Ok tt, w') ->
  exists f,
    files w' !! LP_CREDENTIALS = Some f
    /\ content f = lpcredentials
    /\ owner f = "ubuntu" /\ group f = "ubuntu"
    /\ mode f = match files w !! LP_CREDENTIALS with
                | Some old => mode old
                | None => N.ldiff 384 (umask w)
                end
    /\ (match files w !! LP_CREDENTIALS with
        | Some old => mode old = 384%N
        | None => N.land 384 (umask w) = 0%N
        end -> mode f = 384%N)
    /\ Retracer.has_credentials w' = true.
Proof.
  intros H. apply import_lpcredentials_file in H.
  eexists. split; [exact H|]. simpl. repeat split.
  - destruct (files w !! LP_CREDENTIALS); [done|]. apply ldiff_unmasked.
  - unfold Retracer.has_credentials, Sys.path_exists. rewrite H.
    rewrite bool_decide_eq_true_2; [done|]. by eexists.
Qed.

Lemma import_lpcredentials_spec_witness :
  exists f,
    files (snd (Retracer.import_lpcredentials calm_host "token" fresh_world))
      !! LP_CREDENTIALS = Some f
    /\ content f = "token" /\ mode f = 384%N.
Proof.
  destruct (import_lpcredentials_spec calm_host "token" fresh_world
              (snd (Retracer.import_lpcredentials calm_host "token"
                      fresh_world)))
    as (f & Hf & Hc & _ & _ & _ & Hm & _).
  - vm_compute. reflexivity.
  - exists f. split; [exact Hf|]. split; [exact Hc|].
    apply Hm. vm_compute. reflexivity.
Defined.

(** ** The charm's handlers *)

(** Running a computation one step further. *)
Ltac mstep :=
  repeat first
    [ rewrite bind_unfold
    | rewrite try_except_unfold
    | progress unfold set_status, set_version, modify, gets, ret, raise,
        of_result, lift, config_get, Sys.logger
    | progress cbn [model _retracer unit_status workload_version world
                    fst snd negb] ].

Lemma config_get_Some c key v :
  config (model c) !! key = Some v -> config_get key c = (Ok v, c).
Proof. unfold config_get. by intros ->. Qed.

Lemma get_architectures_empty c raw :
  config (model c) !! "architectures" = Some raw ->
  PyStr.split_ws raw = [] ->
  LaunchpadRetracerCharm._get_architectures c
  = (Raise (ValueError "Config 'architectures' cannot be empty."), c).
Proof.
  intros Hc Hs. unfold LaunchpadRetracerCharm._get_architectures.
  rewrite bind_unfold, (config_get_Some _ _ _ Hc), Hs. reflexivity.
Qed.

(** C8. With the secret id configured: if the secret is retrievable and
    its content has no [lpcredentials] entry, or an empty one, the handler
    returns with the blocked status whose reason asks for the
    [lpcredentials] key; if [get_secret] raises one of the three caught
    exceptions it returns with the blocked status whose reason asks for
    the grant; the two reasons differ; and in both cases the host is left
    as it was but for one warning in the log: no call is made, so neither
    the import nor [configure] runs. *)
Theorem on_config_changed_secret_reasons host c id :
  config (model c) !! "launchpad-credentials-id" = Some id ->
  (forall s secret_content,
     get_secret (model c) id = Ok s ->
     get_content s = Ok secret_content ->
     PyStr.truthy (secret_content !! "lpcredentials") = false ->
     LaunchpadRetracerCharm._on_config_changed host c
     = (Ok tt, with_status (BlockedStatus msg_key_missing)
                 (warn "Launchpad credentials secret not found") c))
  /\ (forall e,
        get_secret (model c) id = Raise e ->
        is_SecretNotFoundError e || is_ModelError e || is_TypeError e = true ->
        LaunchpadRetracerCharm._on_config_changed host c
        = (Ok tt, with_status (BlockedStatus msg_not_granted)
                    (warn "Error getting secret") c))
  /\ msg_key_missing <> msg_not_granted.
Proof.
  intros Hid. split; [|split]; [| |done].
  - intros s secret_content Hs Hc Hk.
    unfold LaunchpadRetracerCharm._on_config_changed. mstep.
    rewrite Hid. mstep. rewrite Hs. mstep.
    rewrite Hc. mstep.
    destruct (secret_content !! "lpcredentials") as [[|??]|]; done.
  - intros e He Hcls.
    unfold LaunchpadRetracerCharm._on_config_changed. mstep.
    rewrite Hid. mstep. rewrite He. mstep.
    rewrite Hcls. mstep. reflexivity.
Qed.

Lemma on_config_changed_secret_reasons_witness :
  let c := new_charm (lp_model "amd64" ∅) fresh_world in
  config (model c) !! "launchpad-credentials-id" = Some "secret:lp"
  /\ unit_status (snd (LaunchpadRetracerCharm._on_config_changed calm_host c))
     = BlockedStatus msg_key_missing
  /\ trace (world (snd (LaunchpadRetracerCharm._on_config_changed
                          calm_host c))) = [].
Proof.
  cbv zeta.
  assert (Hid : config (model (new_charm (lp_model "amd64" ∅) fresh_world))
                  !! "launchpad-credentials-id" = Some "secret:lp")
    by (vm_compute; reflexivity).
  split; [exact Hid|].
  destruct (on_config_changed_secret_reasons calm_host _ _ Hid)
    as (Hkey & _ & _).
  rewrite (Hkey (mkSecret (Ok ∅)) ∅); [split; reflexivity|reflexivity..].
Defined.

(** *** Start without credentials *)

Lemma has_credentials_frame w w' :
  files w' = files w -> dirs w' = dirs w ->
  Retracer.has_credentials w' = Retracer.has_credentials w.
Proof.
  unfold Retracer.has_credentials, Sys.path_exists. by intros -> ->.
Qed.

(** The workload-version query, in its two outcomes that let the handler
    go on: the process ran, or it failed with [CalledProcessError]. *)
Lemma get_workload_version_cases host self w :
  (forall e, fault host (trace w) (Run dpkg_query) = Some e ->
             e = CalledProcessError) ->
  exists v f,
    Retracer.get_workload_version host self w
    = (Ok v, set_log f (set_trace (fun t => t ++ [Run dpkg_query]) w)).
Proof.
  intros Hq. unfold Retracer.get_workload_version, Sys.run.
  rewrite try_except_unfold, bind_unfold.
  pose proof (call_with_cases host (Run dpkg_query)
                (fun w0 => (Ok (proc_stdout host dpkg_query), id w0)) w)
    as Hrun.
  unfold dpkg_query in Hrun, Hq |- *.
  destruct Hrun as [[_ ->]|(e & He & ->)].
  - mstep. eexists _, _. reflexivity.
  - rewrite (Hq e He). mstep. eexists _, _. reflexivity.
Qed.

(** C10. When the credential file does not exist and the version query
    that precedes the check goes through (the [dpkg-query] process runs
    or fails with [CalledProcessError], and the version is accepted), the
    start handler returns with the blocked status "Launchpad credentials
    not available."; the only calls it has made are the two of the
    version query, so [Retracer.start] was not invoked: no [git pull] and
    no restart of nginx. *)
Theorem on_start_without_credentials host c :
  Retracer.has_credentials (world c) = false ->
  (forall e, fault host (trace (world c)) (Run dpkg_query) = Some e ->
             e = CalledProcessError) ->
  (forall v, fault host (trace (world c) ++ [Run dpkg_query])
               (SetWorkloadVersion v) = None) ->
  exists c' v,
    LaunchpadRetracerCharm._on_start host c = (Ok tt, c')
    /\ unit_status c' = BlockedStatus "Launchpad credentials not available."
    /\ trace (world c')
       = trace (world c) ++ [Run dpkg_query; SetWorkloadVersion v]
    /\ (Run git_pull ∉ [Run dpkg_query; SetWorkloadVersion v])
    /\ (ServiceRestart "nginx" ∉ [Run dpkg_query; SetWorkloadVersion v]).
Proof.
  intros Hcred Hq Hs.
  destruct (get_workload_version_cases host (_retracer c) (world c) Hq)
    as (v & f & Hv).
  unfold LaunchpadRetracerCharm._on_start. mstep. rewrite Hv. mstep.
  unfold Sys.call. cbn [trace set_log set_trace]. rewrite Hs. mstep.
  rewrite (has_credentials_frame (world c)) by reflexivity.
  rewrite Hcred. mstep. eexists _, v. split; [reflexivity|].
  cbn [unit_status world trace set_trace set_log id].
  split; [done|]. split; [by rewrite <- app_assoc|].
  split; intros H; repeat (apply elem_of_cons in H as [H|H]; [discriminate H|]);
    by apply elem_of_nil in H.
Qed.

Lemma on_start_without_credentials_witness :
  let c := new_charm (lp_model "amd64" ∅) fresh_world in
  Retracer.has_credentials (world c) = false
  /\ exists c' v,
       LaunchpadRetracerCharm._on_start calm_host c = (Ok tt, c')
       /\ unit_status c'
          = BlockedStatus "Launchpad credentials not available."
       /\ trace (world c') = [Run dpkg_query; SetWorkloadVersion v].
Proof.
  cbv zeta. split; [reflexivity|].
  destruct (on_start_without_credentials calm_host
              (new_charm (lp_model "amd64" ∅) fresh_world))
    as (c' & v & H1 & H2 & H3 & _); [reflexivity|discriminate|reflexivity|].
  exists c', v. repeat split; assumption.
Defined.

(** *** Empty architecture list *)

Lemma import_frame_refl w : import_frame w w.
Proof.
  split; [|done]. exists []. by rewrite app_nil_r.
Qed.

Lemma import_frame_trans w1 w2 w3 :
  import_frame w1 w2 -> import_frame w2 w3 -> import_frame w1 w3.
Proof.
  intros ((d1 & Ht1 & Hd1) & Hf1 & ? & ? & ? & ?)
         ((d2 & Ht2 & Hd2) & Hf2 & ? & ? & ? & ?).
  split; [|repeat split; try congruence].
  - exists (d1 ++ d2). split.
    + by rewrite Ht2, Ht1, <- app_assoc.
    + by apply Forall_app.
  - intros p Hp. by rewrite Hf2, Hf1.
Qed.

Lemma import_frame_call w c :
  is_import_call c = true -> import_frame w (called c w).
Proof.
  intros Hc. split; [|done]. exists [c]. split; [done|]. by constructor.
Qed.

Lemma import_frame_file w f :
  import_frame w (set_files <[LP_CREDENTIALS := f]> w).
Proof.
  split; [exists []; by rewrite app_nil_r|]. split; [|done].
  intros p Hp. simpl. by rewrite lookup_insert_ne.
Qed.

Lemma import_frame_log w f : import_frame w (set_log f w).
Proof. split; [exists []; by rewrite app_nil_r|done]. Qed.

Lemma os_open_fd host p flags bits w fd w' :
  Sys.os_open host p flags bits w = (Ok fd, w') -> fd = p.
Proof.
  intros [_ H]%call_with_ok_inv.
  destruct (files _ !! p);
    repeat match type of H with
           | (if ?b then _ else _) = _ => destruct b
           end; congruence.
Qed.

(** Whatever its outcome, the import stays within the frame. *)
Lemma import_lpcredentials_in_frame host lpcredentials :
  keeps import_frame (Retracer.import_lpcredentials host lpcredentials).
Proof.
  unfold Retracer.import_lpcredentials.
  apply (keeps_try_except _ import_frame_trans).
  - apply (keeps_bind_val _ import_frame_trans).
    { apply (keeps_call_with _ import_frame_trans);
        [intros w; by apply import_frame_call|]. intros w r w' H.
      destruct (files w !! LP_CREDENTIALS);
        repeat match type of H with
               | (if ?b then _ else _) = _ => destruct b
               end;
        injection H as <- <-;
        first [apply import_frame_file | apply import_frame_refl]. }
    intros w0 fd w0' ->%os_open_fd.
    apply (keeps_bind _ import_frame_trans);
      [|intros _; apply (keeps_bind _ import_frame_trans); [|intros _]].
    + apply (keeps_call_with _ import_frame_trans);
        [intros w; by apply import_frame_call|]. intros w r w' H.
      destruct (files w !! LP_CREDENTIALS); injection H as <- <-;
        first [apply import_frame_file | apply import_frame_refl].
    + apply (keeps_call _ import_frame_trans);
        [intros w; by apply import_frame_call|].
      intros w. apply import_frame_refl.
    + apply (keeps_call_with _ import_frame_trans);
        [intros w; by apply import_frame_call|]. intros w r w' H.
      destruct (files w !! LP_CREDENTIALS);
        [|destruct (bool_decide _)]; injection H as <- <-;
        first [apply import_frame_file | apply import_frame_refl].
  - intros e. apply (keeps_bind _ import_frame_trans).
    + apply keeps_logger. intros g w. apply import_frame_log.
    + intros _. apply (keeps_raise _ import_frame_refl).
Qed.

(** C4, as stated, fails for [config-changed]: the handler imports the
    credentials before it looks at the architectures, so with an empty
    list and a good secret the credential file has been written by the
    time the [ValueError] is raised. *)
Lemma empty_architectures_import_first :
  ~ (forall host c raw r c',
       config (model c) !! "architectures" = Some raw ->
       PyStr.split_ws raw = [] ->
       LaunchpadRetracerCharm._on_config_changed host c = (r, c') ->
       files (world c') = files (world c)
       /\ trace (world c') = trace (world c)).
Proof.
  intros H.
  pose (c := new_charm (lp_model "  " {[ "lpcredentials" := "token" ]})
               fresh_world).
  destruct (H calm_host c "  " (Ok tt)
              (snd (LaunchpadRetracerCharm._on_config_changed calm_host c)))
    as [_ Ht].
  - vm_compute. reflexivity.
  - reflexivity.
  - vm_compute. reflexivity.
  - vm_compute in Ht. discriminate Ht.
Qed.

(** C4, amended. With an [architectures] value that splits to the empty
    list, [_get_architectures] raises the [ValueError]. The install
    handler then returns with a blocked status and has touched nothing on
    the host. The config-changed handler, whatever its outcome, has made
    no call but those of the credential import and changed no file but
    the credential file: no directory is created, no unit file written,
    the service manager is not called; and when it returns, the status is
    blocked. *)
Theorem empty_architectures_rejected host c raw :
  config (model c) !! "architectures" = Some raw ->
  PyStr.split_ws raw = [] ->
  LaunchpadRetracerCharm._get_architectures c
  = (Raise (ValueError "Config 'architectures' cannot be empty."), c)
  /\ LaunchpadRetracerCharm._on_install host c
     = (Ok tt, with_status (BlockedStatus msg_install_failed) id c)
  /\ (forall r c',
        LaunchpadRetracerCharm._on_config_changed host c = (r, c') ->
        import_frame (world c) (world c')
        /\ (r = Ok tt -> exists message, unit_status c' = BlockedStatus message)).
Proof.
  intros Hc Hs. split; [by apply (get_architectures_empty _ raw)|]. split.
  - unfold LaunchpadRetracerCharm._on_install. mstep.
    rewrite (get_architectures_empty _ raw) by done.
    mstep. reflexivity.
  - intros r c'. unfold LaunchpadRetracerCharm._on_config_changed. mstep.
    destruct (config (model c) !! "launchpad-credentials-id") as [id|].
    2:{ mstep. intros [= <- <-]. split; [apply import_frame_log|].
        intros _. by eexists. }
    mstep. destruct (get_secret (model c) id) as [s|e].
    2:{ mstep.
        destruct (is_SecretNotFoundError e || is_ModelError e || is_TypeError e).
        - mstep. intros [= <- <-]. split; [apply import_frame_log|].
          intros _. by eexists.
        - intros [= <- <-]. split; [apply import_frame_refl|done]. }
    mstep. destruct (get_content s) as [secret_content|e].
    2:{ intros [= <- <-]. split; [apply import_frame_refl|done]. }
    mstep.
    destruct (secret_content !! "lpcredentials") as [[|a lp]|].
    1,3: mstep; intros [= <- <-]; (split; [apply import_frame_log|]);
         intros _; by eexists.
    mstep.
    destruct (Retracer.import_lpcredentials host (String a lp) (world c))
      as [[[]|e] w1] eqn:Himp;
      apply import_lpcredentials_in_frame in Himp.
    + mstep. rewrite (get_architectures_empty _ raw) by done.
      mstep. intros [= <- <-]. split.
      * eapply import_frame_trans; [exact Himp|apply import_frame_log].
      * intros _. by eexists.
    + mstep. destruct (is_OSError e || is_KeyError e).
      * mstep. intros [= <- <-]. split; [exact Himp|]. intros _. by eexists.
      * intros [= <- <-]. split; [exact Himp|done].
Qed.

Lemma empty_architectures_rejected_witness :
  let c := new_charm (lp_model "  " {[ "lpcredentials" := "token" ]})
             fresh_world in
  config (model c) !! "architectures" = Some "  "
  /\ PyStr.split_ws "  " = []
  /\ unit_status (snd (LaunchpadRetracerCharm._on_install calm_host c))
     = BlockedStatus msg_install_failed
  /\ world (snd (LaunchpadRetracerCharm._on_install calm_host c)) = world c
  /\ exists message,
       unit_status (snd (LaunchpadRetracerCharm._on_config_changed
                           calm_host c)) = BlockedStatus message.
Proof.
  cbv zeta.
  assert (Hc : config (model (new_charm
                 (lp_model "  " {[ "lpcredentials" := "token" ]})
                 fresh_world)) !! "architectures" = Some "  ")
    by (vm_compute; reflexivity).
  split; [exact Hc|]. split; [reflexivity|].
  destruct (empty_architectures_rejected calm_host _ "  " Hc eq_refl)
    as (_ & Hinstall & Hchanged).
  rewrite Hinstall. split; [reflexivity|]. split; [reflexivity|].
  eapply Hchanged; [apply surjective_pairing|].
  vm_compute. reflexivity.
Defined.

(** ** The reconciler, [_setup_systemd_units] (lines 116 to 175) *)

Lemma setup_systemd_units_parts host self architectures w :
  Retracer._setup_systemd_units host self architectures w
  = (write_units host self ≫= fun _ => sync_units host architectures) w.
Proof.
  unfold Retracer._setup_systemd_units, write_units, sync_units,
    enable_all, retire_all, current_archs, dupcheck_timer,
    src_dupcheck_service, src_dupcheck_timer, src_worker_service,
    src_worker_timer, etc_dupcheck_service, etc_dupcheck_timer,
    etc_worker_service, etc_worker_timer.
  repeat (rewrite !bind_unfold;
          match goal with
          | |- context [match ?m ?x with _ => _ end] =>
              lazymatch m with
              | Sys.mkdir_p _ _ => idtac
              | Sys.read_text _ _ => idtac
              | Sys.write_text _ _ _ => idtac
              | Sys.service_enable_now _ _ => idtac
              | Sys.daemon_reload _ => idtac
              end;
              destruct (m x) as [[?|?] ?]
          end); try reflexivity.
Qed.

(** *** The unit files *)

Lemma units_world_trace self ds dt ws wt w :
  trace (units_world self ds dt ws wt w)
  = trace w ++ units_calls self ds dt ws wt.
Proof.
  unfold units_world, units_calls. cbn [trace called set_trace written
    set_files enabled_now set_active set_wants set_dirs].
  by rewrite <- !app_assoc.
Qed.

Lemma units_world_wants self ds dt ws wt w :
  wants (units_world self ds dt ws wt w) = add_entry dupcheck_timer (wants w).
Proof. reflexivity. Qed.

Lemma units_world_active self ds dt ws wt w :
  active (units_world self ds dt ws wt w)
  = add_entry dupcheck_timer (active w).
Proof. reflexivity. Qed.


Lemma written_files_other p data w q :
  q <> p -> files (written p data w) !! q = files w !! q.
Proof. intros H. unfold written. simpl. by rewrite lookup_insert_ne. Qed.

Lemma files_called c w : files (called c w) = files w.
Proof. reflexivity. Qed.

Lemma files_enabled_now u w : files (enabled_now u w) = files w.
Proof. reflexivity. Qed.

Lemma files_set_dirs f w : files (set_dirs f w) = files w.
Proof. reflexivity. Qed.

Lemma under_units_ne q p :
  under_units q = false -> under_units p = true -> q <> p.
Proof. congruence. Qed.

Lemma under_units_etc :
  under_units etc_dupcheck_service = true
  /\ under_units etc_dupcheck_timer = true
  /\ under_units etc_worker_service = true
  /\ under_units etc_worker_timer = true.
Proof. repeat split; vm_compute; reflexivity. Qed.

Lemma units_world_files_other self ds dt ws wt w q :
  under_units q = false ->
  files (units_world self ds dt ws wt w) !! q = files w !! q.
Proof.
  intros Hq. destruct under_units_etc as (H1 & H2 & H3 & H4).
  unfold units_world. cbv zeta.
  repeat first
    [ rewrite files_called
    | rewrite files_enabled_now
    | rewrite files_set_dirs
    | rewrite written_files_other
        by (apply (under_units_ne _ _ Hq); assumption) ].
  reflexivity.
Qed.

Lemma read_text_ok_inv host p w s w' :
  Sys.read_text host p w = (Ok s, w') ->
  fault host (trace w) (ReadText p) = None
  /\ w' = called (ReadText p) w
  /\ exists f, files w !! p = Some f /\ s = content f.
Proof.
  intros [Hf H]%call_with_ok_inv. split; [done|].
  simpl in H. destruct (files w !! p) as [f|]; [|done].
  injection H as <- <-. split; [done|]. by exists f.
Qed.

Lemma mkdir_p_ok_inv host p w r w' :
  Sys.mkdir_p host p w = (Ok r, w') ->
  fault host (trace w) (MkdirP p) = None
  /\ files w !! p = None
  /\ w' = set_dirs (fun d => {[p]} ∪ d) (called (MkdirP p) w).
Proof.
  intros [Hf H]%call_with_ok_inv. split; [done|].
  simpl in H. destruct (files w !! p) as [f|]; [done|].
  by injection H as <-.
Qed.

Lemma write_text_ok_inv host p data w r w' :
  Sys.write_text host p data w = (Ok r, w') ->
  fault host (trace w) (WriteText p data) = None
  /\ w' = written p data (called (WriteText p data) w).
Proof. by intros [Hf ->]%call_ok_inv. Qed.

Lemma service_enable_now_ok_inv host u w r w' :
  Sys.service_enable_now host u w = (Ok r, w') ->
  fault host (trace w) (ServiceEnable ["--now"; u]) = None
  /\ w' = enabled_now u w.
Proof. by intros [Hf ->]%call_ok_inv. Qed.

Lemma daemon_reload_ok_inv host w r w' :
  Sys.daemon_reload host w = (Ok r, w') ->
  fault host (trace w) DaemonReload = None /\ w' = called DaemonReload w.
Proof. by intros [Hf ->]%call_ok_inv. Qed.

Lemma src_not_under_units :
  under_units src_dupcheck_service = false
  /\ under_units src_dupcheck_timer = false
  /\ under_units src_worker_service = false
  /\ under_units src_worker_timer = false
  /\ under_units Retracer.systemd_unit_location = false.
Proof. repeat split; vm_compute; reflexivity. Qed.

(** Files outside the unit directory are the same after any of the
    steps of [write_units]. *)
Ltac files_frame H :=
  repeat first
    [ rewrite files_called in H
    | rewrite files_enabled_now in H
    | rewrite files_set_dirs in H
    | rewrite written_files_other in H
        by (eapply under_units_ne; [apply src_not_under_units
                                   |apply under_units_etc]) ].

(** Success of [write_units], taken apart. *)
Lemma write_units_ok_inv host self w w' :
  write_units host self w = (Ok tt, w') ->
  exists ds dt ws wt,
    files w !! Retracer.systemd_unit_location = None
    /\ files w !! src_dupcheck_service = Some ds
    /\ files w !! src_dupcheck_timer = Some dt
    /\ files w !! src_worker_service = Some ws
    /\ files w !! src_worker_timer = Some wt
    /\ w' = units_world self (content ds) (content dt) (content ws)
              (content wt) w.
Proof.
  unfold write_units. intros H.
  apply bind_ok_inv in H as ([] & w1 & H1 & H).
  apply bind_ok_inv in H as (ds & w2 & H2 & H).
  apply bind_ok_inv in H as (dt & w3 & H3 & H).
  apply bind_ok_inv in H as ([] & w4 & H4 & H).
  apply bind_ok_inv in H as ([] & w5 & H5 & H).
  apply bind_ok_inv in H as ([] & w6 & H6 & H).
  apply bind_ok_inv in H as (ws & w7 & H7 & H).
  apply bind_ok_inv in H as (wt & w8 & H8 & H).
  apply bind_ok_inv in H as ([] & w9 & H9 & H).
  apply bind_ok_inv in H as ([] & w10 & H10 & H).
  apply mkdir_p_ok_inv in H1 as (_ & Hloc & ->).
  apply read_text_ok_inv in H2 as (_ & -> & fds & Hds & ->).
  apply read_text_ok_inv in H3 as (_ & -> & fdt & Hdt & ->).
  apply write_text_ok_inv in H4 as [_ ->].
  apply write_text_ok_inv in H5 as [_ ->].
  apply service_enable_now_ok_inv in H6 as [_ ->].
  apply read_text_ok_inv in H7 as (_ & -> & fws & Hws & ->).
  apply read_text_ok_inv in H8 as (_ & -> & fwt & Hwt & ->).
  apply write_text_ok_inv in H9 as [_ ->].
  apply write_text_ok_inv in H10 as [_ ->].
  apply daemon_reload_ok_inv in H as [_ ->].
  files_frame Hds. files_frame Hdt. files_frame Hws. files_frame Hwt.
  exists fds, fdt, fws, fwt.
  split; [exact Hloc|]. split; [exact Hds|]. split; [exact Hdt|].
  split; [exact Hws|]. split; [exact Hwt|]. reflexivity.
Qed.

(** *** Directory listings *)

Lemma elem_of_add_entry x y (l : list string) :
  x ∈ add_entry y l <-> x = y \/ x ∈ l.
Proof.
  unfold add_entry. case_bool_decide as Hy.
  - split; [by right|]. intros [->|H]; done.
  - rewrite elem_of_app, list_elem_of_singleton. tauto.
Qed.

Lemma add_entry_present y (l : list string) : y ∈ l -> add_entry y l = l.
Proof. intros H. unfold add_entry. by rewrite bool_decide_eq_true_2. Qed.

Lemma elem_of_remove_entry x y (l : list string) :
  x ∈ remove_entry y l <-> x ∈ l /\ x <> y.
Proof. unfold remove_entry. rewrite list_elem_of_filter. tauto. Qed.

(** *** Hosts that do not fail *)

Lemma quiet_from_here host t c : quiet_from host t -> fault host t c = None.
Proof. intros H. specialize (H [] c). by rewrite app_nil_r in H. Qed.

Lemma quiet_from_app host t l :
  quiet_from host t -> quiet_from host (t ++ l).
Proof. intros H h c. rewrite <- app_assoc. apply H. Qed.

Lemma call_quiet host c effect w :
  quiet_from host (trace w) ->
  Sys.call host c effect w = (Ok tt, effect (called c w)).
Proof.
  intros H. unfold Sys.call. by rewrite (quiet_from_here _ _ _ H).
Qed.

Lemma call_with_quiet host {A} c (run : World -> Result A * World) w :
  quiet_from host (trace w) ->
  Sys.call_with host c run w = run (called c w).
Proof.
  intros H. unfold Sys.call_with. by rewrite (quiet_from_here _ _ _ H).
Qed.

Lemma bind_eq {S A B} (m : M S A) (k : A -> M S B) s :
  bind m k s = match m s with
               | (Ok a, s') => k a s'
               | (Raise e, s') => (Raise e, s')
               end.
Proof. reflexivity. Qed.

(** *** Enabling the desired architectures (lines 155 and 156) *)

Lemma enable_all_ok_inv host architectures w w' :
  enable_all host architectures w = (Ok tt, w') ->
  w' = enable_world architectures w.
Proof.
  unfold enable_all. revert w.
  induction architectures as [|arch rest IH]; intros w; simpl.
  - by intros [= <-].
  - intros H. apply bind_ok_inv in H as ([] & w1 & H1 & H).
    apply service_enable_now_ok_inv in H1 as [_ ->]. by apply IH.
Qed.

Lemma trace_enabled_now u w :
  trace (enabled_now u w) = trace w ++ [ServiceEnable ["--now"; u]].
Proof. reflexivity. Qed.

Lemma enable_world_trace architectures w :
  trace (enable_world architectures w)
  = trace w ++ enable_calls architectures.
Proof.
  revert w. induction architectures as [|arch rest IH]; intros w; simpl.
  - by rewrite app_nil_r.
  - rewrite IH, trace_enabled_now. by rewrite <- app_assoc.
Qed.

Lemma enable_all_quiet host architectures w :
  quiet_from host (trace w) ->
  enable_all host architectures w = (Ok tt, enable_world architectures w).
Proof.
  unfold enable_all. revert w.
  induction architectures as [|arch rest IH]; intros w Hq; cbn [for_each];
    [done|].
  rewrite bind_eq. unfold Sys.service_enable_now.
  rewrite (call_quiet _ _ _ _ Hq).
  apply (IH (enabled_now (Retracer.worker_timer arch) w)).
  rewrite trace_enabled_now. by apply quiet_from_app.
Qed.

Lemma enable_world_files architectures w :
  files (enable_world architectures w) = files w.
Proof.
  revert w. induction architectures as [|arch rest IH]; intros w; simpl;
    [done|]. by rewrite IH.
Qed.


Lemma enable_world_wants architectures w x :
  x ∈ wants (enable_world architectures w)
  <-> x ∈ wants w
      \/ exists arch, arch ∈ architectures /\ x = Retracer.worker_timer arch.
Proof.
  revert w. induction architectures as [|arch rest IH]; intros w; simpl.
  - split; [by left|]. intros [H|(a & Ha & _)]; [done|].
    by apply elem_of_nil in Ha.
  - rewrite IH. change (wants (enabled_now ?u w)) with (add_entry u (wants w)).
    rewrite elem_of_add_entry. split.
    + intros [[->|H]|(a & Ha & ->)].
      * right. exists arch. split; [left|done].
      * by left.
      * right. exists a. split; [by right|done].
    + intros [H|(a & Ha & ->)]; [by left; right|].
      apply elem_of_cons in Ha as [->|Ha]; [by left; left|].
      right. by exists a.
Qed.

Lemma enable_world_active architectures w x :
  x ∈ active (enable_world architectures w)
  <-> x ∈ active w
      \/ exists arch, arch ∈ architectures /\ x = Retracer.worker_timer arch.
Proof.
  revert w. induction architectures as [|arch rest IH]; intros w; simpl.
  - split; [by left|]. intros [H|(a & Ha & _)]; [done|].
    by apply elem_of_nil in Ha.
  - rewrite IH.
    change (active (enabled_now ?u w)) with (add_entry u (active w)).
    rewrite elem_of_add_entry. split.
    + intros [[->|H]|(a & Ha & ->)].
      * right. exists arch. split; [left|done].
      * by left.
      * right. exists a. split; [by right|done].
    + intros [H|(a & Ha & ->)]; [by left; right|].
      apply elem_of_cons in Ha as [->|Ha]; [by left; left|].
      right. by exists a.
Qed.

(** Enabling what is enabled already leaves the listing as it is. *)
Lemma enable_world_wants_present architectures w :
  (forall arch, arch ∈ architectures ->
                Retracer.worker_timer arch ∈ wants w) ->
  wants (enable_world architectures w) = wants w.
Proof.
  revert w. induction architectures as [|arch rest IH]; intros w H; simpl;
    [done|].
  assert (E : wants (enabled_now (Retracer.worker_timer arch) w) = wants w).
  { change (add_entry (Retracer.worker_timer arch) (wants w) = wants w).
    apply add_entry_present, H. left. }
  rewrite IH; [exact E|]. intros a Ha. rewrite E. apply H. by right.
Qed.

(** *** Retirement (lines 158 to 173) *)

Lemma retired_trace arch w :
  trace (retired arch w) = trace w ++ retire_calls arch.
Proof.
  unfold retired, retire_calls, unlinked, disabled, stopped, called.
  cbn [trace set_log set_files set_wants set_active set_trace].
  by rewrite <- !app_assoc.
Qed.

Lemma retired_log arch w :
  log (retired arch w) = log w ++ [mkLog DEBUG retired_msg [arch]].
Proof. reflexivity. Qed.

Lemma retired_wants arch w :
  wants (retired arch w) = remove_entry (Retracer.worker_timer arch) (wants w).
Proof. reflexivity. Qed.

Lemma retired_active arch w :
  active (retired arch w)
  = remove_entry (Retracer.worker_service arch)
      (remove_entry (Retracer.worker_timer arch) (active w)).
Proof. reflexivity. Qed.

(** Deleting tolerates a missing file: [delete] on an absent key changes
    nothing. *)
Lemma retired_files arch w :
  files (retired arch w)
  = delete (unit_path (Retracer.worker_service arch))
      (delete (unit_path (Retracer.worker_timer arch)) (files w)).
Proof. reflexivity. Qed.

Lemma trace_called c w : trace (called c w) = trace w ++ [c].
Proof. reflexivity. Qed.
Lemma trace_stopped u w : trace (stopped u w) = trace w ++ [ServiceStop u].
Proof. reflexivity. Qed.
Lemma trace_disabled u w :
  trace (disabled u w) = trace w ++ [ServiceDisable u].
Proof. reflexivity. Qed.
Lemma trace_unlinked p w : trace (unlinked p w) = trace w ++ [Unlink p].
Proof. reflexivity. Qed.
Lemma trace_set_log f w : trace (set_log f w) = trace w.
Proof. reflexivity. Qed.

Lemma service_stop_cases host u w :
  Sys.service_stop host u w = (Ok tt, stopped u w)
  \/ exists e, Sys.service_stop host u w
               = (Raise e, called (ServiceStop u) w).
Proof.
  unfold Sys.service_stop.
  destruct (call_cases host (ServiceStop u) (set_active (remove_entry u)) w)
    as [[_ ->]|(e & _ & ->)]; [by left|right; by exists e].
Qed.

Lemma service_disable_cases host u w :
  Sys.service_disable host u w = (Ok tt, disabled u w)
  \/ exists e, Sys.service_disable host u w
               = (Raise e, called (ServiceDisable u) w).
Proof.
  unfold Sys.service_disable.
  destruct (call_cases host (ServiceDisable u) (set_wants (remove_entry u)) w)
    as [[_ ->]|(e & _ & ->)]; [by left|right; by exists e].
Qed.

Lemma unlink_cases host p w :
  Sys.unlink_missing_ok host p w = (Ok tt, unlinked p w)
  \/ exists e, Sys.unlink_missing_ok host p w
               = (Raise e, called (Unlink p) w).
Proof.
  unfold Sys.unlink_missing_ok.
  destruct (call_cases host (Unlink p) (set_files (delete p)) w)
    as [[_ ->]|(e & _ & ->)]; [by left|right; by exists e].
Qed.

Ltac cut_short_at k e :=
  right; exists k, e; eexists (warned _ e _);
  split; [reflexivity|];
  split; [lia|]; split; [|reflexivity];
  unfold warned; rewrite trace_set_log, trace_called,
    ?trace_unlinked, ?trace_disabled, ?trace_stopped;
  rewrite <- ?app_assoc; reflexivity.

(** A retirement never raises: either its five steps succeed, in order,
    or the first failing step ends it with a warning. *)
Lemma retire_cases host arch w :
  Retracer.retire host arch w = (Ok tt, retired arch w)
  \/ exists n e w',
       Retracer.retire host arch w = (Ok tt, w') /\ cut_short arch n e w w'.
Proof.
  unfold Retracer.retire.
  change (Retracer.systemd_unit_location +:+ "/" +:+ ?x) with (unit_path x).
  rewrite try_except_unfold, bind_unfold.
  destruct (service_stop_cases host (Retracer.worker_timer arch) w)
    as [->|(e & ->)]; [|cut_short_at 1 e].
  rewrite bind_unfold.
  destruct (service_stop_cases host (Retracer.worker_service arch)
              (stopped (Retracer.worker_timer arch) w))
    as [->|(e & ->)]; [|cut_short_at 2 e].
  rewrite bind_unfold.
  match goal with |- context [Sys.service_disable host ?u ?x] =>
    destruct (service_disable_cases host u x) as [->|(e & ->)];
      [|cut_short_at 3 e] end.
  rewrite bind_unfold.
  match goal with |- context [Sys.unlink_missing_ok host ?u ?x] =>
    destruct (unlink_cases host u x) as [->|(e & ->)];
      [|cut_short_at 4 e] end.
  rewrite bind_unfold.
  match goal with |- context [Sys.unlink_missing_ok host ?u ?x] =>
    destruct (unlink_cases host u x) as [->|(e & ->)];
      [|cut_short_at 5 e] end.
  left. reflexivity.
Qed.

Lemma call_none host c effect w :
  fault host (trace w) c = None ->
  Sys.call host c effect w = (Ok tt, effect (called c w)).
Proof. intros H. unfold Sys.call. by rewrite H. Qed.

Lemma retire_reliable_ok host arch w :
  retire_reliable host ->
  Retracer.retire host arch w = (Ok tt, retired arch w).
Proof.
  intros Hr. unfold Retracer.retire, Sys.service_stop, Sys.service_disable,
    Sys.unlink_missing_ok.
  change (Retracer.systemd_unit_location +:+ "/" +:+ ?x) with (unit_path x).
  rewrite try_except_unfold.
  repeat (rewrite bind_unfold, call_none by (by apply Hr)).
  reflexivity.
Qed.

Lemma retire_all_reliable host architectures current w :
  retire_reliable host ->
  retire_all host architectures current w
  = (Ok tt, retire_world architectures current w).
Proof.
  intros Hr. unfold retire_all. revert w.
  induction current as [|arch rest IH]; intros w; cbn [for_each retire_world];
    [done|].
  rewrite bind_eq. case_bool_decide.
  - rewrite (retire_reliable_ok _ _ _ Hr). apply IH.
  - apply IH.
Qed.

(** With nothing to retire the loop does nothing, on any host. *)
Lemma retire_all_nothing host architectures current w :
  (forall arch, arch ∈ current -> arch ∈ architectures) ->
  retire_all host architectures current w = (Ok tt, w).
Proof.
  unfold retire_all. revert w.
  induction current as [|arch rest IH]; intros w H; cbn [for_each]; [done|].
  rewrite bind_eq. rewrite bool_decide_eq_false_2.
  - apply IH. intros a Ha. apply H. by right.
  - intros Hn. apply Hn, H. left.
Qed.

Lemma retire_world_wants architectures current w x :
  x ∈ wants (retire_world architectures current w)
  <-> x ∈ wants w
      /\ forall arch, arch ∈ current -> arch ∉ architectures ->
                      x <> Retracer.worker_timer arch.
Proof.
  revert w. induction current as [|arch rest IH]; intros w;
    cbn [retire_world].
  - split; [|by intros [? _]]. intros H. split; [done|].
    intros a Ha. by apply elem_of_nil in Ha.
  - rewrite IH. case_bool_decide as Hd.
    + rewrite retired_wants, elem_of_remove_entry. split.
      * intros [[Hx Hne] Hrest]. split; [done|].
        intros a [->|Ha]%elem_of_cons; auto.
      * intros [Hx Hall]. split; [split; [done|]|].
        -- apply Hall; [left|done].
        -- intros a Ha. apply Hall. by right.
    + split.
      * intros [Hx Hrest]. split; [done|].
        intros a [->|Ha]%elem_of_cons; [done|auto].
      * intros [Hx Hall]. split; [done|].
        intros a Ha. apply Hall. by right.
Qed.

Lemma retire_world_active architectures current w x :
  x ∈ active (retire_world architectures current w)
  <-> x ∈ active w
      /\ forall arch, arch ∈ current -> arch ∉ architectures ->
                      x <> Retracer.worker_timer arch
                      /\ x <> Retracer.worker_service arch.
Proof.
  revert w. induction current as [|arch rest IH]; intros w;
    cbn [retire_world].
  - split; [|by intros [? _]]. intros H. split; [done|].
    intros a Ha. by apply elem_of_nil in Ha.
  - rewrite IH. case_bool_decide as Hd.
    + rewrite retired_active, !elem_of_remove_entry. split.
      * intros [[[Hx Hne1] Hne2] Hrest]. split; [done|].
        intros a [->|Ha]%elem_of_cons; auto.
      * intros [Hx Hall]. split; [split; [split; [done|]|]|].
        -- apply Hall; [left|done].
        -- apply Hall; [left|done].
        -- intros a Ha. apply Hall. by right.
    + split.
      * intros [Hx Hrest]. split; [done|].
        intros a [->|Ha]%elem_of_cons; [done|auto].
      * intros [Hx Hall]. split; [done|].
        intros a Ha. apply Hall. by right.
Qed.

Lemma under_units_unit_path name : under_units (unit_path name) = true.
Proof.
  unfold under_units, unit_path, Retracer.systemd_unit_location.
  change ("/etc/systemd/system" +:+ "/" +:+ name)
    with ("/etc/systemd/system/" +:+ name).
  rewrite strip_prefix_app. by apply bool_decide_eq_true_2.
Qed.

Lemma retire_world_files_other architectures current w q :
  under_units q = false ->
  files (retire_world architectures current w) !! q = files w !! q.
Proof.
  intros Hq. revert w.
  induction current as [|arch rest IH]; intros w; cbn [retire_world];
    [done|].
  rewrite IH. case_bool_decide; [|done].
  rewrite retired_files.
  rewrite !lookup_delete_ne; [done|..];
    apply not_eq_sym, (under_units_ne _ _ Hq), under_units_unit_path.
Qed.

Lemma retire_world_trace architectures current w :
  trace (retire_world architectures current w)
  = trace w ++ concat (retire_calls <$> retirees architectures current).
Proof.
  revert w. induction current as [|arch rest IH]; intros w;
    cbn [retire_world].
  - by rewrite app_nil_r.
  - rewrite IH. unfold retirees. rewrite filter_cons.
    case_bool_decide as Hd.
    + rewrite decide_True by done. rewrite retired_trace.
      rewrite fmap_cons. cbn [concat]. by rewrite <- app_assoc.
    + rewrite decide_False; [done|]. intros Hn. by apply Hn.
Qed.

(** *** Discovering the live set *)

Lemma comprehension_arch_of (l : list string) :
  (forall arch, Retracer.worker_timer arch ∈ l -> clean arch = true) ->
  exists cur,
    comprehension Retracer.arch_of
      (timer_path <$>
         filter (fun n => PyStr.fnmatch_star Retracer.worker_prefix
                            Retracer.timer_suffix n = true) l) = Ok cur
    /\ forall arch, arch ∈ cur <-> Retracer.worker_timer arch ∈ l.
Proof.
  induction l as [|n l IH]; intros Hl.
  - exists []. split; [done|]. intros a. split; intros H;
      by apply elem_of_nil in H.
  - destruct IH as (cur & Hcur & Hin).
    { intros a Ha. apply Hl. by right. }
    rewrite filter_cons.
    destruct (decide (PyStr.fnmatch_star Retracer.worker_prefix
                        Retracer.timer_suffix n = true)) as [Hm|Hm].
    + destruct (match_worker_timer n Hm) as [a0 ->].
      rewrite fmap_cons. cbn [comprehension].
      rewrite (arch_of_clean a0) by (apply Hl; left). rewrite Hcur.
      exists (a0 :: cur). split; [done|]. intros a.
      rewrite !elem_of_cons, Hin. split.
      * intros [->|H]; [by left|by right].
      * intros [H%worker_timer_inj|H]; [by left|by right].
    + exists cur. split; [done|]. intros a. rewrite elem_of_cons, Hin.
      split; [by right|]. intros [H|H]; [|done].
      destruct Hm. rewrite <- H. apply worker_timer_match.
Qed.

Lemma current_archs_clean w :
  live_clean w ->
  exists cur, current_archs w = Ok cur
              /\ forall arch, arch ∈ cur
                              <-> Retracer.worker_timer arch ∈ wants w.
Proof. intros H. by apply comprehension_arch_of. Qed.

Lemma worker_timer_not_dupcheck arch :
  Retracer.worker_timer arch <> dupcheck_timer.
Proof.
  unfold Retracer.worker_timer, Retracer.worker_prefix, dupcheck_timer.
  rewrite !str_app_cons. discriminate.
Qed.

Lemma str_app_last_inj s s' x y :
  s +:+ String x "" = s' +:+ String y "" -> x = y.
Proof.
  revert s'. induction s as [|a s IH]; intros [|b s'];
    rewrite ?str_app_cons, ?str_app_nil_l.
  - by intros [= ->].
  - intros [= _ H]. apply (f_equal String.length) in H.
    rewrite str_app_length in H. simpl in H. lia.
  - intros [= _ H]. apply (f_equal String.length) in H.
    rewrite str_app_length in H. simpl in H. lia.
  - intros [= _ H]. by apply IH in H.
Qed.

Lemma worker_timer_not_service a b :
  Retracer.worker_timer a <> Retracer.worker_service b.
Proof.
  unfold Retracer.worker_timer, Retracer.worker_service. intros H.
  apply (inj (String.app _)) in H.
  unfold Retracer.timer_suffix, Retracer.service_suffix in H.
  change ".timer" with (".time" +:+ "r") in H.
  change ".service" with (".servic" +:+ "e") in H.
  rewrite <- !str_app_assoc in H. apply str_app_last_inj in H.
  discriminate H.
Qed.

Lemma live_clean_units_world self ds dt ws wt w :
  live_clean w -> live_clean (units_world self ds dt ws wt w).
Proof.
  intros H a. rewrite units_world_wants, elem_of_add_entry.
  intros [Ha|Ha]; [by apply worker_timer_not_dupcheck in Ha|by apply H].
Qed.

(** The second part on a host whose retirements do not fail, from a
    clean live set. *)
Lemma sync_units_ok_inv host architectures w w' :
  retire_reliable host ->
  live_clean w ->
  sync_units host architectures w = (Ok tt, w') ->
  exists cur,
    (forall arch, arch ∈ cur <-> Retracer.worker_timer arch ∈ wants w)
    /\ w' = set_log (fun l => l ++ [synced_msg])
              (retire_world architectures cur (enable_world architectures w)).
Proof.
  intros Hr Hclean H. unfold sync_units in H.
  destruct (current_archs_clean w Hclean) as (cur & Hcur & Hin).
  rewrite bind_unfold, Hcur in H.
  apply bind_ok_inv in H as ([] & w3 & H3 & H).
  apply enable_all_ok_inv in H3 as ->.
  rewrite bind_unfold, (retire_all_reliable _ _ _ _ Hr) in H.
  injection H as <-. by exists cur.
Qed.

(** A successful pass on a host whose retirements do not fail, from a
    clean live set: the world it leaves. *)
Lemma setup_ok_world host self architectures w w' :
  retire_reliable host ->
  live_clean w ->
  Retracer._setup_systemd_units host self architectures w = (Ok tt, w') ->
  exists ds dt ws wt cur,
    files w !! Retracer.systemd_unit_location = None
    /\ files w !! src_dupcheck_service = Some ds
    /\ files w !! src_dupcheck_timer = Some dt
    /\ files w !! src_worker_service = Some ws
    /\ files w !! src_worker_timer = Some wt
    /\ (forall arch, arch ∈ cur <-> Retracer.worker_timer arch ∈ wants w)
    /\ w' = set_log (fun l => l ++ [synced_msg])
              (retire_world architectures cur
                 (enable_world architectures
                    (units_world self (content ds) (content dt) (content ws)
                       (content wt) w))).
Proof.
  intros Hr Hclean. rewrite setup_systemd_units_parts. intros H.
  apply bind_ok_inv in H as ([] & w1 & H1 & H).
  apply write_units_ok_inv in H1
    as (ds & dt & ws & wt & Hloc & Hds & Hdt & Hws & Hwt & Hw1).
  apply (sync_units_ok_inv _ _ _ _ Hr) in H as (cur & Hin & Hw').
  2:{ rewrite Hw1. by apply live_clean_units_world. }
  exists ds, dt, ws, wt, cur.
  repeat (split; [assumption|]). split.
  - intros a. rewrite Hin, Hw1, units_world_wants, elem_of_add_entry.
    split; [|by right].
    intros [Ha|Ha]; [by apply worker_timer_not_dupcheck in Ha|done].
  - rewrite Hw'. by rewrite Hw1.
Qed.

(** *** The enabled set after a pass *)

Lemma reconciled_wants architectures cur w0 arch :
  (forall b, b ∈ cur <-> Retracer.worker_timer b ∈ wants w0) ->
  Retracer.worker_timer arch
    ∈ wants (retire_world architectures cur (enable_world architectures w0))
  <-> arch ∈ architectures.
Proof.
  intros Hcur. rewrite retire_world_wants, enable_world_wants. split.
  - intros [Hen Hret].
    destruct (decide (arch ∈ architectures)) as [|Hn]; [done|].
    destruct Hen as [Hw|(b & Hb & ->%worker_timer_inj)]; [|done].
    destruct (Hret arch); [by apply Hcur|done..].
  - intros Ha. split; [right; by exists arch|].
    intros b _ Hb ->%worker_timer_inj. done.
Qed.

Lemma reconciled_active architectures cur w0 arch :
  arch ∈ architectures ->
  Retracer.worker_timer arch
    ∈ active (retire_world architectures cur (enable_world architectures w0)).
Proof.
  intros Ha. rewrite retire_world_active, enable_world_active.
  split; [right; by exists arch|].
  intros b _ Hb. split.
  - by intros ->%worker_timer_inj.
  - apply worker_timer_not_service.
Qed.

Lemma units_world_worker_wants self ds dt ws wt w arch :
  Retracer.worker_timer arch ∈ wants (units_world self ds dt ws wt w)
  <-> Retracer.worker_timer arch ∈ wants w.
Proof.
  rewrite units_world_wants, elem_of_add_entry. split; [|by right].
  intros [H|H]; [by apply worker_timer_not_dupcheck in H|done].
Qed.

(** C1, as stated, fails: when a step of a retirement fails, the pass
    logs it and still completes, and the retired timer stays enabled. *)
Lemma reconcile_leaves_stale_timer :
  ~ (forall host self architectures w w',
       architectures <> [] ->
       Retracer._setup_systemd_units host self architectures w = (Ok tt, w') ->
       forall arch,
         Retracer.worker_timer arch ∈ wants w' <-> arch ∈ architectures).
Proof.
  intros H.
  pose (w' := snd (Retracer._setup_systemd_units stop_fails_once
                     (Retracer.__init__ ∅) ["amd64"] two_workers)).
  assert (Hw : wants w' = [Retracer.worker_timer "amd64";
                           Retracer.worker_timer "arm64"; dupcheck_timer])
    by (vm_compute; reflexivity).
  specialize (H stop_fails_once (Retracer.__init__ ∅) ["amd64"] two_workers
                w').
  destruct (H ltac:(done) ltac:(vm_compute; reflexivity) "arm64") as [Hin _].
  assert (Hbad : "arm64" ∈ ["amd64"]).
  { apply Hin. rewrite Hw. right. left. }
  apply elem_of_cons in Hbad as [Hbad|Hbad]; [discriminate Hbad|].
  by apply elem_of_nil in Hbad.
Qed.

(** C1, amended. On a host where no step of a retirement fails, and from
    a live set whose identifiers contain neither [@] nor [.], a pass that
    completes leaves exactly the desired architectures' timers enabled,
    each of them started. *)
Theorem reconcile_enabled_set host self architectures w w' :
  retire_reliable host ->
  live_clean w ->
  Retracer._setup_systemd_units host self architectures w = (Ok tt, w') ->
  forall arch,
    (Retracer.worker_timer arch ∈ wants w' <-> arch ∈ architectures)
    /\ (arch ∈ architectures -> Retracer.worker_timer arch ∈ active w').
Proof.
  intros Hr Hclean H arch.
  apply (setup_ok_world _ _ _ _ _ Hr Hclean) in H
    as (ds & dt & ws & wt & cur & _ & _ & _ & _ & _ & Hcur & ->).
  cbn [wants active set_log]. split.
  - apply reconciled_wants. intros b.
    by rewrite units_world_worker_wants.
  - apply reconciled_active.
Qed.

Lemma calm_host_retire_reliable : retire_reliable calm_host.
Proof. intros h c _. reflexivity. Qed.

Lemma two_workers_clean : live_clean two_workers.
Proof.
  intros a Ha. cbn [wants two_workers] in Ha.
  repeat (apply elem_of_cons in Ha as [Ha|Ha];
          [apply worker_timer_inj in Ha as ->; reflexivity|]).
  by apply elem_of_nil in Ha.
Qed.

Lemma reconcile_enabled_set_witness :
  let w' := snd (Retracer._setup_systemd_units calm_host
                   (Retracer.__init__ ∅) ["amd64"; "s390x"] two_workers) in
  (Retracer.worker_timer "s390x" ∈ wants w' <-> "s390x" ∈ ["amd64"; "s390x"])
  /\ (Retracer.worker_timer "arm64" ∈ wants w' <-> "arm64" ∈ ["amd64"; "s390x"]).
Proof.
  cbv zeta.
  assert (Hrun : Retracer._setup_systemd_units calm_host
                   (Retracer.__init__ ∅) ["amd64"; "s390x"] two_workers
                 = (Ok tt, snd (Retracer._setup_systemd_units calm_host
                      (Retracer.__init__ ∅) ["amd64"; "s390x"] two_workers)))
    by (vm_compute; reflexivity).
  pose proof (reconcile_enabled_set calm_host (Retracer.__init__ ∅)
                ["amd64"; "s390x"] two_workers _
                calm_host_retire_reliable two_workers_clean Hrun) as H.
  split; apply H.
Defined.

(** *** Calls outside the retirements *)








(** The retirement loop on any host: it returns normally, and every
    architecture it has to retire got its steps, in order, up to the
    fifth or to the first that failed, and its log entry. *)
Lemma retire_all_total host architectures current w :
  exists w' d l,
    retire_all host architectures current w = (Ok tt, w')
    /\ trace w' = trace w ++ d
    /\ log w' = log w ++ l
    /\ forall arch, arch ∈ current -> arch ∉ architectures ->
         exists d1 d2 n,
           d = d1 ++ take n (retire_calls arch) ++ d2
           /\ 1 <= n <= 5
           /\ ((n = 5 /\ mkLog DEBUG retired_msg [arch] ∈ l)
               \/ exists e, mkLog WARNING retire_failed_msg
                              [arch; exn_str e] ∈ l).
Proof.
  unfold retire_all. revert w.
  induction current as [|arch rest IH]; intros w; cbn [for_each].
  - exists w, [], []. rewrite !app_nil_r. repeat split.
    intros a Ha. by apply elem_of_nil in Ha.
  - rewrite bind_eq. case_bool_decide as Hd.
    + assert (exists w1 d0 l0,
                Retracer.retire host arch w = (Ok tt, w1)
                /\ trace w1 = trace w ++ d0 /\ log w1 = log w ++ l0
                /\ exists n, d0 = take n (retire_calls arch) /\ 1 <= n <= 5
                   /\ ((n = 5 /\ mkLog DEBUG retired_msg [arch] ∈ l0)
                       \/ exists e, mkLog WARNING retire_failed_msg
                                      [arch; exn_str e] ∈ l0))
        as (w1 & d0 & l0 & Hrun & Ht & Hl & n & Hd0 & Hn & Hout).
      { destruct (retire_cases host arch w)
          as [H|(n & e & w1 & H & Hn & Ht & Hl)].
        - exists (retired arch w), (retire_calls arch),
            [mkLog DEBUG retired_msg [arch]].
          split; [done|]. split; [apply retired_trace|].
          split; [apply retired_log|]. exists 5.
          split; [done|]. split; [lia|]. left. split; [done|]. left.
        - exists w1, (take n (retire_calls arch)),
            [mkLog WARNING retire_failed_msg [arch; exn_str e]].
          split; [done|]. split; [done|]. split; [done|]. exists n.
          split; [done|]. split; [done|]. right. exists e. left. }
      rewrite Hrun. destruct (IH w1) as (w' & d & l & Hrest & Ht' & Hl' & Hall).
      exists w', (d0 ++ d), (l0 ++ l). split; [done|].
      split; [by rewrite Ht', Ht, <- app_assoc|].
      split; [by rewrite Hl', Hl, <- app_assoc|].
      intros a [->|Ha]%elem_of_cons Hna.
      * exists [], d, n. split; [by rewrite Hd0|]. split; [done|].
        destruct Hout as [[-> Hin]|(e & Hin)].
        -- left. split; [done|]. apply elem_of_app. by left.
        -- right. exists e. apply elem_of_app. by left.
      * destruct (Hall a Ha Hna) as (d1 & d2 & m & -> & Hm & Hout').
        exists (d0 ++ d1), d2, m. split; [by rewrite <- app_assoc|].
        split; [done|].
        destruct Hout' as [[-> Hin]|(e & Hin)].
        -- left. split; [done|]. apply elem_of_app. by right.
        -- right. exists e. apply elem_of_app. by right.
    + destruct (IH w) as (w' & d & l & Hrest & Ht' & Hl' & Hall).
      exists w', d, l. repeat (split; [done|]).
      intros a [->|Ha]%elem_of_cons Hna; [done|]. by apply Hall.
Qed.




(** *** The retirements, step by step *)

Lemma shrinks_refl w : shrinks w w.
Proof. by repeat split. Qed.







Lemma attempt_reliable host t cs :
  (forall h c, c ∈ cs -> fault host h c = None) ->
  attempt host t cs = (cs, None).
Proof.
  revert t. induction cs as [|c cs IH]; intros t H; cbn [attempt]; [done|].
  rewrite H by left. rewrite IH; [done|]. intros h c' Hc. apply H. by right.
Qed.




Lemma units_calls_no_retire self ds dt ws wt :
  Forall (fun c => is_retire_call c = false) (units_calls self ds dt ws wt).
Proof. unfold units_calls. repeat constructor. Qed.

Lemma enable_calls_no_retire architectures :
  Forall (fun c => is_retire_call c = false) (enable_calls architectures).
Proof.
  unfold enable_calls. apply Forall_fmap, Forall_forall. by intros.
Qed.



(** *** The unit files written by a pass *)

Lemma sync_units_ok_trace host architectures w w' :
  sync_units host architectures w = (Ok tt, w') ->
  exists d, trace w' = trace w ++ d.
Proof.
  unfold sync_units. rewrite bind_unfold.
  destruct (current_archs w) as [cur|e]; [|done].
  intros H. apply bind_ok_inv in H as ([] & w2 & H2 & H).
  apply enable_all_ok_inv in H2 as ->.
  rewrite bind_unfold in H.
  destruct (retire_all_total host architectures cur
              (enable_world architectures w))
    as (w3 & d & l & Hrun & Ht & _).
  rewrite Hrun in H. injection H as <-.
  exists (enable_calls architectures ++ d).
  rewrite trace_set_log, Ht, enable_world_trace. by rewrite <- app_assoc.
Qed.

(** C6, as stated, fails for the two timer files: with a proxy
    configured, the dupcheck timer is written with the template text
    alone, not with the proxy block after it. *)
Lemma timer_units_without_proxy_block :
  ~ (forall host self architectures w w' dt,
       Retracer._setup_systemd_units host self architectures w = (Ok tt, w') ->
       files w !! src_dupcheck_timer = Some dt ->
       WriteText etc_dupcheck_timer (content dt +:+ Retracer.systemd_proxy self)
         ∈ trace w').
Proof.
  intros H.
  pose (self := Retracer.__init__ squid_environ).
  pose (w' := snd (Retracer._setup_systemd_units calm_host self ["amd64"]
                     two_workers)).
  specialize (H calm_host self ["amd64"] two_workers w'
                (mkFile "[Timer]" 420 "root" "root")).
  assert (Hin : WriteText etc_dupcheck_timer
                  ("[Timer]" +:+ Retracer.systemd_proxy self) ∈ trace w').
  { apply H; vm_compute; reflexivity. }
  assert (Hdec : bool_decide
                   (WriteText etc_dupcheck_timer
                      ("[Timer]" +:+ Retracer.systemd_proxy self) ∈ trace w')
                 = false) by (vm_compute; reflexivity).
  apply bool_decide_eq_false in Hdec. by apply Hdec.
Qed.

(** C6, amended. A pass that completes has written the four unit files,
    whatever the architectures and the live set: the two service files
    with the template text followed by the proxy block, the two timer
    files with the template text alone. *)
Theorem unit_files_written host self architectures w w' :
  Retracer._setup_systemd_units host self architectures w = (Ok tt, w') ->
  exists ds dt ws wt d,
    files w !! src_dupcheck_service = Some ds
    /\ files w !! src_dupcheck_timer = Some dt
    /\ files w !! src_worker_service = Some ws
    /\ files w !! src_worker_timer = Some wt
    /\ trace w' = trace w ++ d
    /\ WriteText etc_dupcheck_service
         (content ds +:+ Retracer.systemd_proxy self) ∈ d
    /\ WriteText etc_dupcheck_timer (content dt) ∈ d
    /\ WriteText etc_worker_service
         (content ws +:+ Retracer.systemd_proxy self) ∈ d
    /\ WriteText etc_worker_timer (content wt) ∈ d.
Proof.
  rewrite setup_systemd_units_parts. intros H.
  apply bind_ok_inv in H as ([] & w1 & H1 & H).
  apply write_units_ok_inv in H1
    as (ds & dt & ws & wt & _ & Hds & Hdt & Hws & Hwt & Hw1).
  apply sync_units_ok_trace in H as (d & Hd).
  exists ds, dt, ws, wt,
    (units_calls self (content ds) (content dt) (content ws) (content wt)
       ++ d).
  repeat (split; [assumption|]). split.
  - rewrite Hd, Hw1, units_world_trace. by rewrite <- app_assoc.
  - unfold units_calls. cbv zeta.
    repeat split; apply elem_of_app; left; set_solver.
Qed.

Lemma unit_files_written_witness :
  let self := Retracer.__init__ squid_environ in
  let w' := snd (Retracer._setup_systemd_units calm_host self ["amd64"]
                   two_workers) in
  exists d,
    trace w' = trace two_workers ++ d
    /\ WriteText etc_dupcheck_timer "[Timer]" ∈ d
    /\ WriteText etc_worker_service
         ("[Service] %i" +:+ Retracer.systemd_proxy self) ∈ d.
Proof.
  cbv zeta.
  assert (Hrun : Retracer._setup_systemd_units calm_host
                   (Retracer.__init__ squid_environ) ["amd64"] two_workers
                 = (Ok tt, snd (Retracer._setup_systemd_units calm_host
                      (Retracer.__init__ squid_environ) ["amd64"]
                      two_workers)))
    by (vm_compute; reflexivity).
  destruct (unit_files_written _ _ _ _ _ Hrun)
    as (ds & dt & ws & wt & d & Hds & Hdt & Hws & Hwt & Ht & _ & H2 & H3 & _).
  assert (Edt : dt = mkFile "[Timer]" 420 "root" "root").
  { assert (E : files two_workers !! src_dupcheck_timer
                = Some (mkFile "[Timer]" 420 "root" "root"))
      by (vm_compute; reflexivity). congruence. }
  assert (Ews : ws = mkFile "[Service] %i" 420 "root" "root").
  { assert (E : files two_workers !! src_worker_service
                = Some (mkFile "[Service] %i" 420 "root" "root"))
      by (vm_compute; reflexivity). congruence. }
  subst dt ws. exists d. repeat split; assumption.
Defined.

(** *** A second pass *)

Lemma trace_written p data w : trace (written p data w) = trace w.
Proof. reflexivity. Qed.
Lemma trace_set_dirs f w : trace (set_dirs f w) = trace w.
Proof. reflexivity. Qed.

Lemma quiet_called host c w :
  quiet_from host (trace w) -> quiet_from host (trace (called c w)).
Proof. intros H. rewrite trace_called. by apply quiet_from_app. Qed.

Lemma mkdir_p_quiet host p w :
  quiet_from host (trace w) -> files w !! p = None ->
  Sys.mkdir_p host p w
  = (Ok tt, set_dirs (fun d => {[p]} ∪ d) (called (MkdirP p) w)).
Proof.
  intros Hq Hp. unfold Sys.mkdir_p. rewrite (call_with_quiet _ _ _ _ Hq).
  rewrite files_called, Hp. reflexivity.
Qed.

Lemma read_text_quiet host p w f :
  quiet_from host (trace w) -> files w !! p = Some f ->
  Sys.read_text host p w = (Ok (content f), called (ReadText p) w).
Proof.
  intros Hq Hp. unfold Sys.read_text. rewrite (call_with_quiet _ _ _ _ Hq).
  rewrite files_called, Hp. reflexivity.
Qed.

Lemma write_text_quiet host p data w :
  quiet_from host (trace w) ->
  Sys.write_text host p data w
  = (Ok tt, written p data (called (WriteText p data) w)).
Proof. intros Hq. unfold Sys.write_text. by rewrite (call_quiet _ _ _ _ Hq). Qed.

Lemma service_enable_now_quiet host u w :
  quiet_from host (trace w) ->
  Sys.service_enable_now host u w = (Ok tt, enabled_now u w).
Proof.
  intros Hq. unfold Sys.service_enable_now.
  by rewrite (call_quiet _ _ _ _ Hq).
Qed.

Lemma daemon_reload_quiet host w :
  quiet_from host (trace w) ->
  Sys.daemon_reload host w = (Ok tt, called DaemonReload w).
Proof.
  intros Hq. unfold Sys.daemon_reload. by rewrite (call_quiet _ _ _ _ Hq).
Qed.

Ltac quiet_goal :=
  repeat first
    [ assumption
    | rewrite trace_written
    | rewrite trace_set_dirs
    | rewrite trace_enabled_now
    | rewrite trace_called
    | apply quiet_from_app ].

Ltac files_goal :=
  repeat first
    [ rewrite files_called
    | rewrite files_enabled_now
    | rewrite files_set_dirs
    | rewrite written_files_other
        by (eapply under_units_ne; [apply src_not_under_units
                                   |apply under_units_etc]) ];
  assumption.

(** The first part on a host that is quiet from here on, with the
    templates in place. *)
Lemma write_units_quiet host self w ds dt ws wt :
  quiet_from host (trace w) ->
  files w !! Retracer.systemd_unit_location = None ->
  files w !! src_dupcheck_service = Some ds ->
  files w !! src_dupcheck_timer = Some dt ->
  files w !! src_worker_service = Some ws ->
  files w !! src_worker_timer = Some wt ->
  write_units host self w
  = (Ok tt, units_world self (content ds) (content dt) (content ws)
              (content wt) w).
Proof.
  intros Hq Hloc Hds Hdt Hws Hwt. unfold write_units.
  rewrite bind_unfold, (mkdir_p_quiet _ _ _ Hq Hloc).
  rewrite bind_unfold, (read_text_quiet _ _ _ ds) by (quiet_goal || files_goal).
  rewrite bind_unfold, (read_text_quiet _ _ _ dt) by (quiet_goal || files_goal).
  rewrite bind_unfold, write_text_quiet by quiet_goal.
  rewrite bind_unfold, write_text_quiet by quiet_goal.
  rewrite bind_unfold, service_enable_now_quiet by quiet_goal.
  rewrite bind_unfold, (read_text_quiet _ _ _ ws) by (quiet_goal || files_goal).
  rewrite bind_unfold, (read_text_quiet _ _ _ wt) by (quiet_goal || files_goal).
  rewrite bind_unfold, write_text_quiet by quiet_goal.
  rewrite bind_unfold, write_text_quiet by quiet_goal.
  rewrite daemon_reload_quiet by quiet_goal.
  reflexivity.
Qed.

(** The second part on a quiet host when every live architecture is
    desired: the timers are enabled again and nothing is retired. *)
Lemma sync_units_quiet_nothing host architectures w cur :
  quiet_from host (trace w) ->
  current_archs w = Ok cur ->
  (forall arch, arch ∈ cur -> arch ∈ architectures) ->
  sync_units host architectures w
  = (Ok tt, set_log (fun l => l ++ [synced_msg])
              (enable_world architectures w)).
Proof.
  intros Hq Hcur Hsub. unfold sync_units.
  rewrite bind_unfold, Hcur.
  rewrite bind_unfold, (enable_all_quiet _ _ _ Hq).
  rewrite bind_unfold, (retire_all_nothing _ _ _ _ Hsub).
  reflexivity.
Qed.

(** C2, as stated, fails: a retirement that failed during the first pass
    (which completed all the same) is tried again by the second, which
    therefore retires one architecture and changes the enabled set. *)
Lemma second_pass_retires_again :
  ~ (forall host self architectures w w1,
       architectures <> [] ->
       Retracer._setup_systemd_units host self architectures w = (Ok tt, w1) ->
       exists w2 d,
         Retracer._setup_systemd_units host self architectures w1
         = (Ok tt, w2)
         /\ (forall arch, Retracer.worker_timer arch ∈ wants w2
                          <-> Retracer.worker_timer arch ∈ wants w1)
         /\ trace w2 = trace w1 ++ d
         /\ Forall (fun c => is_retire_call c = false) d).
Proof.
  intros H.
  pose (self := Retracer.__init__ ∅).
  pose (w1 := snd (Retracer._setup_systemd_units stop_fails_once self
                     ["amd64"] two_workers)).
  destruct (H stop_fails_once self ["amd64"] two_workers w1)
    as (w2 & d & Hrun & Hsame & _); [done|vm_compute; reflexivity|].
  assert (E2 : wants (snd (Retracer._setup_systemd_units stop_fails_once
                             self ["amd64"] w1))
               = [Retracer.worker_timer "amd64"; dupcheck_timer])
    by (vm_compute; reflexivity).
  rewrite Hrun in E2. cbn [snd] in E2.
  assert (E1 : wants w1 = [Retracer.worker_timer "amd64";
                           Retracer.worker_timer "arm64"; dupcheck_timer])
    by (vm_compute; reflexivity).
  assert (Hin : Retracer.worker_timer "arm64" ∈ wants w2).
  { apply Hsame. rewrite E1. right. left. }
  rewrite E2 in Hin.
  apply elem_of_cons in Hin as [Hin|Hin];
    [by apply worker_timer_inj in Hin|].
  apply elem_of_cons in Hin as [Hin|Hin];
    [by apply worker_timer_not_dupcheck in Hin|].
  by apply elem_of_nil in Hin.
Qed.

(** C2, amended. Let the desired identifiers and those of the live set
    contain neither [@] nor [.], and let no step of a retirement fail on
    this host. If a first pass completes and the host does not fail
    during the second, then the second pass, with the same list, returns
    normally, leaves the listing of enabled timers as the first left it
    (the desired set exactly), and makes no call of a retirement. *)
Theorem reconcile_idempotent host self architectures w w1 :
  Forall (fun arch => clean arch = true) architectures ->
  live_clean w ->
  retire_reliable host ->
  Retracer._setup_systemd_units host self architectures w = (Ok tt, w1) ->
  quiet_from host (trace w1) ->
  exists w2 d,
    Retracer._setup_systemd_units host self architectures w1 = (Ok tt, w2)
    /\ wants w2 = wants w1
    /\ (forall arch, Retracer.worker_timer arch ∈ wants w2
                     <-> arch ∈ architectures)
    /\ trace w2 = trace w1 ++ d
    /\ Forall (fun c => is_retire_call c = false) d.
Proof.
  intros Hdesired Hclean Hr Hfirst Hq.
  apply (setup_ok_world _ _ _ _ _ Hr Hclean) in Hfirst
    as (ds & dt & ws & wt & cur & Hloc & Hds & Hdt & Hws & Hwt & Hcur & Hw1).
  set (u := units_world self (content ds) (content dt) (content ws)
              (content wt) w) in Hw1.
  assert (Hcur_u : forall b, b ∈ cur <-> Retracer.worker_timer b ∈ wants u).
  { intros b. unfold u. by rewrite units_world_worker_wants. }
  assert (Hwants1 : forall arch, Retracer.worker_timer arch ∈ wants w1
                                 <-> arch ∈ architectures).
  { intros arch. rewrite Hw1. cbn [wants set_log].
    by apply reconciled_wants. }
  assert (Hdup : dupcheck_timer ∈ wants w1).
  { rewrite Hw1. cbn [wants set_log].
    apply retire_world_wants. split.
    - apply enable_world_wants. left. unfold u.
      rewrite units_world_wants. apply elem_of_add_entry. by left.
    - intros arch _ _ Heq. by apply (worker_timer_not_dupcheck arch). }
  assert (Hfiles : forall q, under_units q = false ->
                             files w1 !! q = files w !! q).
  { intros q Hq'. rewrite Hw1. cbn [files set_log].
    rewrite retire_world_files_other, enable_world_files by done.
    by apply units_world_files_other. }
  clearbody u. clear Hw1.
  destruct src_not_under_units as (S1 & S2 & S3 & S4 & S5).
  rewrite <- (Hfiles _ S1) in Hds. rewrite <- (Hfiles _ S2) in Hdt.
  rewrite <- (Hfiles _ S3) in Hws. rewrite <- (Hfiles _ S4) in Hwt.
  rewrite <- (Hfiles _ S5) in Hloc.
  pose proof (write_units_quiet host self w1 ds dt ws wt Hq Hloc Hds Hdt
                Hws Hwt) as Hunits.
  set (u1 := units_world self (content ds) (content dt) (content ws)
               (content wt) w1) in Hunits.
  assert (Hwants_u1 : forall arch, Retracer.worker_timer arch ∈ wants u1
                                   <-> arch ∈ architectures).
  { intros arch. unfold u1. by rewrite units_world_worker_wants. }
  assert (Hclean1 : live_clean u1).
  { intros arch Ha. apply Hwants_u1 in Ha.
    by apply (proj1 (Forall_forall _ _) Hdesired). }
  destruct (current_archs_clean u1 Hclean1) as (cur2 & Hcur2 & Hin2).
  assert (Hq1 : quiet_from host (trace u1)).
  { unfold u1. rewrite units_world_trace. by apply quiet_from_app. }
  assert (Hsync : sync_units host architectures u1
                  = (Ok tt, set_log (fun l => l ++ [synced_msg])
                              (enable_world architectures u1))).
  { apply (sync_units_quiet_nothing _ _ _ cur2 Hq1 Hcur2).
    intros arch Ha. by apply Hwants_u1, Hin2. }
  assert (Hw2 : wants (enable_world architectures u1) = wants w1).
  { rewrite enable_world_wants_present.
    - unfold u1. rewrite units_world_wants. by apply add_entry_present.
    - intros arch Ha. by apply Hwants_u1. }
  exists (set_log (fun l => l ++ [synced_msg])
            (enable_world architectures u1)),
    (units_calls self (content ds) (content dt) (content ws) (content wt)
       ++ enable_calls architectures).
  split; [|split; [|split; [|split]]].
  - rewrite setup_systemd_units_parts, bind_unfold, Hunits. exact Hsync.
  - exact Hw2.
  - intros arch. cbn [wants set_log]. rewrite Hw2. apply Hwants1.
  - rewrite trace_set_log, enable_world_trace. unfold u1.
    rewrite units_world_trace. by rewrite <- app_assoc.
  - apply Forall_app. split;
      [apply units_calls_no_retire|apply enable_calls_no_retire].
Qed.

Lemma amd64_s390x_clean :
  Forall (fun arch => clean arch = true) ["amd64"; "s390x"].
Proof. repeat constructor. Qed.

Lemma calm_host_quiet t : quiet_from calm_host t.
Proof. intros h c. reflexivity. Qed.

Lemma reconcile_idempotent_witness :
  let self := Retracer.__init__ ∅ in
  let w1 := snd (Retracer._setup_systemd_units calm_host self
                   ["amd64"; "s390x"] two_workers) in
  exists w2 d,
    Retracer._setup_systemd_units calm_host self ["amd64"; "s390x"] w1
    = (Ok tt, w2)
    /\ wants w2 = wants w1
    /\ trace w2 = trace w1 ++ d
    /\ Forall (fun c => is_retire_call c = false) d.
Proof.
  cbv zeta.
  assert (Hrun : Retracer._setup_systemd_units calm_host
                   (Retracer.__init__ ∅) ["amd64"; "s390x"] two_workers
                 = (Ok tt, snd (Retracer._setup_systemd_units calm_host
                      (Retracer.__init__ ∅) ["amd64"; "s390x"] two_workers)))
    by (vm_compute; reflexivity).
  destruct (reconcile_idempotent calm_host (Retracer.__init__ ∅)
              ["amd64"; "s390x"] two_workers _ amd64_s390x_clean
              two_workers_clean calm_host_retire_reliable Hrun
              (calm_host_quiet _))
    as (w2 & d & H1 & H2 & _ & H3 & H4).
  exists w2, d. repeat split; assumption.
Defined.

(** * Further properties of the code *)

(** ** The architecture list, [_get_architectures] (charm.py, lines 134 to 139) *)

Lemma all_chars_rev_app P s1 s2 :
  all_chars P (String.rev_app s1 s2) = all_chars P s1 && all_chars P s2.
Proof.
  revert s2. induction s1 as [|x s1 IH]; intros s2; [done|].
  cbn [String.rev_app all_chars]. rewrite IH. cbn [all_chars].
  by destruct (P x), (all_chars P s1), (all_chars P s2).
Qed.

Lemma rev_app_rev_app a b c :
  String.rev_app (String.rev_app a b) c = String.rev_app b (a +:+ c).
Proof.
  revert b c. induction a as [|x a IH]; intros b c.
  - by rewrite str_app_nil_l.
  - cbn [String.rev_app]. rewrite IH. cbn [String.rev_app].
    by rewrite str_app_cons.
Qed.

Lemma rev_rev a : String.rev (String.rev a) = a.
Proof.
  unfold String.rev. rewrite rev_app_rev_app. cbn [String.rev_app].
  apply str_app_nil_r.
Qed.

Lemma rev_app_not_empty x a b : String.rev_app a (String x b) <> "".
Proof.
  revert x b. induction a as [|y a IH]; intros x b; [done|].
  cbn [String.rev_app]. apply IH.
Qed.

(** The word being read, once completed. *)
Lemma is_word_rev x r :
  PyStr.is_space x = false ->
  all_chars (fun y => negb (PyStr.is_space y)) r = true ->
  is_word (String.rev (String x r)) = true.
Proof.
  intros Hx Hr. unfold String.rev. cbn [String.rev_app].
  pose proof (rev_app_not_empty x r "") as Hne.
  assert (Hall : all_chars (fun y => negb (PyStr.is_space y))
                   (String.rev_app r (String x "")) = true).
  { rewrite all_chars_rev_app, Hr. cbn [all_chars]. by rewrite Hx. }
  destruct (String.rev_app r (String x "")); [done|exact Hall].
Qed.

(** What [str.split()] yields: words only. *)
Lemma split_ws_go_words cur s :
  match cur with
  | None => True
  | Some r => r <> "" /\ all_chars (fun y => negb (PyStr.is_space y)) r = true
  end ->
  Forall (fun a => is_word a = true) (PyStr.split_ws_go cur s).
Proof.
  revert cur. induction s as [|x s IH]; intros cur Hcur.
  - cbn [PyStr.split_ws_go]. destruct cur as [[|y r]|]; cbn.
    + by destruct Hcur.
    + destruct Hcur as [_ Hr]. cbn [all_chars] in Hr.
      apply andb_true_iff in Hr as [Hy Hr]. apply negb_true_iff in Hy.
      constructor; [by apply is_word_rev|constructor].
    + constructor.
  - cbn [PyStr.split_ws_go]. destruct (PyStr.is_space x) eqn:Hx.
    + apply Forall_app. split; [|by apply IH].
      destruct cur as [[|y r]|]; cbn.
      * by destruct Hcur.
      * destruct Hcur as [_ Hr]. cbn [all_chars] in Hr.
        apply andb_true_iff in Hr as [Hy Hr]. apply negb_true_iff in Hy.
        constructor; [by apply is_word_rev|constructor].
      * constructor.
    + apply IH. split; [done|]. cbn [all_chars]. rewrite Hx.
      destruct cur as [r|]; [by destruct Hcur|done].
Qed.

(** [str.split()] yields nothing exactly on white space. *)
Lemma split_ws_go_nil cur s :
  PyStr.split_ws_go cur s = []
  <-> cur = None /\ all_chars PyStr.is_space s = true.
Proof.
  revert cur. induction s as [|x s IH]; intros cur.
  - cbn [PyStr.split_ws_go all_chars]. destruct cur; cbn; split; try done.
    by intros [? _].
  - cbn [PyStr.split_ws_go all_chars]. destruct (PyStr.is_space x).
    + destruct cur; cbn.
      * split; [done|by intros [? _]].
      * rewrite IH. split; [by intros [_ ?]|by intros [_ ?]].
    + rewrite IH. split; [by intros [? _]|by intros [_ ?]].
Qed.

(** Reading a text without white space extends the current word. *)
Lemma split_ws_go_app_word cur x a s :
  all_chars (fun y => negb (PyStr.is_space y)) (String x a) = true ->
  PyStr.split_ws_go cur (String x a +:+ s)
  = PyStr.split_ws_go
      (Some (String.rev_app (String x a) (default "" cur))) s.
Proof.
  revert cur x. induction a as [|y a IH]; intros cur x Ha.
  - cbn [all_chars] in Ha. apply andb_true_iff in Ha as [Hx _].
    apply negb_true_iff in Hx.
    rewrite str_app_cons, str_app_nil_l. cbn [PyStr.split_ws_go].
    by rewrite Hx.
  - cbn [all_chars] in Ha. apply andb_true_iff in Ha as [Hx Ha].
    apply negb_true_iff in Hx.
    rewrite str_app_cons. cbn [PyStr.split_ws_go]. rewrite Hx.
    rewrite IH by exact Ha. reflexivity.
Qed.

Lemma split_ws_go_word_end a :
  is_word a = true -> PyStr.split_ws_go None a = [a].
Proof.
  destruct a as [|x a]; [done|]. intros Ha.
  rewrite <- (str_app_nil_r (String x a)).
  rewrite split_ws_go_app_word by exact Ha.
  cbn [PyStr.split_ws_go default option_list fmap option_fmap option_map].
  change (String.rev_app (String x a) "") with (String.rev (String x a)).
  rewrite rev_rev, str_app_nil_r. reflexivity.
Qed.

Lemma split_ws_go_word_space a s :
  is_word a = true ->
  PyStr.split_ws_go None (a +:+ " " +:+ s) = a :: PyStr.split_ws_go None s.
Proof.
  destruct a as [|x a]; [done|]. intros Ha.
  rewrite split_ws_go_app_word by exact Ha.
  rewrite str_app_cons, str_app_nil_l.
  cbn [PyStr.split_ws_go default option_list fmap option_fmap option_map].
  change (PyStr.is_space " ") with true. cbn iota.
  change (String.rev_app (String x a) "") with (String.rev (String x a)).
  by rewrite rev_rev.
Qed.

(** Splitting what joining with single spaces built gives the words
    back. *)
Lemma split_ws_join ws :
  Forall (fun a => is_word a = true) ws ->
  PyStr.split_ws (join_sp ws) = ws.
Proof.
  unfold PyStr.split_ws. induction 1 as [|a ws Ha Hws IH]; [done|].
  cbn [join_sp]. destruct ws as [|b ws].
  - by apply split_ws_go_word_end.
  - rewrite split_ws_go_word_space by exact Ha. by rewrite IH.
Qed.

(** X1. The three outcomes of [_get_architectures], none of which changes
    the charm: without an [architectures] entry in the configuration the
    lookup raises [KeyError]; with a value that is empty or all white
    space it raises the [ValueError]; with any other value it returns a
    list that is not empty and whose elements are words: not empty, and
    free of white space. *)
Theorem get_architectures_outcomes c :
  match config (model c) !! "architectures" with
  | None =>
      LaunchpadRetracerCharm._get_architectures c
      = (Raise (KeyError "architectures"), c)
  | Some raw =>
      if all_chars PyStr.is_space raw
      then LaunchpadRetracerCharm._get_architectures c
           = (Raise (ValueError msg_empty_architectures), c)
      else exists architectures,
             LaunchpadRetracerCharm._get_architectures c
             = (Ok architectures, c)
             /\ architectures = PyStr.split_ws raw
             /\ architectures <> []
             /\ Forall (fun a => is_word a = true) architectures
  end.
Proof.
  unfold LaunchpadRetracerCharm._get_architectures.
  rewrite bind_unfold. unfold config_get.
  destruct (config (model c) !! "architectures") as [raw|]; [|done].
  pose proof (split_ws_go_nil None raw) as Hnil.
  pose proof (split_ws_go_words None raw I) as Hwords.
  fold (PyStr.split_ws raw) in Hnil, Hwords.
  destruct (all_chars PyStr.is_space raw).
  - destruct Hnil as [_ ->]; done.
  - destruct (PyStr.split_ws raw) as [|a l] eqn:Hs.
    + by destruct Hnil as [[_ ?] _].
    + by exists (a :: l).
Qed.

(** X2. A configuration value made of words separated by single spaces
    is read back as exactly these words, in their order. *)
Theorem get_architectures_join c ws :
  ws <> [] ->
  Forall (fun a => is_word a = true) ws ->
  config (model c) !! "architectures" = Some (join_sp ws) ->
  LaunchpadRetracerCharm._get_architectures c = (Ok ws, c).
Proof.
  intros Hne Hws Hc. unfold LaunchpadRetracerCharm._get_architectures.
  rewrite bind_unfold, (config_get_Some _ _ _ Hc), (split_ws_join ws Hws).
  by destruct ws.
Qed.

Lemma get_architectures_join_witness :
  let c := new_charm (lp_model "amd64 arm64 riscv64" ∅) fresh_world in
  LaunchpadRetracerCharm._get_architectures c
  = (Ok ["amd64"; "arm64"; "riscv64"], c).
Proof.
  cbv zeta.
  apply (get_architectures_join _ ["amd64"; "arm64"; "riscv64"]).
  - discriminate.
  - repeat constructor.
  - vm_compute. reflexivity.
Defined.

(** ** The instance, [Retracer.__init__] (retracer.py, lines 41 to 54) *)

(** X3. What [__init__] makes of the environment. A Juju proxy variable
    that is set and not empty is exported under [HTTP_PROXY] (or
    [HTTPS_PROXY]) and recorded in [proxies] under [http] (or [https]);
    one that is unset or empty changes nothing, so a value of
    [HTTP_PROXY] already in the environment stays. No other variable is
    changed, and [proxies] holds nothing else: at most the two protocols,
    each once. *)
Theorem init_env_proxies environ :
  let self := Retracer.__init__ environ in
  let http := environ !! "JUJU_CHARM_HTTP_PROXY" in
  let https := environ !! "JUJU_CHARM_HTTPS_PROXY" in
  (forall k, k <> "HTTP_PROXY" -> k <> "HTTPS_PROXY" ->
             env self !! k = environ !! k)
  /\ env self !! "HTTP_PROXY"
     = (if PyStr.truthy http then http else environ !! "HTTP_PROXY")
  /\ env self !! "HTTPS_PROXY"
     = (if PyStr.truthy https then https else environ !! "HTTPS_PROXY")
  /\ (forall proto p,
        (proto, p) ∈ proxies self
        <-> p <> ""
            /\ ((proto = "http" /\ http = Some p)
                \/ (proto = "https" /\ https = Some p)))
  /\ NoDup (fst <$> proxies self).
Proof.
  cbv zeta. rewrite init_proxies. unfold Retracer.__init__.
  destruct (environ !! "JUJU_CHARM_HTTP_PROXY") as [[|a p1]|];
    destruct (environ !! "JUJU_CHARM_HTTPS_PROXY") as [[|b p2]|];
    cbn [env PyStr.truthy default app].
  all: split; [intros k Hk1 Hk2; by rewrite ?lookup_insert_ne by done|].
  all: split;
    [repeat first [rewrite lookup_insert_eq
                  |rewrite lookup_insert_ne by done]; reflexivity|].
  all: split;
    [repeat first [rewrite lookup_insert_eq
                  |rewrite lookup_insert_ne by done]; reflexivity|].
  all: split;
    [|cbn [fmap list_fmap fst];
      repeat (apply NoDup_cons; split;
              [first [by intros []%elem_of_nil
                     |by intros [?|[]%elem_of_nil]%elem_of_cons]|]);
      apply NoDup_nil_2].
  all: intros proto p; split.
  all: try (intros H;
            repeat (apply elem_of_cons in H as [H|H];
                    [injection H as -> ->; split; [done|by eauto]|]);
            by apply elem_of_nil in H).
  all: intros [Hp [[-> H]|[-> H]]]; try discriminate H;
       injection H as <-; try done; repeat first [by left | right].
Qed.

(** ** The workload version, [get_workload_version] (retracer.py, lines 267 to 283) *)

Lemma lstrip_starts_clean s : starts_clean (PyStr.lstrip s) = true.
Proof.
  induction s as [|x s IH]; [done|]. cbn [PyStr.lstrip].
  destruct (PyStr.is_space x) eqn:Hx; [exact IH|].
  cbn [starts_clean]. by rewrite Hx.
Qed.

Lemma lstrip_clean s : starts_clean s = true -> PyStr.lstrip s = s.
Proof.
  destruct s as [|x s]; [done|]. cbn [starts_clean PyStr.lstrip].
  by intros ->%negb_true_iff.
Qed.

(** [lstrip] drops a prefix. *)
Lemma lstrip_suffix s : exists p, s = p +:+ PyStr.lstrip s.
Proof.
  induction s as [|x s (p & IH)]; [by exists ""|]. cbn [PyStr.lstrip].
  destruct (PyStr.is_space x).
  - exists (String x p). by rewrite str_app_cons, <- IH.
  - exists "". by rewrite str_app_nil_l.
Qed.

Lemma rev_app_app a b : String.rev_app a b = String.rev a +:+ b.
Proof.
  unfold String.rev. revert b. induction a as [|x a IH]; intros b.
  - by rewrite str_app_nil_l.
  - cbn [String.rev_app]. rewrite (IH (String x b)), (IH (String x "")).
    by rewrite str_app_assoc, str_app_cons, str_app_nil_l.
Qed.

Lemma rev_app_distr p u :
  String.rev (p +:+ u) = String.rev u +:+ String.rev p.
Proof.
  induction p as [|x p IH].
  - by rewrite str_app_nil_l, str_app_nil_r.
  - rewrite str_app_cons. unfold String.rev at 1 3. cbn [String.rev_app].
    by rewrite !rev_app_app, IH, str_app_assoc.
Qed.

Lemma starts_clean_app_l a b :
  a <> "" -> starts_clean (a +:+ b) = starts_clean a.
Proof. destruct a; [done|]. by rewrite str_app_cons. Qed.

(** Stripping the end keeps a clean start. *)
Lemma rstrip_starts_clean t :
  starts_clean t = true ->
  starts_clean (String.rev (PyStr.lstrip (String.rev t))) = true.
Proof.
  intros Ht. destruct (lstrip_suffix (String.rev t)) as (p & Hp).
  apply (f_equal String.rev) in Hp. rewrite rev_rev, rev_app_distr in Hp.
  destruct (String.rev (PyStr.lstrip (String.rev t))) as [|x u] eqn:E;
    [done|].
  rewrite Hp, starts_clean_app_l in Ht; done.
Qed.

(** Stripping twice is stripping once. *)
Lemma strip_idemp s : PyStr.strip (PyStr.strip s) = PyStr.strip s.
Proof.
  unfold PyStr.strip.
  rewrite (lstrip_clean (String.rev (PyStr.lstrip (String.rev _)))).
  2:{ apply rstrip_starts_clean, lstrip_starts_clean. }
  rewrite rev_rev.
  apply lstrip_clean, rstrip_starts_clean, lstrip_starts_clean.
Qed.

(** X4. The version query never raises [CalledProcessError]: when the
    process fails with it, the answer is ["unknown"] and a warning is
    logged; when the process runs, the answer is its output stripped;
    any other exception is passed on, without a log entry. An answer
    carries no white space at either end. Whatever the outcome, the one
    call made is the query, and nothing on the host changes but the
    log. *)
Theorem get_workload_version_spec host self w r w' :
  Retracer.get_workload_version host self w = (r, w') ->
  trace w' = trace w ++ [Run dpkg_query]
  /\ files w' = files w /\ dirs w' = dirs w /\ wants w' = wants w
  /\ active w' = active w /\ packages w' = packages w
  /\ match r with
     | Ok v =>
         PyStr.strip v = v
         /\ match fault host (trace w) (Run dpkg_query) with
            | None =>
                v = PyStr.strip (proc_stdout host dpkg_query)
                /\ log w'
                   = log w ++ [mkLog DEBUG
                                 "Current 'apport-retrace' version: %s" [v]]
            | Some e =>
                is_CalledProcessError e = true /\ v = "unknown"
                /\ exists a,
                     log w'
                     = log w ++ [mkLog WARNING
                          "Failed to get 'apport-retrace' version: %s" a]
            end
     | Raise e =>
         fault host (trace w) (Run dpkg_query) = Some e
         /\ is_CalledProcessError e = false /\ log w' = log w
     end.
Proof.
  unfold Retracer.get_workload_version, Sys.run.
  rewrite try_except_unfold, bind_unfold.
  pose proof (call_with_cases host (Run dpkg_query)
                (fun w0 => (Ok (proc_stdout host dpkg_query), id w0)) w)
    as Hrun.
  unfold dpkg_query in Hrun |- *.
  destruct Hrun as [[Hf ->]|(e & Hf & ->)]; rewrite Hf.
  - mstep. intros [= <- <-]. cbn. repeat (split; [done|]).
    split; [apply strip_idemp|done].
  - destruct (is_CalledProcessError e) eqn:He.
    + mstep. intros [= <- <-]. cbn. repeat (split; [done|]).
      by eexists.
    + intros [= <- <-]. cbn. by repeat (split; [done|]).
Qed.

Lemma get_workload_version_spec_witness :
  let run := Retracer.get_workload_version calm_host (Retracer.__init__ ∅)
               fresh_world in
  fst run = Ok "2.33.1-0ubuntu2"
  /\ trace (snd run) = [Run dpkg_query]
  /\ files (snd run) = ∅.
Proof.
  cbv zeta.
  destruct (get_workload_version_spec calm_host (Retracer.__init__ ∅)
              fresh_world _ _ (surjective_pairing _))
    as (Ht & Hf & _ & _ & _ & _ & _).
  split; [vm_compute; reflexivity|]. split; [exact Ht|exact Hf].
Defined.

(** ** The checkout and the crash database (retracer.py, lines 219 to 243 and 285 to 309) *)

Lemma path_exists_set_log p f w :
  Sys.path_exists p (set_log f w) = Sys.path_exists p w.
Proof. reflexivity. Qed.

Lemma clone_repository_once_inv host self url directory w r w' :
  Retracer._clone_repository host self url directory w = (r, w') ->
  (wants w' = wants w /\ active w' = active w /\ packages w' = packages w)
  /\ (if Sys.path_exists directory w
      then r = Ok tt /\ trace w' = trace w /\ files w' = files w
           /\ dirs w' = dirs w
      else trace w' = trace w ++ [Run (git_clone url directory)]
           /\ match r with
              | Ok _ =>
                  fault host (trace w) (Run (git_clone url directory)) = None
                  /\ Sys.path_exists directory w' = true
              | Raise e =>
                  fault host (trace w) (Run (git_clone url directory))
                  = Some e
              end)
  /\ (r = Ok tt ->
      forall host',
        exists w'',
          Retracer._clone_repository host' self url directory w'
          = (Ok tt, w'')
          /\ trace w'' = trace w' /\ files w'' = files w'
          /\ dirs w'' = dirs w').
Proof.
  assert (Hskip : forall h w0,
            Sys.path_exists directory w0 = true ->
            exists w1, Retracer._clone_repository h self url directory w0
                       = (Ok tt, w1)
                       /\ trace w1 = trace w0 /\ files w1 = files w0
                       /\ dirs w1 = dirs w0).
  { intros h w0 H0. unfold Retracer._clone_repository. mstep.
    rewrite H0. mstep. by eexists. }
  unfold Retracer._clone_repository at 1. mstep.
  destruct (Sys.path_exists directory w) eqn:Hex.
  - mstep. intros [= <- <-]. split; [done|]. split; [done|].
    intros _ host'. apply Hskip. by rewrite path_exists_set_log.
  - cbv zeta. mstep. fold (git_clone url directory).
    match goal with |- context [Sys.run_leaving host ?a ?l ?eff w] =>
      destruct (run_leaving_cases host a l eff w)
        as [[Hf ->]|(e & Hf & ->)] end.
    + mstep. intros [= <- <-].
      match goal with |- context [Sys.path_exists directory ?w1] =>
        assert (Hnow : Sys.path_exists directory w1 = true) end.
      { unfold Sys.path_exists.
        cbn [dirs set_log set_dirs set_trace Sys.git_leaves].
        rewrite (bool_decide_eq_true_2 (directory ∈ _)) by set_solver.
        apply orb_true_r. }
      split; [done|]. split; [done|]. intros _ host'. by apply Hskip.
    + destruct (is_CalledProcessError e); mstep; intros [= <- <-];
        (split; [done|]); (split; [|done]); by split.
Qed.

(** X5. The clone is made at most once. When the directory exists the
    method makes no call, changes no file and no directory, and returns;
    otherwise it runs the one [git clone] command, whose failure is
    re-raised whatever its class and whose success leaves the directory
    present. After any normal return a further invocation, on any host,
    returns without a call and without a change: an existing checkout is
    never cloned over. No service and no package is touched. *)
Theorem clone_repository_once host self url directory w r w' :
  Retracer._clone_repository host self url directory w = (r, w') ->
  (wants w' = wants w /\ active w' = active w /\ packages w' = packages w)
  /\ (if Sys.path_exists directory w
      then r = Ok tt /\ trace w' = trace w /\ files w' = files w
           /\ dirs w' = dirs w
      else trace w' = trace w ++ [Run (git_clone url directory)]
           /\ match r with
              | Ok _ =>
                  fault host (trace w) (Run (git_clone url directory)) = None
                  /\ Sys.path_exists directory w' = true
              | Raise e =>
                  fault host (trace w) (Run (git_clone url directory))
                  = Some e
              end)
  /\ (r = Ok tt ->
      forall host',
        exists w'',
          Retracer._clone_repository host' self url directory w'
          = (Ok tt, w'')
          /\ trace w'' = trace w' /\ files w'' = files w'
          /\ dirs w'' = dirs w').
Proof. exact (clone_repository_once_inv host self url directory w r w'). Qed.

Lemma clone_repository_once_witness :
  let run := Retracer._clone_repository busy_host (Retracer.__init__ ∅)
               RETRACER_CONFIG_URL RETRACER_CONFIG_LOCATION fresh_world in
  fst run = Ok tt
  /\ Sys.path_exists RETRACER_CONFIG_LOCATION (snd run) = true
  /\ exists w'',
       Retracer._clone_repository busy_host (Retracer.__init__ ∅)
         RETRACER_CONFIG_URL RETRACER_CONFIG_LOCATION (snd run)
       = (Ok tt, w'')
       /\ trace w'' = trace (snd run) /\ files w'' = files (snd run)
       /\ dirs w'' = dirs (snd run).
Proof.
  cbv zeta.
  assert (Hrun : Retracer._clone_repository busy_host (Retracer.__init__ ∅)
                   RETRACER_CONFIG_URL RETRACER_CONFIG_LOCATION fresh_world
                 = (Ok tt, snd (Retracer._clone_repository busy_host
                      (Retracer.__init__ ∅) RETRACER_CONFIG_URL
                      RETRACER_CONFIG_LOCATION fresh_world)))
    by (vm_compute; reflexivity).
  destruct (clone_repository_once _ _ _ _ _ _ _ Hrun) as (_ & H2 & H3).
  split; [by rewrite Hrun|]. split.
  - change (Sys.path_exists RETRACER_CONFIG_LOCATION fresh_world)
      with false in H2. apply H2.
  - apply (H3 eq_refl busy_host).
Defined.

Lemma join_chunks_cons c cs : join_chunks (c :: cs) = c +:+ join_chunks cs.
Proof. reflexivity. Qed.

Lemma join_chunks_take k cs :
  join_chunks cs = join_chunks (take k cs) +:+ join_chunks (drop k cs).
Proof.
  revert k. induction cs as [|c cs IH]; intros [|k]; try done.
  cbn [take drop]. by rewrite !join_chunks_cons, (IH k), str_app_assoc.
Qed.

Lemma file_eta f : mkFile (content f) (mode f) (owner f) (group f) = f.
Proof. by destruct f. Qed.

(** The loop over the chunks, on any host: the chunks written are a
    prefix of those served. *)
Lemma stream_loop_run host chunks w f0 r w' :
  files w !! crashdb_path = Some f0 ->
  for_each chunks (fun chunk =>
    Sys.call host (IterContent crashdb_url) id;;
    Sys.file_write host crashdb_path chunk) w = (r, w') ->
  exists k d,
    k <= length chunks
    /\ files w'
       = <[crashdb_path :=
             mkFile (content f0 +:+ join_chunks (take k chunks)) (mode f0)
                    (owner f0) (group f0)]> (files w)
    /\ only_files w w'
    /\ trace w' = trace w ++ d
    /\ match r with
       | Ok _ => k = length chunks /\ d = stream_calls chunks
       | Raise e =>
           exists d0 c, d = d0 ++ [c] /\ fault host (trace w ++ d0) c = Some e
       end.
Proof.
  revert w f0. induction chunks as [|chunk rest IH]; intros w f0 Hf0;
    cbn [for_each].
  - intros [= <- <-]. exists 0, []. split; [done|]. split.
    { cbn [take join_chunks fold_right]. rewrite str_app_nil_r, file_eta.
      by rewrite insert_id. }
    split; [by repeat split|]. split; [by rewrite app_nil_r|done].
  - rewrite bind_eq, bind_unfold.
    destruct (call_cases host (IterContent crashdb_url) id w)
      as [[Hf1 ->]|(e & Hf1 & ->)].
    2:{ intros [= <- <-]. exists 0, [IterContent crashdb_url].
        split; [cbn [length]; lia|]. split.
        { cbn [take join_chunks fold_right files set_trace].
          rewrite str_app_nil_r, file_eta. by rewrite insert_id. }
        split; [by repeat split|]. split; [done|].
        exists [], (IterContent crashdb_url). by rewrite app_nil_r. }
    unfold id at 1. unfold Sys.file_write.
    match goal with |- context [Sys.call_with host ?c ?run ?w1] =>
      destruct (call_with_cases host c run w1)
        as [[Hf2 ->]|(e & Hf2 & ->)] end;
      cbn [trace files set_trace set_files] in Hf2 |- *.
    2:{ intros [= <- <-].
        exists 0, [IterContent crashdb_url; OsWrite crashdb_path chunk].
        split; [cbn [length]; lia|]. split.
        { cbn [take join_chunks fold_right files set_trace].
          rewrite str_app_nil_r, file_eta. by rewrite insert_id. }
        split; [by repeat split|].
        split; [cbn [trace set_trace]; by rewrite <- app_assoc|].
        exists [IterContent crashdb_url], (OsWrite crashdb_path chunk).
        by split. }
    rewrite Hf0. intros H.
    apply (IH _ (mkFile (content f0 +:+ chunk) (mode f0) (owner f0)
                   (group f0))) in H
      as (k & d & Hk & Hfiles & Hsame & Ht & Hr).
    2:{ cbn [files set_files set_trace]. apply lookup_insert_eq. }
    cbn [files dirs wants active packages umask log trace set_files
         set_trace content mode owner group] in Hfiles, Ht, Hr.
    exists (S k), ([IterContent crashdb_url; OsWrite crashdb_path chunk] ++ d).
    split; [cbn [length]; lia|]. split.
    { rewrite Hfiles, insert_insert_eq. cbn [take].
      by rewrite join_chunks_cons, str_app_assoc. }
    split; [exact Hsame|].
    split; [rewrite Ht; by rewrite <- !app_assoc|].
    destruct r as [[]|e].
    + destruct Hr as [-> ->]. done.
    + destruct Hr as (d0 & c & -> & Hc).
      exists ([IterContent crashdb_url; OsWrite crashdb_path chunk] ++ d0), c.
      split; [apply app_assoc|].
      rewrite <- Hc. f_equal. by rewrite <- !app_assoc.
Qed.

(** The opening of the crash database where nothing is at its path. *)
Lemma open_crashdb_cases host w :
  files w !! crashdb_path = None ->
  (fault host (trace w) open_crashdb = None
   /\ Sys.open_wb host crashdb_path w
      = (Ok crashdb_path,
         set_files
           <[crashdb_path := mkFile "" (N.ldiff 438 (umask w)) "root" "root"]>
           (called open_crashdb w)))
  \/ (exists e, fault host (trace w) open_crashdb = Some e
      /\ Sys.open_wb host crashdb_path w = (Raise e, called open_crashdb w)).
Proof.
  intros Hnone. unfold Sys.open_wb, Sys.os_open. fold open_crashdb.
  match goal with |- context [Sys.call_with host ?c ?run w] =>
    destruct (call_with_cases host c run w) as [[Hf ->]|(e & Hf & ->)] end.
  - left. split; [done|]. cbn [files set_trace].
    rewrite Hnone.
    change (N.testbit (N.lor (N.lor O_CREAT O_WRONLY) O_TRUNC) 6) with true.
    cbv iota. unfold Sys.create_or_truncate. cbn [files set_trace umask].
    by rewrite Hnone.
  - right. by exists e.
Qed.

(** The handler of lines 301 to 309: one error entry, and the exception
    again. *)
Lemma download_handler e w0 :
  exists f a,
    ((if is_RequestException e
      then Sys.logger ERROR "Could not download the crashdb: %s" [exn_str e]
      else if is_OSError e
      then Sys.logger ERROR "Could not write the crashdb to %s: %s"
             [SRVDIR; exn_str e]
      else Sys.logger ERROR "Error in download_crashdb" []);;
     @raise World unit e) w0
    = (Raise e, set_log (fun l => l ++ [mkLog ERROR f a]) w0).
Proof.
  destruct (is_RequestException e); [|destruct (is_OSError e)];
    by eexists _, _.
Qed.

Lemma path_exists_file p f w :
  files w !! p = Some f -> Sys.path_exists p w = true.
Proof.
  intros H. unfold Sys.path_exists. rewrite H.
  rewrite bool_decide_eq_true_2; [done|]. by eexists.
Qed.

Lemma path_exists_false p w :
  Sys.path_exists p w = false -> files w !! p = None /\ p ∉ dirs w.
Proof.
  unfold Sys.path_exists. intros [H1 H2]%orb_false_iff.
  apply bool_decide_eq_false in H1, H2. split; [|done].
  destruct (files w !! p); [|done]. destruct H1. by eexists.
Qed.

(** The body of the [try] of lines 291 to 300, where nothing is at the
    path. *)
Lemma download_body_run host w r w' :
  files w !! crashdb_path = None ->
  (Sys.call host (HttpGet crashdb_url) id;;
   f ← Sys.open_wb host crashdb_path;
   try_finally
     (for_each (iter_content host crashdb_url) (fun chunk =>
        Sys.call host (IterContent crashdb_url) id;;
        Sys.file_write host f chunk);;
      Sys.call host (IterContent crashdb_url) id)
     (Sys.os_close host f);;
   Sys.chown host crashdb_path "ubuntu" "ubuntu") w = (r, w') ->
  let chunks := iter_content host crashdb_url in
  (forall p, p <> crashdb_path -> files w' !! p = files w !! p)
  /\ only_files w w'
  /\ match r with
     | Ok _ =>
         trace w' = trace w ++ download_calls chunks
         /\ files w' !! crashdb_path
            = Some (mkFile (join_chunks chunks) (N.ldiff 438 (umask w))
                      "ubuntu" "ubuntu")
     | Raise e =>
         (exists d0 c d1,
            trace w' = trace w ++ d0 ++ c :: d1
            /\ fault host (trace w ++ d0) c = Some e)
         /\ ((files w' = files w
              /\ exists n, 1 <= n <= 2
                   /\ trace w' = trace w ++ take n (download_calls chunks))
             \/ (exists k d,
                   k <= length chunks
                   /\ files w' !! crashdb_path
                      = Some (mkFile (join_chunks (take k chunks))
                                (N.ldiff 438 (umask w)) "root" "root")
                   /\ trace w'
                      = trace w ++ [HttpGet crashdb_url; open_crashdb] ++ d))
     end.
Proof.
  intros Hnone. cbv zeta. rewrite bind_unfold.
  destruct (call_cases host (HttpGet crashdb_url) id w)
    as [[Hf1 ->]|(e & Hf1 & ->)].
  2:{ intros [= <- <-]. split; [done|]. split; [by repeat split|]. split.
      - exists [], (HttpGet crashdb_url), []. by rewrite app_nil_r.
      - left. split; [done|]. exists 1. split; [lia|done]. }
  rewrite bind_unfold.
  change (id (set_trace (fun t => t ++ [HttpGet crashdb_url]) w))
    with (called (HttpGet crashdb_url) w).
  destruct (open_crashdb_cases host (called (HttpGet crashdb_url) w) Hnone)
    as [[Hf2 ->]|(e & Hf2 & ->)]; cbn [trace called set_trace] in Hf2.
  2:{ intros [= <- <-]. split; [done|]. split; [by repeat split|]. split.
      - exists [HttpGet crashdb_url], open_crashdb, []. split; [|done].
        cbn [trace called set_trace]. by rewrite <- app_assoc.
      - left. split; [done|]. exists 2. split; [lia|].
        cbn [trace called set_trace]. by rewrite <- app_assoc. }
  rewrite bind_unfold. unfold try_finally, Sys.os_close.
  rewrite bind_unfold.
  set (w2 := set_files _ (called open_crashdb (called _ w))).
  assert (Hw2 : files w2 !! crashdb_path
                = Some (mkFile "" (N.ldiff 438 (umask w)) "root" "root")).
  { unfold w2. cbn [files set_files]. apply lookup_insert_eq. }
  assert (Ht2 : trace w2 = trace w ++ [HttpGet crashdb_url; open_crashdb]).
  { unfold w2. cbn [trace set_files called set_trace].
    by rewrite <- app_assoc. }
  assert (Hfs2 : files w2
                 = <[crashdb_path := mkFile "" (N.ldiff 438 (umask w))
                                       "root" "root"]> (files w))
    by reflexivity.
  assert (Hs2 : only_files w w2) by (by repeat split).
  clearbody w2.
  destruct (for_each (iter_content host crashdb_url) _ w2)
    as [r3 w3] eqn:Hloop.
  apply (stream_loop_run host _ _ _ _ _ Hw2) in Hloop
    as (k & d & Hk & Hfs3 & Hs3 & Ht3 & Hr3).
  cbn [content mode owner group] in Hfs3. rewrite str_app_nil_l in Hfs3.
  rewrite Hfs2, insert_insert_eq in Hfs3.
  assert (Hoth : forall w4, files w4 = files w3 ->
            forall p, p <> crashdb_path -> files w4 !! p = files w !! p).
  { intros w4 -> p Hp. by rewrite Hfs3, lookup_insert_ne. }
  assert (Hsame : forall w4, only_files w3 w4 -> only_files w w4).
  { intros w4 (?&?&?&?&?&?). destruct Hs3 as (?&?&?&?&?&?).
    destruct Hs2 as (?&?&?&?&?&?). repeat split; congruence. }
  assert (Hroot : forall w4 dd,
            files w4 = files w3 -> trace w4 = trace w3 ++ dd ->
            exists k0 d0,
              k0 <= length (iter_content host crashdb_url)
              /\ files w4 !! crashdb_path
                 = Some (mkFile (join_chunks (take k0
                                   (iter_content host crashdb_url)))
                           (N.ldiff 438 (umask w)) "root" "root")
              /\ trace w4
                 = trace w ++ [HttpGet crashdb_url; open_crashdb] ++ d0).
  { intros w4 dd Hf4 Ht4. exists k, (d ++ dd). split; [done|]. split.
    - by rewrite Hf4, Hfs3, lookup_insert_eq.
    - rewrite Ht4, Ht3, Ht2. by rewrite <- !app_assoc. }
  destruct r3 as [[]|e].
  2:{ (* the loop raised: the file is closed all the same *)
      destruct Hr3 as (d0 & c & -> & Hc).
      destruct (call_cases host (OsClose crashdb_path) id w3)
        as [[Hf4 ->]|(e4 & Hf4 & ->)]; intros [= <- <-].
      - split; [by apply Hoth|]. split; [by apply Hsame|]. split.
        + exists ([HttpGet crashdb_url; open_crashdb] ++ d0), c,
            [OsClose crashdb_path].
          split.
          * cbn [trace id set_trace]. rewrite Ht3, Ht2.
            by rewrite <- !app_assoc.
          * rewrite <- Hc, Ht2. f_equal. by rewrite <- !app_assoc.
        + right. by apply (Hroot _ [OsClose crashdb_path]).
      - split; [by apply Hoth|]. split; [by apply Hsame|]. split.
        + exists ([HttpGet crashdb_url; open_crashdb] ++ d0 ++ [c]),
            (OsClose crashdb_path), [].
          split.
          * cbn [trace set_trace]. rewrite Ht3, Ht2.
            by rewrite <- !app_assoc.
          * rewrite <- Hf4, Ht3, Ht2. f_equal. by rewrite <- !app_assoc.
        + right. by apply (Hroot _ [OsClose crashdb_path]). }
  destruct Hr3 as [-> ->]. rewrite firstn_all in Hfs3.
  destruct (call_cases host (IterContent crashdb_url) id w3)
    as [[Hf4 ->]|(e4 & Hf4 & ->)].
  2:{ destruct (call_cases host (OsClose crashdb_path) id
                  (set_trace (fun t => t ++ [IterContent crashdb_url]) w3))
        as [[Hf5 ->]|(e5 & Hf5 & ->)]; intros [= <- <-].
      - split; [by apply Hoth|]. split; [by apply Hsame|]. split.
        + exists ([HttpGet crashdb_url; open_crashdb]
                  ++ stream_calls (iter_content host crashdb_url)),
            (IterContent crashdb_url), [OsClose crashdb_path].
          split.
          * cbn [trace id set_trace]. rewrite Ht3, Ht2.
            by rewrite <- !app_assoc.
          * rewrite <- Hf4, Ht3, Ht2. f_equal. by rewrite <- !app_assoc.
        + right.
          apply (Hroot _ [IterContent crashdb_url; OsClose crashdb_path]);
            [done|].
          cbn [trace id set_trace]. by rewrite <- app_assoc.
      - split; [by apply Hoth|]. split; [by apply Hsame|]. split.
        + exists ([HttpGet crashdb_url; open_crashdb]
                  ++ stream_calls (iter_content host crashdb_url)
                  ++ [IterContent crashdb_url]),
            (OsClose crashdb_path), [].
          split.
          * cbn [trace set_trace]. rewrite Ht3, Ht2.
            by rewrite <- !app_assoc.
          * rewrite <- Hf5. cbn [trace set_trace]. rewrite Ht3, Ht2.
            f_equal. by rewrite <- !app_assoc.
        + right.
          apply (Hroot _ [IterContent crashdb_url; OsClose crashdb_path]);
            [done|].
          cbn [trace set_trace]. by rewrite <- app_assoc. }
  change (id ?x) with x.
  destruct (call_cases host (OsClose crashdb_path) id
              (set_trace (fun t => t ++ [IterContent crashdb_url]) w3))
    as [[Hf5 ->]|(e5 & Hf5 & ->)].
  2:{ intros [= <- <-].
      split; [by apply Hoth|]. split; [by apply Hsame|]. split.
      - exists ([HttpGet crashdb_url; open_crashdb]
                ++ stream_calls (iter_content host crashdb_url)
                ++ [IterContent crashdb_url]),
          (OsClose crashdb_path), [].
        split.
        + cbn [trace set_trace]. rewrite Ht3, Ht2.
          by rewrite <- !app_assoc.
        + rewrite <- Hf5. cbn [trace set_trace]. rewrite Ht3, Ht2.
          f_equal. by rewrite <- !app_assoc.
      - right.
          apply (Hroot _ [IterContent crashdb_url; OsClose crashdb_path]);
          [done|].
        cbn [trace set_trace]. by rewrite <- app_assoc. }
  change (id ?x) with x. unfold Sys.chown.
  match goal with |- context [Sys.call_with host ?c ?run ?w1] =>
    destruct (call_with_cases host c run w1)
      as [[Hf6 ->]|(e6 & Hf6 & ->)] end;
    cbn [trace files set_trace] in Hf6 |- *.
  2:{ intros [= <- <-].
      split; [by apply Hoth|]. split; [by apply Hsame|]. split.
      - exists ([HttpGet crashdb_url; open_crashdb]
                ++ stream_calls (iter_content host crashdb_url)
                ++ [IterContent crashdb_url; OsClose crashdb_path]),
          (Chown crashdb_path "ubuntu" "ubuntu"), [].
        split.
        + cbn [trace set_trace]. rewrite Ht3, Ht2.
          by rewrite <- !app_assoc.
        + rewrite <- Hf6, Ht3, Ht2. f_equal. by rewrite <- !app_assoc.
      - right.
          apply (Hroot _ [IterContent crashdb_url; OsClose crashdb_path;
                        Chown crashdb_path "ubuntu" "ubuntu"]); [done|].
        cbn [trace set_trace]. by rewrite <- !app_assoc. }
  rewrite Hfs3, lookup_insert_eq. intros [= <- <-].
  cbn [files set_files set_trace content mode].
  split.
  { intros p Hp. by rewrite Hfs3, !lookup_insert_ne. }
  split; [by apply Hsame|]. split.
  - cbn [trace set_files set_trace]. rewrite Ht3, Ht2. unfold download_calls.
    by rewrite <- !app_assoc.
  - by rewrite lookup_insert_eq.
Qed.

Lemma download_crashdb_spec_inv host self w r w' :
  Retracer._download_crashdb host self w = (r, w') ->
  let chunks := iter_content host crashdb_url in
  (forall p, p <> crashdb_path -> files w' !! p = files w !! p)
  /\ dirs w' = dirs w /\ wants w' = wants w /\ active w' = active w
  /\ packages w' = packages w
  /\ if Sys.path_exists crashdb_path w
     then r = Ok tt /\ trace w' = trace w /\ files w' = files w
     else match r with
          | Ok _ =>
              trace w' = trace w ++ download_calls chunks
              /\ files w' !! crashdb_path
                 = Some (mkFile (join_chunks chunks) (N.ldiff 438 (umask w))
                           "ubuntu" "ubuntu")
          | Raise e =>
              (exists f a, log w' = log w ++ [mkLog ERROR f a])
              /\ (exists d0 c d1,
                    trace w' = trace w ++ d0 ++ c :: d1
                    /\ fault host (trace w ++ d0) c = Some e)
              /\ ((files w' = files w
                   /\ exists n, 1 <= n <= 2
                        /\ trace w'
                           = trace w ++ take n (download_calls chunks))
                  \/ (exists written rest d,
                        join_chunks chunks = written +:+ rest
                        /\ files w' !! crashdb_path
                           = Some (mkFile written (N.ldiff 438 (umask w))
                                     "root" "root")
                        /\ trace w'
                           = trace w
                             ++ [HttpGet crashdb_url; open_crashdb] ++ d
                        /\ Sys.path_exists crashdb_path w' = true))
          end.
Proof.
  cbv zeta. unfold Retracer._download_crashdb.
  fold crashdb_path. fold crashdb_url.
  rewrite bind_unfold. unfold gets. cbv beta iota.
  destruct (Sys.path_exists crashdb_path w) eqn:Hex.
  { mstep. by intros [= <- <-]. }
  apply path_exists_false in Hex as [Hnone _].
  rewrite try_except_unfold.
  match goal with |- context [match ?b w with _ => _ end] =>
    destruct (b w) as [r1 w1] eqn:Hbody end.
  apply (download_body_run host w r1 w1 Hnone) in Hbody
    as (Hoth & (Hd & Hw & Ha & Hp & Hu & Hl) & Hr).
  destruct r1 as [[]|e].
  { intros [= <- <-]. by repeat (split; [done|]). }
  cbn [is_Exception].
  lazymatch goal with |- _ ?w0 = _ -> _ =>
    destruct (download_handler e w0) as (f & a & ->) end.
  intros [= <- <-]. cbn [files dirs wants active packages log trace set_log].
  repeat (split; [done|]). rewrite Hl. split; [by eexists _, _|].
  destruct Hr as (Hlast & Hcase). split; [exact Hlast|].
  destruct Hcase as [Hc|(k & d & Hk & Hfile & Ht)]; [by left|].
  right.
  exists (join_chunks (take k (iter_content host crashdb_url))),
    (join_chunks (drop k (iter_content host crashdb_url))), d.
  split; [apply join_chunks_take|]. repeat (split; [done|]).
  by apply (path_exists_file _ _ _ Hfile).
Qed.

(** X6. The crash database is downloaded only when nothing exists at its
    path; an existing one is kept as it is, without any request. A
    download that succeeds has opened the file, written the chunks of
    the body as they came, closed it and changed its owner: the file
    holds the body, belongs to [ubuntu:ubuntu] and has mode 0666 less
    the umask. One that raises has logged one error and re-raises what
    the host raised at one of its calls, whatever its class. When the
    request or the opening failed, no file is changed. When anything
    failed after the opening, the file is there: it holds the
    beginning of the body, all of it or less, and belongs to [root]; as
    it exists, later runs skip the download and leave it so. No other
    file is touched, and no directory, service or package. *)
Theorem download_crashdb_spec host self w r w' :
  Retracer._download_crashdb host self w = (r, w') ->
  let chunks := iter_content host crashdb_url in
  (forall p, p <> crashdb_path -> files w' !! p = files w !! p)
  /\ dirs w' = dirs w /\ wants w' = wants w /\ active w' = active w
  /\ packages w' = packages w
  /\ if Sys.path_exists crashdb_path w
     then r = Ok tt /\ trace w' = trace w /\ files w' = files w
     else match r with
          | Ok _ =>
              trace w' = trace w ++ download_calls chunks
              /\ files w' !! crashdb_path
                 = Some (mkFile (join_chunks chunks) (N.ldiff 438 (umask w))
                           "ubuntu" "ubuntu")
          | Raise e =>
              (exists f a, log w' = log w ++ [mkLog ERROR f a])
              /\ (exists d0 c d1,
                    trace w' = trace w ++ d0 ++ c :: d1
                    /\ fault host (trace w ++ d0) c = Some e)
              /\ ((files w' = files w
                   /\ exists n, 1 <= n <= 2
                        /\ trace w'
                           = trace w ++ take n (download_calls chunks))
                  \/ (exists written rest d,
                        join_chunks chunks = written +:+ rest
                        /\ files w' !! crashdb_path
                           = Some (mkFile written (N.ldiff 438 (umask w))
                                     "root" "root")
                        /\ trace w'
                           = trace w
                             ++ [HttpGet crashdb_url; open_crashdb] ++ d
                        /\ Sys.path_exists crashdb_path w' = true))
          end.
Proof. exact (download_crashdb_spec_inv host self w r w'). Qed.

(** The body breaks off after the first chunk: the file stays with that
    chunk, owned by [root], and the next run, on a host where nothing
    fails, skips the download. *)
Lemma download_crashdb_spec_witness :
  let run := Retracer._download_crashdb broken_download (Retracer.__init__ ∅)
               fresh_world in
  fst run = Raise RequestException
  /\ (exists written rest,
        join_chunks (iter_content broken_download crashdb_url)
        = written +:+ rest
        /\ files (snd run) !! crashdb_path
           = Some (mkFile written 420 "root" "root"))
  /\ exists w'',
       Retracer._download_crashdb calm_host (Retracer.__init__ ∅) (snd run)
       = (Ok tt, w'')
       /\ files w'' = files (snd run).
Proof.
  cbv zeta.
  assert (Hrun : Retracer._download_crashdb broken_download
                   (Retracer.__init__ ∅) fresh_world
                 = (Raise RequestException,
                    snd (Retracer._download_crashdb broken_download
                           (Retracer.__init__ ∅) fresh_world)))
    by (vm_compute; reflexivity).
  assert (E : files (snd (Retracer._download_crashdb broken_download
                            (Retracer.__init__ ∅) fresh_world))
              !! crashdb_path
              = Some (mkFile "SQLite format 3" 420 "root" "root"))
    by (vm_compute; reflexivity).
  destruct (download_crashdb_spec _ _ _ _ _ Hrun)
    as (_ & _ & _ & _ & _ & H).
  change (Sys.path_exists crashdb_path fresh_world) with false in H.
  destruct H
    as (_ & _ & [(Hsame & _)|(wr & rest & d & Hpre & Hfile & _ & Hex)]).
  { rewrite Hsame in E. discriminate E. }
  split; [by rewrite Hrun|].
  split; [exists wr, rest; split; [exact Hpre|exact Hfile]|].
  destruct (Retracer._download_crashdb calm_host (Retracer.__init__ ∅)
              (snd (Retracer._download_crashdb broken_download
                      (Retracer.__init__ ∅) fresh_world)))
    as [r2 w2] eqn:H2.
  destruct (download_crashdb_spec _ _ _ _ _ H2) as (_ & _ & _ & _ & _ & H).
  rewrite Hex in H. destruct H as (-> & _ & Hf).
  exists w2. split; [reflexivity|exact Hf].
Defined.

(** ** Packages (retracer.py, lines 96 to 114) *)

Lemma install_packages_parts host w :
  Retracer._install_packages host w
  = (try_except
       (Sys.apt_update host;;
        Sys.logger DEBUG "Apt index refreshed." [])
       is_CalledProcessError
       (fun e =>
          Sys.logger ERROR "Failed to update package cache: %s" [exn_str e];;
          raise e);;
     add_packages host PACKAGES) w.
Proof. reflexivity. Qed.

(** One turn of the loop. *)
Lemma add_packages_cons host p ps w :
  add_packages host (p :: ps) w
  = match Sys.apt_add_package host p w with
    | (Ok _, w1) =>
        add_packages host ps
          (set_log (fun l => l ++ [mkLog DEBUG "Package %s installed" [p]])
             w1)
    | (Raise e, w1) =>
        (Raise e,
         if is_PackageNotFoundError e
         then set_log (fun l => l ++ [mkLog ERROR
                "Failed to find package %s in package cache" [p]]) w1
         else if is_PackageError e
         then set_log (fun l => l ++ [mkLog ERROR
                "Failed to install %s: %s" [p; exn_str e]]) w1
         else w1)
    end.
Proof.
  unfold add_packages at 1. cbn [for_each]. fold (add_packages host ps).
  rewrite bind_eq, try_except_unfold, bind_unfold.
  destruct (Sys.apt_add_package host p w)
    as [[[]|e] w1]; [reflexivity|].
  destruct (is_PackageNotFoundError e) eqn:H1; [reflexivity|].
  destruct (is_PackageError e); reflexivity.
Qed.

(** The loop on any host: the packages are taken in order up to the
    first whose installation fails, whose exception is the loop's. *)
Lemma add_packages_run host ps w r w' :
  add_packages host ps w = (r, w') ->
  (forall p, p ∈ packages w -> p ∈ packages w')
  /\ exists n,
       n <= length ps
       /\ trace w' = trace w ++ (AptAddPackage <$> take n ps)
       /\ (forall p, p ∈ packages w' -> p ∈ packages w \/ p ∈ take n ps)
       /\ match r with
          | Ok _ => n = length ps /\ forall p, p ∈ ps -> p ∈ packages w'
          | Raise e =>
              exists t c, trace w' = t ++ [c] /\ fault host t c = Some e
          end.
Proof.
  revert w. induction ps as [|p ps IH]; intros w.
  - intros [= <- <-]. split; [done|]. exists 0.
    split; [done|]. split; [by rewrite app_nil_r|]. split; [by left|].
    split; [done|]. intros p Hp. by apply elem_of_nil in Hp.
  - rewrite add_packages_cons. unfold Sys.apt_add_package.
    match goal with |- context [Sys.call_leaving host ?c ?l ?eff w] =>
      destruct (call_leaving_cases host c l eff w)
        as [[Hf ->]|(e & Hf & ->)] end.
    + intros H. apply IH in H as (Hmono & n & Hn & Ht & Hnew & Hr).
      cbn [packages trace set_log set_packages set_trace Sys.apt_leaves]
        in Hmono, Ht, Hnew.
      split.
      { intros q Hq. apply Hmono, elem_of_add_entry. by right. }
      exists (S n). split; [cbn [length]; lia|]. split.
      { rewrite Ht. cbn [take fmap list_fmap]. by rewrite <- app_assoc. }
      split.
      { intros q Hq. cbn [take]. rewrite elem_of_cons.
        destruct (Hnew q Hq) as [[->|H]%elem_of_add_entry|H]; auto. }
      destruct r as [[]|e].
      * destruct Hr as [-> Hin]. split; [done|].
        intros q [->|Hq]%elem_of_cons; [|by apply Hin].
        apply Hmono, elem_of_add_entry. by left.
      * exact Hr.
    + intros [= <- <-].
      assert (Hw : forall w1,
                (if is_PackageNotFoundError e
                 then set_log (fun l => l ++ [mkLog ERROR
                        "Failed to find package %s in package cache" [p]]) w1
                 else if is_PackageError e
                 then set_log (fun l => l ++ [mkLog ERROR
                        "Failed to install %s: %s" [p; exn_str e]]) w1
                 else w1)
                = set_log (fun l => log
                    (if is_PackageNotFoundError e
                     then set_log (fun l => l ++ [mkLog ERROR
                            "Failed to find package %s in package cache" [p]])
                            w1
                     else if is_PackageError e
                     then set_log (fun l => l ++ [mkLog ERROR
                            "Failed to install %s: %s" [p; exn_str e]]) w1
                     else w1)) w1).
      { intros [???????]. destruct (is_PackageNotFoundError e);
          [|destruct (is_PackageError e)]; reflexivity. }
      rewrite Hw.
      cbn [packages trace set_log set_trace Sys.apt_leaves].
      split; [done|]. exists 1.
      split; [cbn [length]; lia|]. split; [done|]. split; [by left|].
      by exists (trace w), (AptAddPackage p).
Qed.

Lemma install_packages_run_inv host w r w' :
  Retracer._install_packages host w = (r, w') ->
  (forall p, p ∈ packages w -> p ∈ packages w')
  /\ exists n,
       n <= 5
       /\ trace w' = trace w ++ install_calls n
       /\ (forall p, p ∈ packages w' ->
             p ∈ packages w \/ p ∈ take n PACKAGES)
       /\ match r with
          | Ok _ => n = 5 /\ forall p, p ∈ PACKAGES -> p ∈ packages w'
          | Raise e =>
              exists t c, trace w' = t ++ [c] /\ fault host t c = Some e
          end.
Proof.
  rewrite install_packages_parts, bind_unfold, try_except_unfold, bind_unfold.
  unfold Sys.apt_update.
  match goal with |- context [Sys.call_leaving host ?c ?l ?eff w] =>
    destruct (call_leaving_cases host c l eff w)
      as [[Hf ->]|(e & Hf & ->)] end.
  - mstep. intros H. apply add_packages_run in H
      as (Hmono & n & Hn & Ht & Hnew & Hr).
    cbn [packages trace set_log set_trace Sys.apt_leaves id]
      in Hmono, Ht, Hnew.
    split; [done|]. exists n. split; [exact Hn|].
    split; [|by split]. rewrite Ht. unfold install_calls.
    by rewrite <- app_assoc.
  - destruct (is_CalledProcessError e); mstep; intros [= <- <-];
      cbn [packages trace set_log set_trace Sys.apt_leaves];
      (split; [done|]); exists 0;
      (split; [lia|]); (split; [done|]); (split; [by left|]);
      by exists (trace w), AptUpdate.
Qed.

(** X7. The package installation on any host: after the index refresh
    the five packages are installed in the order of [PACKAGES]; the
    first call that fails ends the method, which re-raises its exception
    whatever its class, so no later package is tried. When the method
    returns, all five packages are installed. It never removes a
    package from the list of those installed, and adds none but those
    it has asked for. *)
Theorem install_packages_run host w r w' :
  Retracer._install_packages host w = (r, w') ->
  (forall p, p ∈ packages w -> p ∈ packages w')
  /\ exists n,
       n <= 5
       /\ trace w' = trace w ++ install_calls n
       /\ (forall p, p ∈ packages w' ->
             p ∈ packages w \/ p ∈ take n PACKAGES)
       /\ match r with
          | Ok _ => n = 5 /\ forall p, p ∈ PACKAGES -> p ∈ packages w'
          | Raise e =>
              exists t c, trace w' = t ++ [c] /\ fault host t c = Some e
          end.
Proof. exact (install_packages_run_inv host w r w'). Qed.

Lemma install_packages_run_witness :
  let run := Retracer._install_packages busy_host fresh_world in
  fst run = Ok tt
  /\ trace (snd run) = install_calls 5
  /\ forall p, p ∈ PACKAGES -> p ∈ packages (snd run).
Proof.
  cbv zeta.
  assert (Hrun : Retracer._install_packages busy_host fresh_world
                 = (Ok tt, snd (Retracer._install_packages busy_host
                                  fresh_world)))
    by (vm_compute; reflexivity).
  destruct (install_packages_run _ _ _ _ Hrun)
    as (_ & n & _ & Ht & _ & -> & Hin).
  split; [by rewrite Hrun|]. split; [exact Ht|exact Hin].
Defined.

(** ** Directories (retracer.py, lines 177 to 205) *)

Lemma bind_assoc {S A B C} (m : M S A) (k : A -> M S B) (h : B -> M S C) s :
  (m ≫= fun a => k a ≫= h) s = ((m ≫= k) ≫= h) s.
Proof. rewrite !bind_unfold. by destruct (m s) as [[a|e] s1]. Qed.

(** A handler that logs and raises again never turns a failure into a
    return. *)
Lemma try_reraise_ok_inv {S A} (body : M S A) cls (l : Exn -> M S unit)
    s a s' :
  try_except body cls (fun e => l e;; raise e) s = (Ok a, s') ->
  body s = (Ok a, s').
Proof.
  rewrite try_except_unfold. destruct (body s) as [[a0|e] s1]; [done|].
  destruct (cls e); [|done]. rewrite bind_unfold.
  by destruct (l e s1) as [[[]|e1] s2].
Qed.

Lemma dirs_grow_refl w : dirs_grow w w.
Proof. by repeat split. Qed.

Lemma dirs_grow_trans w1 w2 w3 :
  dirs_grow w1 w2 -> dirs_grow w2 w3 -> dirs_grow w1 w3.
Proof.
  intros (? & ? & ? & ? & ?) (? & ? & ? & ? & ?).
  repeat split; try congruence. set_solver.
Qed.

(** Creating a directory and handing it to [ubuntu]: no regular file is
    touched, since the creation fails on one. *)
Lemma mkdir_chown_cases host p w :
  (exists w1,
     (Sys.mkdir_p host p;; Sys.chown host p "ubuntu" "ubuntu") w = (Ok tt, w1)
     /\ dirs_grow w w1 /\ p ∈ dirs w1)
  \/ (exists e w1,
        (Sys.mkdir_p host p;; Sys.chown host p "ubuntu" "ubuntu") w
        = (Raise e, w1)
        /\ dirs_grow w w1).
Proof.
  rewrite bind_unfold. unfold Sys.mkdir_p, Sys.chown.
  match goal with |- context [Sys.call_with host ?c ?run w] =>
    destruct (call_with_cases host c run w) as [[_ ->]|(e & _ & ->)] end.
  2:{ right. eexists _, _. split; [done|]. by repeat split. }
  cbn [files set_trace]. destruct (files w !! p) as [f|] eqn:Hp.
  { right. eexists _, _. split; [done|]. by repeat split. }
  match goal with |- context [Sys.call_with host ?c ?run ?w1] =>
    destruct (call_with_cases host c run w1) as [[_ ->]|(e & _ & ->)] end.
  2:{ right. eexists _, _. split; [done|].
      repeat split; cbn; try done. set_solver. }
  cbn [files dirs set_dirs set_trace]. rewrite Hp.
  rewrite bool_decide_eq_true_2 by set_solver.
  left. eexists. split; [done|]. split.
  - repeat split; cbn; try done. set_solver.
  - cbn. set_solver.
Qed.

Lemma mkdir_chown_keeps host p :
  keeps dirs_grow (Sys.mkdir_p host p;; Sys.chown host p "ubuntu" "ubuntu").
Proof.
  intros w r w' H.
  destruct (mkdir_chown_cases host p w)
    as [(w1 & H1 & Hg & _)|(e & w1 & H1 & Hg)];
    rewrite H1 in H; by injection H as <- <-.
Qed.

Lemma dirs_grow_log f w : dirs_grow w (set_log f w).
Proof. by repeat split. Qed.

(** The block of lines 179 to 185, and of lines 198 to 205. *)
Lemma guarded_dir_keeps host p (l : Exn -> M World unit)
    (m : M World unit) :
  keeps dirs_grow m -> (forall e, keeps dirs_grow (l e)) ->
  keeps dirs_grow
    (try_except
       (Sys.mkdir_p host p;; Sys.chown host p "ubuntu" "ubuntu";; m)
       is_OSError (fun e => l e;; raise e)).
Proof.
  intros Hm Hl. apply (keeps_try_except _ dirs_grow_trans).
  - intros w r w'. rewrite bind_assoc. revert w r w'.
    apply (keeps_bind _ dirs_grow_trans); [apply mkdir_chown_keeps|done].
  - intros e. apply (keeps_bind _ dirs_grow_trans); [apply Hl|].
    intros _. apply (keeps_raise _ dirs_grow_refl).
Qed.

Lemma guarded_dir_ok host p (l : Exn -> M World unit) f a w w' :
  try_except
    (Sys.mkdir_p host p;; Sys.chown host p "ubuntu" "ubuntu";;
     Sys.logger DEBUG f a)
    is_OSError (fun e => l e;; raise e) w = (Ok tt, w') ->
  p ∈ dirs w'.
Proof.
  intros H%try_reraise_ok_inv. rewrite bind_assoc in H.
  apply bind_ok_inv in H as ([] & w1 & H1 & H).
  destruct (mkdir_chown_cases host p w)
    as [(w2 & H2 & _ & Hin)|(e & w2 & H2 & _)];
    rewrite H2 in H1; [|done].
  injection H1 as <-. by injection H as <-.
Qed.

Lemma cache_dirs_keeps host architectures :
  keeps dirs_grow
    (for_each architectures (fun arch =>
       Sys.mkdir_p host (cache_dir arch);;
       Sys.chown host (cache_dir arch) "ubuntu" "ubuntu")).
Proof.
  apply (keeps_for_each _ dirs_grow_refl dirs_grow_trans).
  intros arch. apply mkdir_chown_keeps.
Qed.

Lemma cache_dirs_ok host architectures w w' :
  for_each architectures (fun arch =>
    Sys.mkdir_p host (cache_dir arch);;
    Sys.chown host (cache_dir arch) "ubuntu" "ubuntu") w = (Ok tt, w') ->
  forall arch, arch ∈ architectures -> cache_dir arch ∈ dirs w'.
Proof.
  revert w. induction architectures as [|a rest IH]; intros w H arch Ha.
  { by apply elem_of_nil in Ha. }
  cbn [for_each] in H. rewrite bind_eq in H.
  destruct (mkdir_chown_cases host (cache_dir a) w)
    as [(w1 & H1 & _ & Hin)|(e & w1 & H1 & _)];
    rewrite H1 in H; [|done].
  apply elem_of_cons in Ha as [->|Ha]; [|by eapply IH].
  apply cache_dirs_keeps in H as (_ & Hsub & _). by apply Hsub.
Qed.

Lemma create_directories_spec_inv host architectures w r w' :
  Retracer._create_directories host architectures w = (r, w') ->
  dirs_grow w w'
  /\ (r = Ok tt ->
      SRVDIR ∈ dirs w' /\ publish_db_dir ∈ dirs w' /\ debugdir ∈ dirs w'
      /\ forall arch, arch ∈ architectures -> cache_dir arch ∈ dirs w').
Proof.
  intros H.
  assert (Hlog : forall lvl f a, keeps dirs_grow (Sys.logger lvl f a)).
  { intros lvl f a. apply keeps_logger. intros g w0. apply dirs_grow_log. }
  assert (Hrest : keeps dirs_grow
            ((Sys.mkdir_p host publish_db_dir;;
              Sys.chown host publish_db_dir "ubuntu" "ubuntu");;
             for_each architectures (fun arch =>
               Sys.mkdir_p host (cache_dir arch);;
               Sys.chown host (cache_dir arch) "ubuntu" "ubuntu");;
             try_except
               (Sys.mkdir_p host debugdir;;
                Sys.chown host debugdir "ubuntu" "ubuntu";;
                Sys.logger DEBUG "Directory %s created" [debugdir])
               is_OSError
               (fun e =>
                  Sys.logger ERROR "Setting up %s directory failed: %s"
                    [debugdir; exn_str e];;
                  raise e))).
  { apply (keeps_bind _ dirs_grow_trans); [apply mkdir_chown_keeps|].
    intros _. apply (keeps_bind _ dirs_grow_trans);
      [apply cache_dirs_keeps|].
    intros _. apply guarded_dir_keeps; [apply Hlog|intros e; apply Hlog]. }
  unfold Retracer._create_directories in H. cbv zeta in H.
  fold publish_db_dir in H. fold debugdir in H.
  rewrite bind_unfold in H.
  match type of H with context [try_except ?b ?c ?h w] =>
    destruct (try_except b c h w) as [[[]|e] w1] eqn:H1 end.
  2:{ injection H as <- <-. split; [|done].
      revert H1. apply guarded_dir_keeps; [apply Hlog|intros e0; apply Hlog]. }
  pose proof H1 as Hsrv%guarded_dir_ok.
  apply guarded_dir_keeps in H1; [|apply Hlog|intros e0; apply Hlog].
  rewrite bind_assoc in H. pose proof H as Hg%Hrest.
  split; [by eapply dirs_grow_trans|]. intros ->.
  apply bind_ok_inv in H as ([] & w2 & H2 & H).
  apply bind_ok_inv in H as ([] & w3 & H3 & H).
  pose proof H as Hdbg%guarded_dir_ok.
  apply guarded_dir_keeps in H as (_ & Hsub4 & _);
    [|apply Hlog|intros e0; apply Hlog].
  pose proof (cache_dirs_ok _ _ _ _ H3) as Hcache.
  apply cache_dirs_keeps in H3 as (_ & Hsub3 & _).
  destruct (mkdir_chown_cases host publish_db_dir w1)
    as [(w2' & H2' & _ & Hpub)|(e & w2' & H2' & _)];
    rewrite H2' in H2; [|done]. injection H2 as <-.
  destruct Hg as (_ & Hsub & _).
  split; [by apply Hsub|]. split; [by apply Hsub4, Hsub3|].
  split; [done|]. intros arch Ha. by apply Hsub4, Hcache.
Qed.

(** X8. Creating the directories changes no regular file, no service and
    no package, and removes no directory, whatever its outcome: the cache
    of an architecture that is no longer configured stays. When the
    method returns, [/srv/retracers], its [apport-duplicates]
    subdirectory, [/usr/lib/debug/.dwz] and the cache directory of every
    architecture given exist. *)
Theorem create_directories_spec host architectures w r w' :
  Retracer._create_directories host architectures w = (r, w') ->
  dirs_grow w w'
  /\ (r = Ok tt ->
      SRVDIR ∈ dirs w' /\ publish_db_dir ∈ dirs w' /\ debugdir ∈ dirs w'
      /\ forall arch, arch ∈ architectures -> cache_dir arch ∈ dirs w').
Proof. exact (create_directories_spec_inv host architectures w r w'). Qed.

Lemma create_directories_spec_witness :
  let run := Retracer._create_directories calm_host ["amd64"; "arm64"]
               fresh_world in
  fst run = Ok tt
  /\ files (snd run) = ∅
  /\ cache_dir "arm64" ∈ dirs (snd run).
Proof.
  cbv zeta.
  assert (Hrun : Retracer._create_directories calm_host ["amd64"; "arm64"]
                   fresh_world
                 = (Ok tt, snd (Retracer._create_directories calm_host
                                  ["amd64"; "arm64"] fresh_world)))
    by (vm_compute; reflexivity).
  destruct (create_directories_spec _ _ _ _ _ Hrun)
    as ((Hf & _) & Hok).
  split; [by rewrite Hrun|]. split; [exact Hf|].
  destruct (Hok eq_refl) as (_ & _ & _ & Hc). apply Hc.
  apply elem_of_cons. right. apply elem_of_cons. by left.
Defined.

(** ** Helper script and web server (retracer.py, lines 207 to 217 and 311 to 322) *)

(** [shutil.copy], its outcomes. *)
Lemma shutil_copy_cases host src dst w :
  (exists f,
     files w !! src = Some f
     /\ Sys.shutil_copy host src dst w
        = (Ok tt,
           set_files <[dst := mkFile (content f) (mode f) (owner_at dst w)
                                     (group_at dst w)]>
             (called (ShutilCopy src dst) w)))
  \/ (exists e,
        Sys.shutil_copy host src dst w
        = (Raise e, called (ShutilCopy src dst) w)
        /\ (fault host (trace w) (ShutilCopy src dst) = Some e
            \/ (files w !! src = None /\ e = FileNotFoundError))).
Proof.
  unfold Sys.shutil_copy.
  match goal with |- context [Sys.call_with host ?c ?run w] =>
    destruct (call_with_cases host c run w) as [[_ ->]|(e & He & ->)] end.
  2:{ right. exists e. split; [done|by left]. }
  cbn [files set_trace]. destruct (files w !! src) as [f|] eqn:Hs.
  - left. exists f. split; [done|].
    unfold Sys.create_or_truncate, owner_at, group_at. cbn [files set_trace].
    by destruct (files w !! dst).
  - right. exists FileNotFoundError. split; [done|by right].
Qed.

Lemma install_scripts_spec_inv host w r w' :
  Retracer._install_scripts host w = (r, w') ->
  (forall p, p <> wrapper_dest -> files w' !! p = files w !! p)
  /\ (dirs w' = dirs w /\ wants w' = wants w /\ active w' = active w
      /\ packages w' = packages w)
  /\ match r with
     | Ok _ =>
         exists src,
           files w !! wrapper_source = Some src
           /\ files w' !! wrapper_dest
              = Some (mkFile (content src) 493 (owner_at wrapper_dest w)
                             (group_at wrapper_dest w))
           /\ trace w' = trace w ++ [ShutilCopy wrapper_source wrapper_dest;
                                     Chmod wrapper_dest 493]
     | Raise e =>
         files w !! wrapper_source = None -> files w' = files w
     end
  /\ (files w !! wrapper_source = None -> exists e, r = Raise e).
Proof.
  unfold Retracer._install_scripts. cbv zeta.
  fold wrapper_source. fold wrapper_dest.
  rewrite try_except_unfold, bind_unfold.
  destruct (shutil_copy_cases host wrapper_source wrapper_dest w)
    as [(f & Hs & ->)|(e & -> & He)].
  - rewrite bind_unfold. unfold Sys.chmod.
    match goal with |- context [Sys.call_with host ?c ?run ?w1] =>
      destruct (call_with_cases host c run w1) as [[_ ->]|(e & _ & ->)] end.
    + cbn [files set_files set_trace called]. rewrite lookup_insert_eq.
      mstep. intros [= <- <-].
      cbn [files dirs wants active packages trace set_files set_trace
           set_log called content mode owner group].
      split; [intros p Hp; by rewrite !lookup_insert_ne by done|].
      split; [done|]. split; [|by rewrite Hs].
      exists f. split; [done|]. rewrite lookup_insert_eq.
      split; [done|]. by rewrite <- app_assoc.
    + destruct (is_OSError e); mstep; intros [= <- <-];
        cbn [files dirs wants active packages trace set_files set_trace
             set_log called];
        (split; [intros p Hp; by rewrite lookup_insert_ne by done|]);
        (split; [done|]); by rewrite Hs.
  - assert (Hr : forall X : Result unit * World,
              X = (Raise e, called (ShutilCopy wrapper_source wrapper_dest) w)
              \/ X = (Raise e, set_log (fun l => l ++ [mkLog ERROR
                         "Failed to install worker wrapper script: %s"
                         [exn_str e]])
                       (called (ShutilCopy wrapper_source wrapper_dest) w)) ->
              X = (r, w') ->
              (forall p, p <> wrapper_dest -> files w' !! p = files w !! p)
              /\ (dirs w' = dirs w /\ wants w' = wants w
                  /\ active w' = active w /\ packages w' = packages w)
              /\ match r with
                 | Ok _ =>
                     exists src,
                       files w !! wrapper_source = Some src
                       /\ files w' !! wrapper_dest
                          = Some (mkFile (content src) 493
                                    (owner_at wrapper_dest w)
                                    (group_at wrapper_dest w))
                       /\ trace w' = trace w
                            ++ [ShutilCopy wrapper_source wrapper_dest;
                                Chmod wrapper_dest 493]
                 | Raise e =>
                     files w !! wrapper_source = None -> files w' = files w
                 end
              /\ (files w !! wrapper_source = None -> exists e, r = Raise e)).
    { intros X [-> | ->] [= <- <-]; repeat split; by eauto. }
    apply Hr. destruct (is_OSError e); [right|left]; reflexivity.
Qed.

(** X9. Installing the worker wrapper changes no file but the wrapper
    and nothing else on the host. When it returns, the wrapper holds the
    content of its source with mode 0755, whatever the mode of the source
    and the umask, and keeps the owner of the file it replaced, if any.
    Without the source the method raises and writes nothing. *)
Theorem install_scripts_spec host w r w' :
  Retracer._install_scripts host w = (r, w') ->
  (forall p, p <> wrapper_dest -> files w' !! p = files w !! p)
  /\ (dirs w' = dirs w /\ wants w' = wants w /\ active w' = active w
      /\ packages w' = packages w)
  /\ match r with
     | Ok _ =>
         exists src,
           files w !! wrapper_source = Some src
           /\ files w' !! wrapper_dest
              = Some (mkFile (content src) 493 (owner_at wrapper_dest w)
                             (group_at wrapper_dest w))
           /\ trace w' = trace w ++ [ShutilCopy wrapper_source wrapper_dest;
                                     Chmod wrapper_dest 493]
     | Raise e =>
         files w !! wrapper_source = None -> files w' = files w
     end
  /\ (files w !! wrapper_source = None -> exists e, r = Raise e).
Proof. exact (install_scripts_spec_inv host w r w'). Qed.

Lemma install_scripts_spec_witness :
  let w := set_files <[wrapper_source := mkFile "#!/bin/sh" 420 "root" "root"]>
             fresh_world in
  let run := Retracer._install_scripts calm_host w in
  fst run = Ok tt
  /\ files (snd run) !! wrapper_dest
     = Some (mkFile "#!/bin/sh" 493 "root" "root").
Proof.
  cbv zeta.
  assert (Hrun : Retracer._install_scripts calm_host
                   (set_files <[wrapper_source :=
                      mkFile "#!/bin/sh" 420 "root" "root"]> fresh_world)
                 = (Ok tt, snd (Retracer._install_scripts calm_host
                      (set_files <[wrapper_source :=
                         mkFile "#!/bin/sh" 420 "root" "root"]> fresh_world))))
    by (vm_compute; reflexivity).
  destruct (install_scripts_spec _ _ _ _ Hrun)
    as (_ & _ & (src & Hs & Hd & _) & _).
  split; [by rewrite Hrun|]. rewrite Hd.
  assert (E : src = mkFile "#!/bin/sh" 420 "root" "root").
  { vm_compute in Hs. by injection Hs as <-. }
  rewrite E. vm_compute. reflexivity.
Defined.

Lemma nginx_config_spec_inv host w r w' :
  Retracer._nginx_config host w = (r, w') ->
  (forall p, p <> NGINX_SITE_CONFIG_PATH -> p <> nginx_default ->
             files w' !! p = files w !! p)
  /\ (dirs w' = dirs w /\ wants w' = wants w /\ active w' = active w
      /\ packages w' = packages w)
  /\ match r with
     | Ok _ =>
         exists src,
           files w !! nginx_source = Some src
           /\ files w' !! NGINX_SITE_CONFIG_PATH
              = Some (mkFile (content src) (mode src)
                        (owner_at NGINX_SITE_CONFIG_PATH w)
                        (group_at NGINX_SITE_CONFIG_PATH w))
           /\ files w' !! nginx_default = None
           /\ trace w' = trace w
                ++ [ShutilCopy nginx_source NGINX_SITE_CONFIG_PATH;
                    Unlink nginx_default]
     | Raise e =>
         files w' !! nginx_default = files w !! nginx_default
         /\ (Unlink nginx_default ∈ trace w' ->
             Unlink nginx_default ∈ trace w
             \/ fault host (trace w
                   ++ [ShutilCopy nginx_source NGINX_SITE_CONFIG_PATH])
                  (Unlink nginx_default) = Some e)
     end.
Proof.
  unfold Retracer._nginx_config.
  fold nginx_source. fold nginx_default.
  rewrite bind_unfold, try_except_unfold, bind_unfold.
  assert (Hne : NGINX_SITE_CONFIG_PATH <> nginx_default) by done.
  destruct (shutil_copy_cases host nginx_source NGINX_SITE_CONFIG_PATH w)
    as [(f & Hs & ->)|(e & -> & He)].
  - mstep. unfold Sys.unlink_missing_ok.
    match goal with |- context [Sys.call host ?c ?eff ?w1] =>
      destruct (call_cases host c eff w1) as [[_ ->]|(e & Hf & ->)] end.
    + mstep. intros [= <- <-].
      cbn [files dirs wants active packages trace set_files set_trace
           set_log called].
      split.
      { intros p Hp1 Hp2.
        by rewrite lookup_delete_ne, lookup_insert_ne by done. }
      split; [done|]. exists f. split; [done|].
      split; [by rewrite lookup_delete_ne, lookup_insert_eq by done|].
      split; [apply lookup_delete_eq|by rewrite <- app_assoc].
    + intros [= <- <-].
      cbn [files dirs wants active packages trace set_files set_trace
           set_log called].
      split; [intros p Hp1 Hp2; by rewrite lookup_insert_ne by done|].
      split; [done|]. split; [by rewrite lookup_insert_ne by done|].
      intros _. right.
      cbn [files dirs wants active packages trace set_files set_trace
           set_log called] in Hf. exact Hf.
  - assert (Hnot : Unlink nginx_default
                     ∈ trace w ++ [ShutilCopy nginx_source
                                     NGINX_SITE_CONFIG_PATH] ->
                   Unlink nginx_default ∈ trace w).
    { intros [H|H]%elem_of_app; [done|].
      apply list_elem_of_singleton in H. discriminate H. }
    destruct (is_OSError e || is_ShutilError e); mstep; intros [= <- <-];
      cbn [files dirs wants active packages trace set_files set_trace
           set_log called];
      (split; [done|]); (split; [done|]); (split; [done|]);
      intros H; left; by apply Hnot.
Qed.

(** X10. Configuring nginx changes no file but the site configuration
    and the default site. When it returns, the site configuration is a
    copy of its source (content and mode) and the default site is gone.
    When it raises, the default site is as it was: the removal comes
    after the copy, and a failed copy ends the method. *)
Theorem nginx_config_spec host w r w' :
  Retracer._nginx_config host w = (r, w') ->
  (forall p, p <> NGINX_SITE_CONFIG_PATH -> p <> nginx_default ->
             files w' !! p = files w !! p)
  /\ (dirs w' = dirs w /\ wants w' = wants w /\ active w' = active w
      /\ packages w' = packages w)
  /\ match r with
     | Ok _ =>
         exists src,
           files w !! nginx_source = Some src
           /\ files w' !! NGINX_SITE_CONFIG_PATH
              = Some (mkFile (content src) (mode src)
                        (owner_at NGINX_SITE_CONFIG_PATH w)
                        (group_at NGINX_SITE_CONFIG_PATH w))
           /\ files w' !! nginx_default = None
           /\ trace w' = trace w
                ++ [ShutilCopy nginx_source NGINX_SITE_CONFIG_PATH;
                    Unlink nginx_default]
     | Raise e =>
         files w' !! nginx_default = files w !! nginx_default
         /\ (Unlink nginx_default ∈ trace w' ->
             Unlink nginx_default ∈ trace w
             \/ fault host (trace w
                   ++ [ShutilCopy nginx_source NGINX_SITE_CONFIG_PATH])
                  (Unlink nginx_default) = Some e)
     end.
Proof. exact (nginx_config_spec_inv host w r w'). Qed.

Lemma nginx_config_spec_witness :
  let w := set_files
             (fun _ => {[ nginx_source := mkFile "server {}" 420 "root" "root";
                          nginx_default := mkFile "default" 420 "root" "root" ]})
             fresh_world in
  let run := Retracer._nginx_config calm_host w in
  fst run = Ok tt /\ files (snd run) !! nginx_default = None.
Proof.
  cbv zeta.
  assert (Hrun : Retracer._nginx_config calm_host
                   (set_files
                      (fun _ => {[ nginx_source :=
                                     mkFile "server {}" 420 "root" "root";
                                   nginx_default :=
                                     mkFile "default" 420 "root" "root" ]})
                      fresh_world)
                 = (Ok tt, snd (Retracer._nginx_config calm_host
                      (set_files
                         (fun _ => {[ nginx_source :=
                                        mkFile "server {}" 420 "root" "root";
                                      nginx_default :=
                                        mkFile "default" 420 "root" "root" ]})
                         fresh_world))))
    by (vm_compute; reflexivity).
  destruct (nginx_config_spec _ _ _ _ Hrun)
    as (_ & _ & src & _ & _ & Hd & _).
  split; [by rewrite Hrun|exact Hd].
Defined.

(** ** Starting (retracer.py, lines 71 to 79; charm.py, lines 65 to 84) *)

(** The outcomes of [start]. *)
Lemma start_cases host self architectures w :
  (exists f1 f2,
     fault host (trace w) (Run git_pull) = None
     /\ fault host (trace w ++ [Run git_pull]) (ServiceRestart "nginx") = None
     /\ Retracer.start host self architectures w
        = (Ok tt,
           set_log f2
             (set_active (add_entry "nginx")
                (called (ServiceRestart "nginx")
                   (set_log f1
                      (Sys.git_leaves host (Run git_pull)
                         (called (Run git_pull) w)))))))
  \/ (exists e w1,
        Retracer.start host self architectures w = (Raise e, w1)
        /\ wants w1 = wants w /\ active w1 = active w
        /\ packages w1 = packages w
        /\ ((trace w1 = trace w ++ [Run git_pull]
             /\ fault host (trace w) (Run git_pull) = Some e)
            \/ (trace w1 = trace w ++ [Run git_pull; ServiceRestart "nginx"]
                /\ fault host (trace w ++ [Run git_pull])
                     (ServiceRestart "nginx") = Some e))).
Proof.
  unfold Retracer.start, Retracer._update_checkout, Sys.service_restart.
  fold git_pull. cbv zeta.
  rewrite bind_unfold, try_except_unfold, bind_unfold.
  match goal with |- context [Sys.run_leaving host ?a ?l ?eff w] =>
    destruct (run_leaving_cases host a l eff w)
      as [[Hf1 ->]|(e & Hf1 & ->)] end.
  - mstep. change (id ?x) with x.
    match goal with |- context [Sys.call host ?c ?eff ?w1] =>
      destruct (call_cases host c eff w1) as [[Hf2 ->]|(e & Hf2 & ->)] end;
      cbn [trace set_log set_trace Sys.git_leaves] in Hf2.
    + left. mstep. eexists _, _. split; [done|]. split; [done|]. reflexivity.
    + right. destruct (is_CalledProcessError e); mstep;
        eexists e, _; (split; [reflexivity|]);
        cbn [files dirs wants active packages trace set_log set_trace
             Sys.git_leaves];
        repeat (split; [done|]); right; (split; [|done]);
        by rewrite <- app_assoc.
  - right. destruct (is_CalledProcessError e); mstep;
      eexists e, _; (split; [reflexivity|]);
      cbn [files dirs wants active packages trace set_log set_trace
           Sys.git_leaves];
      repeat (split; [done|]); by left.
Qed.

(** X11. [start] updates the checkout and then restarts nginx, in this
    order and nothing else: a failing [git pull] is re-raised and nginx
    is not restarted; a failing restart is re-raised, whatever its
    class. When it returns, the files and the directories are those the
    pull has left, and nginx is started. No timer is enabled, no other
    service started and no package installed. *)
Theorem start_outcomes host self architectures w r w' :
  Retracer.start host self architectures w = (r, w') ->
  (wants w' = wants w /\ packages w' = packages w)
  /\ match r with
     | Ok _ =>
         trace w' = trace w ++ [Run git_pull; ServiceRestart "nginx"]
         /\ active w' = add_entry "nginx" (active w)
         /\ files w'
            = files (outside host (Run git_pull) (called (Run git_pull) w))
         /\ dirs w'
            = dirs (outside host (Run git_pull) (called (Run git_pull) w))
     | Raise e =>
         active w' = active w
         /\ ((trace w' = trace w ++ [Run git_pull]
              /\ fault host (trace w) (Run git_pull) = Some e)
             \/ (trace w' = trace w ++ [Run git_pull; ServiceRestart "nginx"]
                 /\ fault host (trace w ++ [Run git_pull])
                      (ServiceRestart "nginx") = Some e))
     end.
Proof.
  intros H.
  destruct (start_cases host self architectures w)
    as [(f1 & f2 & _ & _ & H1)|(e & w1 & H1 & Hw & Ha & Hp & Ht)];
    rewrite H1 in H; injection H as <- <-; [|done].
  cbn [trace active wants packages files dirs set_log set_active called
       set_trace Sys.git_leaves].
  split; [done|]. split; [by rewrite <- app_assoc|done].
Qed.

Lemma start_outcomes_witness :
  let run := Retracer.start busy_host (Retracer.__init__ ∅) ["amd64"]
               fresh_world in
  fst run = Ok tt
  /\ trace (snd run) = [Run git_pull; ServiceRestart "nginx"]
  /\ active (snd run) = ["nginx"].
Proof.
  cbv zeta.
  assert (Hrun : Retracer.start busy_host (Retracer.__init__ ∅) ["amd64"]
                   fresh_world
                 = (Ok tt, snd (Retracer.start busy_host (Retracer.__init__ ∅)
                                  ["amd64"] fresh_world)))
    by (vm_compute; reflexivity).
  destruct (start_outcomes _ _ _ _ _ _ Hrun) as (_ & Ht & Ha & _).
  split; [by rewrite Hrun|]. split; [exact Ht|exact Ha].
Defined.

(** The version query, in all its outcomes. *)
Lemma get_workload_version_all host self w :
  (exists v f,
     Retracer.get_workload_version host self w
     = (Ok v, set_log f (called (Run dpkg_query) w)))
  \/ (exists e,
        is_CalledProcessError e = false
        /\ Retracer.get_workload_version host self w
           = (Raise e, called (Run dpkg_query) w)).
Proof.
  unfold Retracer.get_workload_version, Sys.run.
  rewrite try_except_unfold, bind_unfold.
  pose proof (call_with_cases host (Run dpkg_query)
                (fun w0 => (Ok (proc_stdout host dpkg_query), id w0)) w)
    as Hrun.
  unfold dpkg_query in Hrun |- *.
  destruct Hrun as [[_ ->]|(e & _ & ->)].
  - left. mstep. by eexists _, _.
  - destruct (is_CalledProcessError e) eqn:He.
    + left. mstep. by eexists _, _.
    + right. by exists e.
Qed.

(** X12. What the start handler's outcome tells. It returns with the
    active status only after the version was set, the checkout updated
    and nginx restarted, in this order, with the credentials present.
    When it returns blocked for want of credentials, the file was absent
    and it has made the two calls of the version query only. When it
    returns blocked with the failure message, no service was started.
    An exception that leaves the handler is neither a
    [CalledProcessError] nor a [ValueError], which are caught; the status
    is then still the maintenance one. *)
Theorem on_start_outcomes host c r c' :
  LaunchpadRetracerCharm._on_start host c = (r, c') ->
  match r with
  | Ok _ =>
      (unit_status c' = ActiveStatus
       /\ Retracer.has_credentials (world c) = true
       /\ exists v,
            workload_version c' = Some v
            /\ trace (world c')
               = trace (world c)
                 ++ [Run dpkg_query; SetWorkloadVersion v; Run git_pull;
                     ServiceRestart "nginx"]
            /\ "nginx" ∈ active (world c'))
      \/ (unit_status c' = BlockedStatus msg_no_credentials
          /\ Retracer.has_credentials (world c) = false
          /\ exists v,
               trace (world c')
               = trace (world c) ++ [Run dpkg_query; SetWorkloadVersion v])
      \/ (unit_status c' = BlockedStatus msg_start_failed
          /\ active (world c') = active (world c))
  | Raise e =>
      start_caught e = false
      /\ unit_status c' = MaintenanceStatus msg_starting
  end.
Proof.
  unfold LaunchpadRetracerCharm._on_start. fold start_caught. mstep.
  destruct (get_workload_version_all host (_retracer c) (world c))
    as [(v & f & ->)|(e & He & ->)].
  2:{ mstep. destruct (start_caught e) eqn:Hc.
      - mstep. intros [= <- <-]. right. right. by split.
      - intros [= <- <-]. by split. }
  mstep. unfold Sys.call.
  destruct (fault host _ (SetWorkloadVersion v)) as [e|].
  { mstep. destruct (start_caught e) eqn:Hc.
    - mstep. intros [= <- <-]. right. right. by split.
    - intros [= <- <-]. by split. }
  mstep. rewrite (has_credentials_frame (world c)) by reflexivity.
  destruct (Retracer.has_credentials (world c)) eqn:Hcred.
  2:{ mstep. intros [= <- <-]. right. left. split; [done|]. split; [done|].
      exists v. cbn [world trace set_trace set_log called id].
      by rewrite <- app_assoc. }
  mstep. unfold LaunchpadRetracerCharm._get_architectures. mstep.
  destruct (config (model c) !! "architectures") as [raw|].
  2:{ mstep. intros [= <- <-]. by split. }
  mstep. destruct (PyStr.split_ws raw) as [|a l].
  { mstep. intros [= <- <-]. right. right. by split. }
  mstep.
  match goal with |- context [Retracer.start host ?s ?archs ?w1] =>
    destruct (start_cases host s archs w1)
      as [(f1 & f2 & _ & _ & ->)
         |(e & w2 & -> & _ & Hact & _ & _)] end.
  - mstep. intros [= <- <-]. left. split; [done|]. split; [done|].
    exists v. cbn [workload_version world trace active set_trace set_log
                   set_active called id Sys.git_leaves].
    split; [done|]. split; [by rewrite <- !app_assoc|].
    apply elem_of_add_entry. by left.
  - mstep. destruct (start_caught e) eqn:Hc.
    + mstep. intros [= <- <-]. right. right. split; [done|].
      cbn [world]. rewrite Hact. reflexivity.
    + intros [= <- <-]. by split.
Qed.

Lemma on_start_outcomes_witness :
  let c := new_charm (lp_model "amd64" ∅) stale_world in
  let run := LaunchpadRetracerCharm._on_start calm_host c in
  fst run = Ok tt
  /\ unit_status (snd run) = ActiveStatus
  /\ "nginx" ∈ active (world (snd run)).
Proof.
  cbv zeta.
  assert (Hrun : LaunchpadRetracerCharm._on_start calm_host
                   (new_charm (lp_model "amd64" ∅) stale_world)
                 = (Ok tt, snd (LaunchpadRetracerCharm._on_start calm_host
                      (new_charm (lp_model "amd64" ∅) stale_world))))
    by (vm_compute; reflexivity).
  assert (Hst : unit_status (snd (LaunchpadRetracerCharm._on_start calm_host
                   (new_charm (lp_model "amd64" ∅) stale_world)))
                = ActiveStatus)
    by (vm_compute; reflexivity).
  pose proof (on_start_outcomes _ _ _ _ Hrun) as H.
  split; [by rewrite Hrun|]. split; [exact Hst|].
  destruct H as [(_ & _ & v & _ & _ & Hn)|[(Hb & _)|(Hb & _)]];
    [exact Hn|rewrite Hst in Hb; discriminate Hb..].
Defined.

(** ** Reading the live set back (retracer.py, lines 148 to 156) *)

Lemma split_head sep s :
  exists t, PyStr.split sep s = before sep s :: t.
Proof.
  induction s as [|x s (t & IH)]; [by exists []|].
  cbn [PyStr.split before]. destruct (Ascii.eqb x sep); [by eexists|].
  rewrite IH. by eexists.
Qed.

Lemma contains_before sep s : PyStr.contains sep (before sep s) = false.
Proof.
  induction s as [|x s IH]; [done|]. cbn [before].
  destruct (Ascii.eqb x sep) eqn:E; [done|].
  cbn [PyStr.contains]. by rewrite E, IH.
Qed.

Lemma contains_before_other c sep s :
  PyStr.contains c s = false -> PyStr.contains c (before sep s) = false.
Proof.
  induction s as [|x s IH]; [done|]. cbn [before PyStr.contains].
  intros [Hx Hs]%orb_false_iff.
  destruct (Ascii.eqb x sep); [done|].
  cbn [PyStr.contains]. by rewrite Hx, IH.
Qed.

Lemma before_no_sep sep s : PyStr.contains sep s = false -> before sep s = s.
Proof.
  induction s as [|x s IH]; [done|]. cbn [before PyStr.contains].
  intros [Hx Hs]%orb_false_iff. by rewrite Hx, IH.
Qed.

Lemma clean_stem a : clean (stem a) = true.
Proof.
  unfold clean, stem. rewrite contains_before.
  rewrite contains_before_other by apply contains_before. reflexivity.
Qed.

Lemma stem_clean a : stem a = a <-> clean a = true.
Proof.
  split.
  - intros <-. apply clean_stem.
  - unfold clean, stem. intros [Hat Hdot]%andb_true_iff.
    apply negb_true_iff in Hat, Hdot.
    by rewrite (before_no_sep "@") , (before_no_sep ".").
Qed.

(** The suffix [.timer] ends the text at the latest. *)
Lemma stem_timer_suffix a : stem (a +:+ Retracer.timer_suffix) = stem a.
Proof.
  unfold stem. induction a as [|x a IH]; [done|].
  rewrite str_app_cons. cbn [before].
  destruct (Ascii.eqb x "@"); [done|]. cbn [before].
  destruct (Ascii.eqb x "."); [done|]. by rewrite IH.
Qed.

(** Line 152 on the path of any worker timer. *)
Lemma arch_of_stem a :
  Retracer.arch_of (timer_path (Retracer.worker_timer a)) = Ok (stem a).
Proof.
  unfold Retracer.arch_of, Retracer.worker_timer.
  rewrite split_at_timer_path.
  destruct (split_head "@" (a +:+ Retracer.timer_suffix)) as (t & ->).
  cbn [lookup list_lookup].
  destruct (split_head "." (before "@" (a +:+ Retracer.timer_suffix)))
    as (t' & ->).
  cbn [lookup list_lookup]. fold (stem (a +:+ Retracer.timer_suffix)).
  by rewrite stem_timer_suffix.
Qed.

(** X13. What line 152 reads back from the timer of an architecture
    named [a] is the text of [a] before its first [@] or [.]: the name
    itself exactly when it contains neither, a proper prefix of it
    otherwise; and the names read back never contain [@] or [.]. *)
Theorem arch_of_worker_timer a :
  Retracer.arch_of (timer_path (Retracer.worker_timer a)) = Ok (stem a)
  /\ (stem a = a <-> clean a = true)
  /\ clean (stem a) = true
  /\ exists rest, a = stem a +:+ rest.
Proof.
  split; [apply arch_of_stem|]. split; [apply stem_clean|].
  split; [apply clean_stem|].
  unfold stem. induction a as [|x a (rest & IH)]; [by exists ""|].
  cbn [before]. destruct (Ascii.eqb x "@"); [by eexists|]. cbn [before].
  destruct (Ascii.eqb x "."); [by eexists|].
  exists rest. by rewrite str_app_cons, <- IH.
Qed.

Lemma comprehension_arch_of_stems (l : list string) :
  exists cur,
    comprehension Retracer.arch_of
      (timer_path <$>
         filter (fun n => PyStr.fnmatch_star Retracer.worker_prefix
                            Retracer.timer_suffix n = true) l) = Ok cur
    /\ forall a, a ∈ cur
                 <-> exists b, Retracer.worker_timer b ∈ l /\ a = stem b.
Proof.
  induction l as [|n l (cur & Hcur & Hin)].
  - exists []. split; [done|]. intros a. split.
    + by intros H%elem_of_nil.
    + by intros (b & H%elem_of_nil & _).
  - rewrite filter_cons.
    destruct (decide (PyStr.fnmatch_star Retracer.worker_prefix
                        Retracer.timer_suffix n = true)) as [Hm|Hm].
    + destruct (match_worker_timer n Hm) as [a0 ->].
      rewrite fmap_cons. cbn [comprehension].
      rewrite arch_of_stem, Hcur.
      exists (stem a0 :: cur). split; [done|]. intros a.
      rewrite elem_of_cons, Hin. split.
      * intros [->|(b & Hb & ->)]; [exists a0|exists b];
          (split; [|done]); first [by left|by right].
      * intros (b & [Hb%worker_timer_inj|Hb]%elem_of_cons & ->);
          [left; by subst|right; by exists b].
    + exists cur. split; [done|]. intros a. rewrite Hin. split.
      * intros (b & Hb & ->). exists b. split; [by right|done].
      * intros (b & [Hb|Hb]%elem_of_cons & ->); [|by exists b].
        destruct Hm. rewrite <- Hb. apply worker_timer_match.
Qed.

(** X14. Reading the live set never fails, whatever the directory of
    enabled timers holds: no entry the pattern takes makes line 152 raise
    [IndexError]. The set read is that of the stems of the enabled worker
    timers; in particular every name in it is free of [@] and [.]. *)
Theorem current_archs_total w :
  exists cur,
    current_archs w = Ok cur
    /\ (forall a, a ∈ cur
                  <-> exists b, Retracer.worker_timer b ∈ wants w
                                /\ a = stem b)
    /\ Forall (fun a => clean a = true) cur.
Proof.
  destruct (comprehension_arch_of_stems (wants w)) as (cur & Hcur & Hin).
  exists cur. split; [exact Hcur|]. split; [exact Hin|].
  apply Forall_forall. intros a (b & _ & ->)%Hin. apply clean_stem.
Qed.

(** ** What a pass leaves alone (retracer.py, lines 116 to 175) *)

Section Passes.
Variable R : World -> World -> Prop.
Variable host : Host.
Variable architectures : list string.
Hypothesis R_refl : forall w, R w w.
Hypothesis R_trans : forall w1 w2 w3, R w1 w2 -> R w2 w3 -> R w1 w3.
Hypothesis R_call : forall c w, is_retire_call c = false -> R w (called c w).
Hypothesis R_mkdir :
  forall w, R w (set_dirs (fun d => {[Retracer.systemd_unit_location]} ∪ d) w).
Hypothesis R_write :
  forall p data w, under_units p = true -> R w (written p data w).
Hypothesis R_enable :
  forall u w, R w (set_active (add_entry u) (set_wants (add_entry u) w)).
Hypothesis R_log : forall g w, R w (set_log g w).
Hypothesis R_retire :
  forall a, a ∉ architectures -> keeps R (Retracer.retire host a).

Lemma mkdir_units_keeps :
  keeps R (Sys.mkdir_p host Retracer.systemd_unit_location).
Proof.
  apply (keeps_call_with R R_trans); [intros w; by apply R_call|].
  intros w r w' H. destruct (files w !! Retracer.systemd_unit_location);
    injection H as <- <-; [apply R_refl|apply R_mkdir].
Qed.

Lemma read_text_keeps p : keeps R (Sys.read_text host p).
Proof.
  apply (keeps_call_with R R_trans); [intros w; by apply R_call|].
  intros w r w' H. destruct (files w !! p); injection H as <- <-;
    apply R_refl.
Qed.

Lemma write_text_keeps p data :
  under_units p = true -> keeps R (Sys.write_text host p data).
Proof.
  intros Hp. apply (keeps_call R R_trans); [intros w; by apply R_call|].
  intros w. by apply (R_write p data w).
Qed.

Lemma enable_now_keeps u : keeps R (Sys.service_enable_now host u).
Proof.
  apply (keeps_call R R_trans); [intros w; by apply R_call|].
  intros w. apply R_enable.
Qed.

Lemma write_units_keeps self : keeps R (write_units host self).
Proof.
  destruct under_units_etc as (H1 & H2 & H3 & H4).
  unfold write_units.
  repeat (apply (keeps_bind R R_trans);
          [first [ apply mkdir_units_keeps | apply read_text_keeps
                 | by apply write_text_keeps | apply enable_now_keeps ]
          |intros ?]).
  apply (keeps_call R R_trans); [intros w; by apply R_call|].
  intros w. apply R_refl.
Qed.

Lemma sync_units_keeps : keeps R (sync_units host architectures).
Proof.
  unfold sync_units. apply (keeps_bind_val R R_trans).
  { intros w r w' [= <- <-]. apply R_refl. }
  intros _ cur _ _. apply (keeps_bind R R_trans).
  { apply (keeps_for_each R R_refl R_trans). intros arch.
    apply enable_now_keeps. }
  intros _. apply (keeps_bind R R_trans).
  { apply (keeps_for_each R R_refl R_trans). intros arch.
    case_bool_decide; [by apply R_retire|apply (keeps_ret R R_refl)]. }
  intros _. apply keeps_logger, R_log.
Qed.

Lemma setup_systemd_units_keeps self :
  keeps R (Retracer._setup_systemd_units host self architectures).
Proof.
  intros w r w'. rewrite setup_systemd_units_parts. revert w r w'.
  apply (keeps_bind R R_trans); [apply write_units_keeps|].
  intros _. apply sync_units_keeps.
Qed.
End Passes.

Lemma spares_refl architectures w : spares architectures w w.
Proof. exists []. by rewrite app_nil_r. Qed.

Lemma spares_trans architectures w1 w2 w3 :
  spares architectures w1 w2 -> spares architectures w2 w3 ->
  spares architectures w1 w3.
Proof.
  intros (d1 & H1 & F1) (d2 & H2 & F2). exists (d1 ++ d2). split.
  - by rewrite H2, H1, <- app_assoc.
  - by apply Forall_app.
Qed.

Lemma spares_same architectures w w' :
  trace w' = trace w -> spares architectures w w'.
Proof. intros H. exists []. by rewrite app_nil_r. Qed.

Lemma spares_call architectures c w :
  is_retire_call c = false -> spares architectures w (called c w).
Proof.
  intros H. exists [c]. split; [done|].
  constructor; [|constructor]. by rewrite H.
Qed.

Lemma spares_retire_call architectures a c w :
  a ∉ architectures -> c ∈ retire_calls a ->
  spares architectures w (called c w).
Proof.
  intros Ha Hc. exists [c]. split; [done|].
  constructor; [|constructor]. intros _. by exists a.
Qed.

(** A retirement makes no call but its own five. *)
Lemma retire_spares host architectures a :
  a ∉ architectures -> keeps (spares architectures) (Retracer.retire host a).
Proof.
  intros Ha. unfold Retracer.retire, Sys.service_stop, Sys.service_disable,
    Sys.unlink_missing_ok.
  change (Retracer.systemd_unit_location +:+ "/" +:+ ?x) with (unit_path x).
  apply (keeps_try_except _ (spares_trans architectures)).
  - repeat (apply (keeps_bind _ (spares_trans architectures));
            [apply (keeps_call _ (spares_trans architectures));
             [intros w; apply (spares_retire_call _ a); [done|];
              unfold retire_calls;
              repeat first [apply list_elem_of_here
                           |apply list_elem_of_further]
             |intros w; by apply spares_same]
            |intros _]).
    apply keeps_logger. intros g w. by apply spares_same.
  - intros e. apply keeps_logger. intros g w. by apply spares_same.
Qed.

Lemma setup_spares host self architectures :
  keeps (spares architectures)
    (Retracer._setup_systemd_units host self architectures).
Proof.
  apply setup_systemd_units_keeps.
  - apply spares_refl.
  - apply spares_trans.
  - intros c w. apply spares_call.
  - intros w. by apply spares_same.
  - intros p data w _. by apply spares_same.
  - intros u w. by apply spares_same.
  - intros g w. by apply spares_same.
  - intros a. apply retire_spares.
Qed.

Lemma worker_service_inj a b :
  Retracer.worker_service a = Retracer.worker_service b -> a = b.
Proof.
  unfold Retracer.worker_service. intros H.
  apply (inj (String.app _)) in H. by apply str_app_inj_r in H.
Qed.

Lemma unit_path_inj x y : unit_path x = unit_path y -> x = y.
Proof.
  unfold unit_path. intros H. apply (inj (String.app _)) in H.
  by apply (inj (String.app _)) in H.
Qed.

Ltac unit_eq H :=
  first
    [ apply worker_timer_inj in H; by subst
    | apply worker_service_inj in H; by subst
    | by apply worker_timer_not_service in H
    | symmetry in H; by apply worker_timer_not_service in H
    | apply unit_path_inj in H; unit_eq H ].

(** The steps of two retirements are apart. *)
Lemma retire_calls_apart a b c :
  c ∈ retire_calls a -> c ∈ retire_calls b -> a = b.
Proof.
  unfold retire_calls. intros Ha Hb.
  repeat (apply elem_of_cons in Ha as [->|Ha]);
    [..|by apply elem_of_nil in Ha];
    repeat (apply elem_of_cons in Hb as [Hb|Hb];
            [first [discriminate Hb
                   |apply (f_equal call_unit) in Hb; cbn [call_unit] in Hb;
                    unit_eq Hb]|]);
    by apply elem_of_nil in Hb.
Qed.

Lemma worker_service_not_dupcheck a :
  Retracer.worker_service a <> dupcheck_timer.
Proof.
  unfold Retracer.worker_service, Retracer.worker_prefix, dupcheck_timer.
  rewrite !str_app_cons. discriminate.
Qed.

Lemma unit_path_not_dupcheck x :
  (exists a, x = Retracer.worker_timer a \/ x = Retracer.worker_service a) ->
  unit_path x <> etc_dupcheck_timer /\ unit_path x <> etc_dupcheck_service.
Proof.
  intros (a & [->| ->]);
    unfold unit_path, etc_dupcheck_timer, etc_dupcheck_service,
      Retracer.worker_timer, Retracer.worker_service, Retracer.worker_prefix,
      Retracer.systemd_unit_location;
    rewrite !str_app_cons, !str_app_nil_l; split; discriminate.
Qed.

Lemma retire_calls_not_dupcheck a c :
  c ∈ retire_calls a -> c ∉ dupcheck_retire_calls.
Proof.
  unfold retire_calls, dupcheck_retire_calls. intros Ha Hb.
  pose proof (worker_timer_not_dupcheck a) as N1.
  pose proof (worker_service_not_dupcheck a) as N2.
  destruct (unit_path_not_dupcheck (Retracer.worker_timer a)) as [N3 N4];
    [exists a; by left|].
  destruct (unit_path_not_dupcheck (Retracer.worker_service a)) as [N5 N6];
    [exists a; by right|].
  repeat (apply elem_of_cons in Ha as [->|Ha]);
    [..|by apply elem_of_nil in Ha];
    repeat (apply elem_of_cons in Hb as [Hb|Hb];
            [first [discriminate Hb
                   |apply (f_equal call_unit) in Hb; cbn [call_unit] in Hb;
                    congruence]|]);
    by apply elem_of_nil in Hb.
Qed.

(** X15. Whatever the host does and however the pass ends, it has not
    stopped or disabled the timer or the service of an architecture that
    is wanted, nor deleted one of their unit files, nor done any of this
    to the dupcheck units: the only stops, disablings and deletions are
    steps of retirements of architectures outside the list given. *)
Theorem setup_spares_desired host self architectures w r w' :
  Retracer._setup_systemd_units host self architectures w = (r, w') ->
  exists d,
    trace w' = trace w ++ d
    /\ (forall arch c,
          arch ∈ architectures -> c ∈ retire_calls arch -> c ∉ d)
    /\ (forall c, c ∈ dupcheck_retire_calls -> c ∉ d)
    /\ (forall c, c ∈ d -> is_retire_call c = true ->
          exists a, (a ∉ architectures) /\ c ∈ retire_calls a).
Proof.
  intros H. apply setup_spares in H as (d & Ht & Hd).
  rewrite Forall_forall in Hd.
  exists d. split; [exact Ht|]. split; [|split].
  - intros arch c Harch Hc Hin.
    destruct (Hd c Hin) as (a & Ha & Hca).
    { unfold retire_calls in Hc.
      repeat (apply elem_of_cons in Hc as [->|Hc]); try done.
      by apply elem_of_nil in Hc. }
    apply Ha. by rewrite (retire_calls_apart a arch c).
  - intros c Hc Hin.
    destruct (Hd c Hin) as (a & Ha & Hca).
    { unfold dupcheck_retire_calls in Hc.
      repeat (apply elem_of_cons in Hc as [->|Hc]); try done.
      by apply elem_of_nil in Hc. }
    by apply (retire_calls_not_dupcheck a c).
  - intros c Hin Hc. by apply Hd.
Qed.

Lemma setup_spares_desired_witness :
  let run := Retracer._setup_systemd_units stop_fails_once
               (Retracer.__init__ ∅) ["amd64"] two_workers in
  exists d,
    trace (snd run) = trace two_workers ++ d
    /\ (ServiceStop (Retracer.worker_timer "amd64") ∉ d)
    /\ (ServiceStop dupcheck_timer ∉ d).
Proof.
  cbv zeta.
  destruct (setup_spares_desired stop_fails_once (Retracer.__init__ ∅)
              ["amd64"] two_workers _ _ (surjective_pairing _))
    as (d & Ht & Hd & Hdup & _).
  exists d. split; [exact Ht|]. split.
  - apply (Hd "amd64"); [apply list_elem_of_here|].
    apply list_elem_of_here.
  - apply Hdup. apply list_elem_of_here.
Defined.

(** ** What a pass brings about on any host *)

Lemma units_only_refl w : units_only w w.
Proof. by repeat split. Qed.

Lemma units_only_trans w1 w2 w3 :
  units_only w1 w2 -> units_only w2 w3 -> units_only w1 w3.
Proof.
  intros (Hp1 & Hd1 & Hf1) (Hp2 & Hd2 & Hf2). split; [congruence|].
  split; [set_solver|]. intros q Hq. by rewrite Hf2, Hf1.
Qed.

Lemma units_only_same w w' :
  packages w' = packages w -> dirs w' = dirs w -> files w' = files w ->
  units_only w w'.
Proof.
  intros Hp Hd Hf. split; [done|]. split; [by rewrite Hd|]. by rewrite Hf.
Qed.

Lemma retire_units_only host a : keeps units_only (Retracer.retire host a).
Proof.
  unfold Retracer.retire, Sys.service_stop, Sys.service_disable,
    Sys.unlink_missing_ok.
  change (Retracer.systemd_unit_location +:+ "/" +:+ ?x) with (unit_path x).
  apply (keeps_try_except _ units_only_trans).
  - repeat (apply (keeps_bind _ units_only_trans);
            [apply (keeps_call _ units_only_trans);
             [intros w; by apply units_only_same
             |intros w;
              first [by apply units_only_same
                    |split; [done|]; split; [done|]; intros q Hq;
                     cbn [files set_files]; apply lookup_delete_ne;
                     symmetry; apply (under_units_ne _ _ Hq);
                     apply under_units_unit_path]]
            |intros _]).
    apply keeps_logger. intros g w. by apply units_only_same.
  - intros e. apply keeps_logger. intros g w. by apply units_only_same.
Qed.

Lemma setup_units_only host self architectures :
  keeps units_only (Retracer._setup_systemd_units host self architectures).
Proof.
  apply setup_systemd_units_keeps.
  - apply units_only_refl.
  - apply units_only_trans.
  - intros c w _. by apply units_only_same.
  - intros w. split; [done|]. split; [cbn; set_solver|done].
  - intros p data w Hp. split; [done|]. split; [done|].
    intros q Hq. apply written_files_other. by apply (under_units_ne _ _ Hq).
  - intros u w. by apply units_only_same.
  - intros g w. by apply units_only_same.
  - intros a _. apply retire_units_only.
Qed.

Lemma stays_refl u w : stays u w w.
Proof. by split. Qed.

Lemma stays_trans u w1 w2 w3 : stays u w1 w2 -> stays u w2 w3 -> stays u w1 w3.
Proof. intros [H1 H2] [H3 H4]. split; auto. Qed.

Lemma stays_same u w w' :
  wants w' = wants w -> active w' = active w -> stays u w w'.
Proof. intros Hw Ha. split; [by rewrite Hw|by rewrite Ha]. Qed.

(** Retiring one architecture leaves the units of the others as they
    are. *)
Lemma retire_stays host a u :
  u <> Retracer.worker_timer a -> u <> Retracer.worker_service a ->
  keeps (stays u) (Retracer.retire host a).
Proof.
  intros Ht Hs. unfold Retracer.retire, Sys.service_stop,
    Sys.service_disable, Sys.unlink_missing_ok.
  apply (keeps_try_except _ (stays_trans u)).
  - repeat (apply (keeps_bind _ (stays_trans u));
            [apply (keeps_call _ (stays_trans u));
             [intros w; by apply stays_same
             |intros w;
              first [by apply stays_same
                    |split; cbn [wants active set_wants set_active];
                     rewrite ?elem_of_remove_entry; by auto]]
            |intros _]).
    apply keeps_logger. intros g w. by apply stays_same.
  - intros e. apply keeps_logger. intros g w. by apply stays_same.
Qed.

Lemma retire_all_stays host architectures cur arch :
  arch ∈ architectures ->
  keeps (stays (Retracer.worker_timer arch))
    (retire_all host architectures cur).
Proof.
  intros Harch. unfold retire_all.
  apply (keeps_for_each _ (stays_refl _) (stays_trans _)). intros a.
  case_bool_decide as Ha; [|apply (keeps_ret _ (stays_refl _))].
  apply retire_stays.
  - intros ->%worker_timer_inj. done.
  - apply worker_timer_not_service.
Qed.

Lemma retire_all_stays_dupcheck host architectures cur :
  keeps (stays dupcheck_timer) (retire_all host architectures cur).
Proof.
  unfold retire_all.
  apply (keeps_for_each _ (stays_refl _) (stays_trans _)). intros a.
  case_bool_decide as Ha; [|apply (keeps_ret _ (stays_refl _))].
  apply retire_stays; intros H; symmetry in H;
    [by apply worker_timer_not_dupcheck in H
    |by apply worker_service_not_dupcheck in H].
Qed.

(** A pass that returns, on any host. *)
Lemma setup_ok_enabled host self architectures w w' :
  Retracer._setup_systemd_units host self architectures w = (Ok tt, w') ->
  dupcheck_timer ∈ wants w' /\ dupcheck_timer ∈ active w'
  /\ forall arch, arch ∈ architectures ->
       Retracer.worker_timer arch ∈ wants w'
       /\ Retracer.worker_timer arch ∈ active w'.
Proof.
  rewrite setup_systemd_units_parts. intros H.
  apply bind_ok_inv in H as ([] & w1 & H1 & H).
  apply write_units_ok_inv in H1
    as (ds & dt & ws & wt & _ & _ & _ & _ & _ & Hw1).
  unfold sync_units in H. rewrite bind_unfold in H.
  destruct (current_archs w1) as [cur|e]; [|done].
  apply bind_ok_inv in H as ([] & w2 & H2 & H).
  apply enable_all_ok_inv in H2 as ->.
  apply bind_ok_inv in H as ([] & w3 & H3 & H).
  injection H as <-. cbn [wants active set_log].
  assert (Hd : dupcheck_timer ∈ wants (enable_world architectures w1)
               /\ dupcheck_timer ∈ active (enable_world architectures w1)).
  { rewrite enable_world_wants, enable_world_active, Hw1,
      units_world_wants, units_world_active, !elem_of_add_entry.
    split; left; left; reflexivity. }
  destruct Hd as [Hd1 Hd2].
  pose proof (retire_all_stays_dupcheck _ _ _ _ _ _ H3) as [Sw Sa].
  split; [by apply Sw|]. split; [by apply Sa|].
  intros arch Harch.
  pose proof (retire_all_stays _ _ _ arch Harch _ _ _ H3) as [Tw Ta].
  split; [apply Tw|apply Ta];
    rewrite ?enable_world_wants, ?enable_world_active; right; by exists arch.
Qed.

(** X16. A pass changes no package, removes no directory and changes no
    file outside [/etc/systemd/system], however it ends. When it
    returns, on any host and whatever retirements failed on the way, the
    dupcheck timer and the timer of every architecture given are enabled
    and started. *)
Theorem setup_enables_desired host self architectures w r w' :
  Retracer._setup_systemd_units host self architectures w = (r, w') ->
  units_only w w'
  /\ (r = Ok tt ->
      dupcheck_timer ∈ wants w' /\ dupcheck_timer ∈ active w'
      /\ forall arch, arch ∈ architectures ->
           Retracer.worker_timer arch ∈ wants w'
           /\ Retracer.worker_timer arch ∈ active w').
Proof.
  intros H. split; [by eapply setup_units_only|].
  intros ->. by apply (setup_ok_enabled host self architectures w).
Qed.

Lemma setup_enables_desired_witness :
  let run := Retracer._setup_systemd_units stop_fails_once
               (Retracer.__init__ ∅) ["amd64"] two_workers in
  fst run = Ok tt
  /\ Retracer.worker_timer "amd64" ∈ wants (snd run)
  /\ dupcheck_timer ∈ active (snd run).
Proof.
  cbv zeta.
  assert (Hrun : Retracer._setup_systemd_units stop_fails_once
                   (Retracer.__init__ ∅) ["amd64"] two_workers
                 = (Ok tt, snd (Retracer._setup_systemd_units stop_fails_once
                      (Retracer.__init__ ∅) ["amd64"] two_workers)))
    by (vm_compute; reflexivity).
  destruct (setup_enables_desired _ _ _ _ _ _ Hrun) as (_ & Hok).
  destruct (Hok eq_refl) as (_ & Hd & Harch).
  split; [by rewrite Hrun|]. split; [|exact Hd].
  apply (Harch "amd64"). apply list_elem_of_here.
Defined.

(** The two steps of [configure]. *)
Lemma configure_inv host self architectures w r w' :
  Retracer.configure host self architectures w = (r, w') ->
  units_only w w'
  /\ (r = Ok tt ->
      forall arch, arch ∈ architectures ->
        cache_dir arch ∈ dirs w'
        /\ Retracer.worker_timer arch ∈ wants w'
        /\ Retracer.worker_timer arch ∈ active w')
  /\ ((exists w1,
         Retracer._create_directories host architectures w = (Ok tt, w1)
         /\ Retracer._setup_systemd_units host self architectures w1
            = (r, w'))
      \/ (exists e, r = Raise e /\ dirs_grow w w'
                    /\ trace w' = trace (snd (Retracer._create_directories
                                                host architectures w)))).
Proof.
  unfold Retracer.configure. rewrite bind_unfold.
  destruct (Retracer._create_directories host architectures w)
    as [[[]|e] w1] eqn:H1; intros H.
  - destruct (create_directories_spec_inv _ _ _ _ _ H1)
      as ((Hf & Hd & _ & _ & Hp) & Hok).
    destruct (Hok eq_refl) as (_ & _ & _ & Hcache).
    pose proof (setup_units_only _ _ _ _ _ _ H) as Hu.
    split; [|split; [|left; by exists w1]].
    + eapply units_only_trans; [|exact Hu].
      split; [done|]. split; [done|]. intros q _. by rewrite Hf.
    + intros ->. intros arch Harch.
      destruct (setup_ok_enabled _ _ _ _ _ H) as (_ & _ & Hen).
      destruct Hu as (_ & Hsub & _).
      split; [by apply Hsub, Hcache|by apply Hen].
  - injection H as <- <-.
    destruct (create_directories_spec_inv _ _ _ _ _ H1)
      as ((Hf & Hd & Hw & Ha & Hp) & _).
    split; [|split; [done|right; exists e; by repeat split]].
    split; [done|]. split; [done|]. intros q _. by rewrite Hf.
Qed.

(** X17. [configure] creates the directories and then runs the pass: it
    changes no package, removes no directory and changes no file outside
    [/etc/systemd/system]; when it returns, every architecture given has
    its cache directory and its timer enabled and started. When the
    directories cannot be created, the pass is not run: no unit file is
    written and no service touched. *)
Theorem configure_spec host self architectures w r w' :
  Retracer.configure host self architectures w = (r, w') ->
  units_only w w'
  /\ (r = Ok tt ->
      forall arch, arch ∈ architectures ->
        cache_dir arch ∈ dirs w'
        /\ Retracer.worker_timer arch ∈ wants w'
        /\ Retracer.worker_timer arch ∈ active w')
  /\ ((exists w1,
         Retracer._create_directories host architectures w = (Ok tt, w1)
         /\ Retracer._setup_systemd_units host self architectures w1
            = (r, w'))
      \/ (exists e, r = Raise e /\ dirs_grow w w'
                    /\ trace w' = trace (snd (Retracer._create_directories
                                                host architectures w)))).
Proof. exact (configure_inv host self architectures w r w'). Qed.

Lemma configure_spec_witness :
  let run := Retracer.configure calm_host (Retracer.__init__ ∅) ["amd64"]
               two_workers in
  fst run = Ok tt
  /\ cache_dir "amd64" ∈ dirs (snd run)
  /\ Retracer.worker_timer "amd64" ∈ active (snd run).
Proof.
  cbv zeta.
  assert (Hrun : Retracer.configure calm_host (Retracer.__init__ ∅) ["amd64"]
                   two_workers
                 = (Ok tt, snd (Retracer.configure calm_host
                      (Retracer.__init__ ∅) ["amd64"] two_workers)))
    by (vm_compute; reflexivity).
  destruct (configure_spec _ _ _ _ _ _ Hrun) as (_ & Hok & _).
  destruct (Hok eq_refl "amd64") as (Hc & _ & Ha);
    [apply list_elem_of_here|].
  split; [by rewrite Hrun|]. split; [exact Hc|exact Ha].
Defined.

(** ** The configuration handler (charm.py, lines 86 to 132) *)

Lemma lp_credentials_outside_units : under_units LP_CREDENTIALS = false.
Proof. vm_compute. reflexivity. Qed.

Lemma credentials_stored_exists lp w :
  credentials_stored lp w -> Retracer.has_credentials w = true.
Proof.
  intros (f & Hf & _). unfold Retracer.has_credentials, Sys.path_exists.
  rewrite Hf. rewrite bool_decide_eq_true_2; [done|]. by eexists.
Qed.

Lemma credentials_stored_units_only lp w w' :
  units_only w w' -> credentials_stored lp w -> credentials_stored lp w'.
Proof.
  intros (_ & _ & Hf) (f & Hl & H). exists f. split; [|done].
  by rewrite (Hf _ lp_credentials_outside_units).
Qed.

(** X18. What the outcome of the configuration handler tells. It returns
    with the active status only when the secret was read, its non-empty
    [lpcredentials] value is what the credential file now holds, owned by
    [ubuntu:ubuntu], and every configured architecture has its cache
    directory and its timer enabled. It returns blocked for one of five
    reasons: with the three about the configuration entry and the secret,
    no call was made on the host; with the one about the import, only
    calls of the import were made and [configure] did not run; with the
    one about [configure], the credentials are stored all the same. When
    an exception leaves the handler, the status is still the maintenance
    one. *)
Theorem on_config_changed_outcomes host c r c' :
  LaunchpadRetracerCharm._on_config_changed host c = (r, c') ->
  match r with
  | Ok _ =>
      (unit_status c' = ActiveStatus
       /\ exists id s secret_content lp raw,
            config (model c) !! "launchpad-credentials-id" = Some id
            /\ get_secret (model c) id = Ok s
            /\ get_content s = Ok secret_content
            /\ secret_content !! "lpcredentials" = Some lp /\ lp <> ""
            /\ credentials_stored lp (world c')
            /\ config (model c) !! "architectures" = Some raw
            /\ PyStr.split_ws raw <> []
            /\ forall arch, arch ∈ PyStr.split_ws raw ->
                 cache_dir arch ∈ dirs (world c')
                 /\ Retracer.worker_timer arch ∈ wants (world c')
                 /\ Retracer.worker_timer arch ∈ active (world c'))
      \/ (unit_status c' = BlockedStatus msg_id_required
          /\ config (model c) !! "launchpad-credentials-id" = None
          /\ trace (world c') = trace (world c))
      \/ (unit_status c' = BlockedStatus msg_not_granted
          /\ trace (world c') = trace (world c))
      \/ (unit_status c' = BlockedStatus msg_key_missing
          /\ trace (world c') = trace (world c))
      \/ (unit_status c' = BlockedStatus msg_import_failed
          /\ import_frame (world c) (world c'))
      \/ (unit_status c' = BlockedStatus msg_configure_failed
          /\ Retracer.has_credentials (world c') = true)
  | Raise e => unit_status c' = MaintenanceStatus msg_importing
  end.
Proof.
  unfold LaunchpadRetracerCharm._on_config_changed. mstep.
  destruct (config (model c) !! "launchpad-credentials-id") as [id|] eqn:Hid.
  2:{ mstep. intros [= <- <-]. right. left. by repeat split. }
  mstep. destruct (get_secret (model c) id) as [s|e] eqn:Hs.
  2:{ mstep.
      destruct (is_SecretNotFoundError e || is_ModelError e || is_TypeError e).
      - mstep. intros [= <- <-]. right. right. left. by split.
      - by intros [= <- <-]. }
  mstep. destruct (get_content s) as [secret_content|e] eqn:Hc.
  2:{ by intros [= <- <-]. }
  mstep.
  destruct (secret_content !! "lpcredentials") as [[|a lp]|] eqn:Hlp.
  1,3: mstep; intros [= <- <-]; right; right; right; left; by split.
  mstep.
  destruct (Retracer.import_lpcredentials host (String a lp) (world c))
    as [[[]|e] w1] eqn:Himp.
  2:{ apply import_lpcredentials_in_frame in Himp. mstep.
      destruct (is_OSError e || is_KeyError e).
      - mstep. intros [= <- <-]. do 4 right. left. by split.
      - by intros [= <- <-]. }
  pose proof (import_lpcredentials_file _ _ _ _ Himp) as Hfile.
  assert (Hst : credentials_stored (String a lp) w1) by (by eexists).
  mstep. unfold LaunchpadRetracerCharm._get_architectures. mstep.
  destruct (config (model c) !! "architectures") as [raw|] eqn:Hraw.
  2:{ mstep. by intros [= <- <-]. }
  mstep. destruct (PyStr.split_ws raw) as [|a0 l0] eqn:Hsplit.
  { mstep. intros [= <- <-]. do 5 right. split; [done|].
    by apply (credentials_stored_exists (String a lp)). }
  mstep.
  match goal with |- context [Retracer.configure host ?se ?ar ?w0] =>
    destruct (Retracer.configure host se ar w0) as [[[]|e] w2] eqn:Hconf end;
    destruct (configure_inv _ _ _ _ _ _ Hconf) as (Hu & Hok & _);
    pose proof (credentials_stored_units_only (String a lp) _ _ Hu Hst)
      as Hst2.
  - mstep. intros [= <- <-]. left. split; [done|].
    exists id, s, secret_content, (String a lp), raw.
    rewrite Hsplit. repeat (split; [done|]). apply (Hok eq_refl).
  - mstep.
    destruct (is_CalledProcessError e || is_OSError e || is_ValueError e).
    + mstep. intros [= <- <-]. do 5 right. split; [done|].
      by apply (credentials_stored_exists (String a lp)).
    + by intros [= <- <-].
Qed.

Lemma on_config_changed_outcomes_witness :
  let c := new_charm (lp_model "amd64" {[ "lpcredentials" := "token" ]})
             two_workers in
  let run := LaunchpadRetracerCharm._on_config_changed calm_host c in
  fst run = Ok tt
  /\ unit_status (snd run) = ActiveStatus
  /\ exists lp, credentials_stored lp (world (snd run)).
Proof.
  cbv zeta.
  assert (Hrun : LaunchpadRetracerCharm._on_config_changed calm_host
                   (new_charm (lp_model "amd64" {[ "lpcredentials" := "token" ]})
                      two_workers)
                 = (Ok tt, snd (LaunchpadRetracerCharm._on_config_changed
                      calm_host
                      (new_charm
                         (lp_model "amd64" {[ "lpcredentials" := "token" ]})
                         two_workers))))
    by (vm_compute; reflexivity).
  assert (Hst : unit_status (snd (LaunchpadRetracerCharm._on_config_changed
                   calm_host
                   (new_charm
                      (lp_model "amd64" {[ "lpcredentials" := "token" ]})
                      two_workers)))
                = ActiveStatus)
    by (vm_compute; reflexivity).
  pose proof (on_config_changed_outcomes _ _ _ _ Hrun) as H.
  split; [by rewrite Hrun|]. split; [exact Hst|].
  destruct H as [(_ & id & s & sc & lp & raw & _ & _ & _ & _ & _ & H & _)
                |[(Hb & _)|[(Hb & _)|[(Hb & _)|[(Hb & _)|(Hb & _)]]]]];
    [|rewrite Hst in Hb; discriminate Hb..].
  exists lp. exact H.
Defined.

(** ** Installation (retracer.py, lines 56 to 64; charm.py, lines 45 to 63) *)

Lemma frame_files T w w' q :
  frame T w w' -> under_units q = false -> q ∉ T ->
  files w' !! q = files w !! q.
Proof. intros (_ & _ & H). apply H. Qed.

Lemma frame_exists T w w' q :
  frame T w w' -> under_units q = false -> q ∉ T ->
  Sys.path_exists q w = true -> Sys.path_exists q w' = true.
Proof.
  intros (_ & Hd & Hf) Hq HT. unfold Sys.path_exists.
  rewrite (Hf q Hq HT). intros [H|H]%orb_true_iff; apply orb_true_iff.
  - by left.
  - right. apply bool_decide_eq_true. apply bool_decide_eq_true in H.
    by apply Hd.
Qed.

Lemma frame_weaken T T' w w' :
  (forall q, q ∈ T -> q ∈ T') -> frame T w w' -> frame T' w w'.
Proof.
  intros HT (Hp & Hd & Hf). split; [done|]. split; [done|].
  intros q Hq Hn. apply Hf; [done|]. intros H. by apply Hn, HT.
Qed.

Lemma frame_trans T w1 w2 w3 : frame T w1 w2 -> frame T w2 w3 -> frame T w1 w3.
Proof.
  intros (Hp1 & Hd1 & Hf1) (Hp2 & Hd2 & Hf2). split; [by auto|].
  split; [set_solver|]. intros q Hq Hn. by rewrite Hf2, Hf1.
Qed.

Ltac apart :=
  let H := fresh in
  intros H;
  repeat (apply elem_of_cons in H as [H|H]; [discriminate H|]);
  by apply elem_of_nil in H.

(** The steps of [install], when all of them return. *)
Lemma install_inv host self architectures w w' :
  Retracer.install host self architectures w = (Ok tt, w') ->
  installed architectures w'
  /\ exists w2, fetch host self w = (Ok tt, w2)
                /\ frame install_touched w2 w'.
Proof.
  unfold Retracer.install. intros H.
  apply bind_ok_inv in H as ([] & w1 & H1 & H).
  apply bind_ok_inv in H as ([] & w2 & H2 & H).
  apply bind_ok_inv in H as ([] & w3 & H3 & H).
  apply bind_ok_inv in H as ([] & w4 & H4 & H).
  apply bind_ok_inv in H as ([] & w5 & H5 & H).
  apply bind_ok_inv in H as ([] & w6 & H6 & H7).
  assert (Hfetch : fetch host self w = (Ok tt, w2)).
  { unfold fetch. by rewrite bind_unfold, H1. }
  (* packages *)
  destruct (install_packages_run_inv _ _ _ _ H1)
    as (_ & n & _ & _ & _ & _ & Hpk).
  (* clone *)
  destruct (clone_repository_once_inv _ _ _ _ _ _ _ H2)
    as ((_ & _ & Hp2) & Hc2 & _).
  assert (E2 : Sys.path_exists RETRACER_CONFIG_LOCATION w2 = true).
  { destruct (Sys.path_exists RETRACER_CONFIG_LOCATION w1) eqn:E1;
      [|by destruct Hc2 as (_ & _ & ?)].
    destruct Hc2 as (_ & _ & Hsame & Hdirs).
    unfold Sys.path_exists in E1 |- *. by rewrite Hsame, Hdirs. }
  (* wrapper *)
  destruct (install_scripts_spec_inv _ _ _ _ H3)
    as (Hf3 & (Hd3 & _ & _ & Hp3) & (src & Hsrc & Hdst & _) & _).
  assert (F3 : frame [wrapper_dest] w2 w3).
  { split; [by rewrite Hp3|]. split; [by rewrite Hd3|].
    intros q _ Hq. apply Hf3. intros ->. apply Hq. left. }
  (* directories *)
  destruct (create_directories_spec_inv _ _ _ _ _ H4)
    as ((Hf4 & Hd4 & _ & _ & Hp4) & Hok4).
  destruct (Hok4 eq_refl) as (Hsrv & Hpub & Hdbg & Hcache).
  assert (F4 : frame [] w3 w4).
  { split; [by rewrite Hp4|]. split; [done|]. intros q _ _. by rewrite Hf4. }
  (* crash database *)
  destruct (download_crashdb_spec_inv _ _ _ _ _ H5)
    as (Hf5 & Hd5 & _ & _ & Hp5 & Hdb).
  assert (F5 : frame [crashdb_path] w4 w5).
  { split; [by rewrite Hp5|]. split; [by rewrite Hd5|].
    intros q _ Hq. apply Hf5. intros ->. apply Hq. left. }
  assert (E5 : Sys.path_exists crashdb_path w5 = true).
  { destruct (Sys.path_exists crashdb_path w4) eqn:E4.
    - destruct Hdb as (_ & _ & Hsame).
      unfold Sys.path_exists in E4 |- *. by rewrite Hsame, Hd5.
    - destruct Hdb as (_ & Hfile). by apply (path_exists_file _ _ _ Hfile). }
  (* units *)
  pose proof (setup_units_only _ _ _ _ _ _ H6) as (Hp6 & Hd6 & Hf6).
  destruct (setup_ok_enabled _ _ _ _ _ H6) as (Hdw & Hda & Hen).
  assert (F6 : frame [] w5 w6).
  { split; [by rewrite Hp6|]. split; [done|]. intros q Hq _. by apply Hf6. }
  (* nginx *)
  destruct (nginx_config_spec_inv _ _ _ _ H7)
    as (Hf7 & (Hd7 & Hw7 & Ha7 & Hp7) & (nsrc & Hnsrc & Hndst & Hndef & _)).
  assert (F7 : frame [NGINX_SITE_CONFIG_PATH; nginx_default] w6 w').
  { split; [by rewrite Hp7|]. split; [by rewrite Hd7|].
    intros q _ Hq. apply Hf7; intros ->; apply Hq; [left|right; left]. }
  assert (Hsub : forall d, d ∈ dirs w4 -> d ∈ dirs w').
  { intros d Hd. destruct F5 as (_ & S5 & _), F6 as (_ & S6 & _),
      F7 as (_ & S7 & _). by apply S7, S6, S5. }
  split.
  - split.
    { intros p Hp. destruct F3 as (P3 & _ & _), F4 as (P4 & _ & _),
        F5 as (P5 & _ & _), F6 as (P6 & _ & _), F7 as (P7 & _ & _).
      apply P7, P6, P5, P4, P3. rewrite Hp2. by apply Hpk. }
    split.
    { apply (frame_exists _ _ _ _ F7); [done|apart|].
      apply (frame_exists _ _ _ _ F6); [done|apart|].
      apply (frame_exists _ _ _ _ F5); [done|apart|].
      apply (frame_exists _ _ _ _ F4); [done|apart|].
      by apply (frame_exists _ _ _ _ F3); [done|apart|]. }
    split.
    { exists src. eexists. split.
      { rewrite (frame_files _ _ _ _ F7), (frame_files _ _ _ _ F6),
          (frame_files _ _ _ _ F5), (frame_files _ _ _ _ F4),
          (frame_files _ _ _ _ F3) by (done || apart).
        exact Hsrc. }
      split.
      { rewrite (frame_files _ _ _ _ F7), (frame_files _ _ _ _ F6),
          (frame_files _ _ _ _ F5), (frame_files _ _ _ _ F4)
          by (done || apart).
        exact Hdst. }
      by split. }
    split; [by repeat split; apply Hsub|].
    split.
    { apply (frame_exists _ _ _ _ F7); [done|apart|].
      by apply (frame_exists _ _ _ _ F6); [done|apart|]. }
    split; [by rewrite Hw7, Ha7|].
    split.
    { intros arch Harch. rewrite Hw7, Ha7.
      split; [by apply Hsub, Hcache|by apply Hen]. }
    split; [|done].
    exists nsrc. eexists. split; [|split; [exact Hndst|reflexivity]].
    rewrite (frame_files _ _ _ _ F7) by (done || apart). exact Hnsrc.
  - exists w2. split; [exact Hfetch|].
    assert (W : forall T, (forall q, q ∈ T -> q ∈ install_touched) ->
                forall a b, frame T a b -> frame install_touched a b).
    { intros T HT a b. by apply frame_weaken. }
    eapply frame_trans.
    { apply (W [wrapper_dest]); [|exact F3].
      intros q ->%list_elem_of_singleton. left. }
    eapply frame_trans; [apply (W _ ltac:(by intros ? ?%elem_of_nil) _ _ F4)|].
    eapply frame_trans.
    { apply (W [crashdb_path]); [|exact F5].
      intros q ->%list_elem_of_singleton. right. left. }
    eapply frame_trans; [apply (W _ ltac:(by intros ? ?%elem_of_nil) _ _ F6)|].
    apply (W [NGINX_SITE_CONFIG_PATH; nginx_default]); [|exact F7].
    intros q [->|[->|[]%elem_of_nil]%elem_of_cons]%elem_of_cons;
      [right; right; left|right; right; right; left].
Qed.

(** X19. An installation that returns has everything in place at once:
    the five packages, the checkout of the configuration, the worker
    wrapper (the content of its source, mode 0755), the directories
    (with the cache of every architecture given), the crash database,
    the dupcheck timer and the timer of every architecture given enabled
    and started, the nginx site (the content of its source), and no
    default site, whatever the package manager had put there. No later
    step undoes what an earlier one did. Once the packages are installed
    and the checkout is there, which leave the machine as the package
    manager and git do, the remaining steps change no file outside the
    unit directory but the wrapper, the crash database and the two nginx
    files, and they remove no package and no directory. *)
Theorem install_spec host self architectures w w' :
  Retracer.install host self architectures w = (Ok tt, w') ->
  installed architectures w'
  /\ exists w2, fetch host self w = (Ok tt, w2)
                /\ frame install_touched w2 w'.
Proof. exact (install_inv host self architectures w w'). Qed.

Lemma install_spec_witness :
  let run := Retracer.install busy_host (Retracer.__init__ ∅) ["amd64"]
               new_machine in
  fst run = Ok tt
  /\ Retracer.worker_timer "amd64" ∈ wants (snd run)
  /\ Sys.path_exists crashdb_path (snd run) = true
  /\ files (snd run) !! nginx_default = None.
Proof.
  cbv zeta.
  assert (Hrun : Retracer.install busy_host (Retracer.__init__ ∅) ["amd64"]
                   new_machine
                 = (Ok tt, snd (Retracer.install busy_host
                      (Retracer.__init__ ∅) ["amd64"] new_machine)))
    by (vm_compute; reflexivity).
  destruct (install_spec _ _ _ _ _ Hrun)
    as ((_ & _ & _ & _ & Hdb & _ & Harch & _ & Hdef) & _).
  split; [by rewrite Hrun|].
  split; [apply (Harch "amd64"), list_elem_of_here|].
  split; [exact Hdb|exact Hdef].
Defined.

(** X20. What the outcome of the install handler tells. It returns with
    the active status only when [install] returned for the configured
    architectures, so with the packages, the checkout, the wrapper, the
    directories, the crash database, the timers and the nginx site in
    place. It returns blocked, with the one message, only when the
    architecture list is empty, the host being then untouched, or when
    [install] raised an exception of a class caught. An exception that
    leaves the handler is of none of these classes (the [KeyError] of a
    missing [architectures] entry is one), and the status is then still
    the maintenance one. *)
Theorem on_install_outcomes host c r c' :
  LaunchpadRetracerCharm._on_install host c = (r, c') ->
  match r with
  | Ok _ =>
      (unit_status c' = ActiveStatus
       /\ exists raw,
            config (model c) !! "architectures" = Some raw
            /\ PyStr.split_ws raw <> []
            /\ Retracer.install host (_retracer c) (PyStr.split_ws raw)
                 (world c) = (Ok tt, world c')
            /\ installed (PyStr.split_ws raw) (world c'))
      \/ (unit_status c' = BlockedStatus msg_install_failed
          /\ match config (model c) !! "architectures" with
             | Some raw =>
                 PyStr.split_ws raw = [] /\ world c' = world c
                 \/ exists e,
                      install_caught e = true
                      /\ Retracer.install host (_retracer c)
                           (PyStr.split_ws raw) (world c)
                         = (Raise e, world c')
             | None => False
             end)
  | Raise e =>
      install_caught e = false
      /\ unit_status c' = MaintenanceStatus msg_setting_up
      /\ (config (model c) !! "architectures" = None ->
          e = KeyError "architectures" /\ world c' = world c)
  end.
Proof.
  unfold LaunchpadRetracerCharm._on_install,
    LaunchpadRetracerCharm._get_architectures. mstep.
  destruct (config (model c) !! "architectures") as [raw|] eqn:Hraw.
  2:{ mstep. by intros [= <- <-]. }
  mstep. destruct (PyStr.split_ws raw) as [|a l] eqn:Hs.
  { mstep. intros [= <- <-]. right. split; [done|]. by left. }
  mstep.
  destruct (Retracer.install host (_retracer c) (a :: l) (world c))
    as [[[]|e] w1] eqn:Hinst.
  - mstep. intros [= <- <-]. left. split; [done|]. exists raw.
    rewrite Hs. split; [done|]. split; [done|]. split; [done|].
    by apply (install_inv host (_retracer c) _ (world c)).
  - mstep.
    match goal with |- context [if ?b then _ else _] =>
      change b with (install_caught e) end.
    destruct (install_caught e) eqn:Hc.
    + mstep. intros [= <- <-]. right. split; [done|]. right. by exists e.
    + by intros [= <- <-].
Qed.

Lemma on_install_outcomes_witness :
  let c := new_charm (lp_model "amd64" ∅) new_machine in
  let run := LaunchpadRetracerCharm._on_install busy_host c in
  fst run = Ok tt
  /\ unit_status (snd run) = ActiveStatus
  /\ forall p, p ∈ PACKAGES -> p ∈ packages (world (snd run)).
Proof.
  cbv zeta.
  assert (Hrun : LaunchpadRetracerCharm._on_install busy_host
                   (new_charm (lp_model "amd64" ∅) new_machine)
                 = (Ok tt, snd (LaunchpadRetracerCharm._on_install busy_host
                      (new_charm (lp_model "amd64" ∅) new_machine))))
    by (vm_compute; reflexivity).
  assert (Hst : unit_status (snd (LaunchpadRetracerCharm._on_install busy_host
                   (new_charm (lp_model "amd64" ∅) new_machine)))
                = ActiveStatus)
    by (vm_compute; reflexivity).
  pose proof (on_install_outcomes _ _ _ _ Hrun) as H.
  split; [by rewrite Hrun|]. split; [exact Hst|].
  destruct H as [(_ & raw & _ & _ & _ & (Hp & _))|(Hb & _)];
    [exact Hp|rewrite Hst in Hb; discriminate Hb].
Defined.

(** ** A credential import that fails (retracer.py, lines 81 to 94) *)

Lemma os_open_credentials host w :
  Sys.os_open host LP_CREDENTIALS (N.lor (N.lor O_CREAT O_WRONLY) O_TRUNC)
    384 w
  = match fault host (trace w) open_credentials with
    | Some e => (Raise e, called open_credentials w)
    | None =>
        (Ok LP_CREDENTIALS,
         set_files
           <[LP_CREDENTIALS :=
               Sys.create_or_truncate LP_CREDENTIALS 384
                 (called open_credentials w)]>
           (called open_credentials w))
    end.
Proof.
  unfold Sys.os_open, Sys.call_with. fold open_credentials.
  destruct (fault host (trace w) open_credentials); [reflexivity|].
  fold (called open_credentials w).
  change (N.testbit (N.lor (N.lor O_CREAT O_WRONLY) O_TRUNC) 9) with true.
  change (N.testbit (N.lor (N.lor O_CREAT O_WRONLY) O_TRUNC) 6) with true.
  by destruct (files (called open_credentials w) !! LP_CREDENTIALS).
Qed.

Lemma create_or_truncate_content p bits w :
  content (Sys.create_or_truncate p bits w) = "".
Proof. unfold Sys.create_or_truncate. by destruct (files w !! p). Qed.

(** The body of the [try], when it raises. *)
Lemma import_body_failure host lpcredentials w e w' :
  (fd ← Sys.os_open host LP_CREDENTIALS
          (N.lor (N.lor O_CREAT O_WRONLY) O_TRUNC) 384;
   Sys.os_write host fd lpcredentials;;
   Sys.os_close host fd;;
   Sys.chown host LP_CREDENTIALS "ubuntu" "ubuntu") w = (Raise e, w') ->
  (fault host (trace w) open_credentials = Some e
   /\ files w' = files w /\ trace w' = trace w ++ [open_credentials])
  \/ (exists f, files w' !! LP_CREDENTIALS = Some f
                /\ (content f = "" \/ content f = lpcredentials)).
Proof.
  rewrite bind_unfold, os_open_credentials.
  destruct (fault host (trace w) open_credentials) as [e0|] eqn:Hopen.
  { intros [= <- <-]. by left. }
  intros H. right. revert H.
  rewrite bind_unfold. unfold Sys.os_write.
  match goal with |- context [Sys.call_with host ?c ?run ?w1] =>
    destruct (call_with_cases host c run w1) as [[_ ->]|(e1 & _ & ->)] end.
  2:{ intros [= <- <-]. eexists. cbn [files set_files set_trace].
      rewrite lookup_insert_eq. split; [done|]. left.
      apply create_or_truncate_content. }
  cbn [files set_files set_trace]. rewrite lookup_insert_eq.
  rewrite create_or_truncate_content, substring_empty, str_app_nil_r.
  rewrite bind_unfold. unfold Sys.os_close.
  match goal with |- context [Sys.call host ?c ?eff ?w1] =>
    destruct (call_cases host c eff w1) as [[_ ->]|(e1 & _ & ->)] end.
  2:{ intros [= <- <-]. eexists. cbn [files set_files set_trace].
      rewrite lookup_insert_eq. split; [done|]. by right. }
  unfold Sys.chown.
  match goal with |- context [Sys.call_with host ?c ?run ?w1] =>
    destruct (call_with_cases host c run w1) as [[_ ->]|(e1 & _ & ->)] end.
  2:{ intros [= <- <-]. eexists. cbn [files set_files set_trace id].
      rewrite lookup_insert_eq. split; [done|]. by right. }
  cbn [files set_files set_trace id]. by rewrite lookup_insert_eq.
Qed.

(** X21. An import that raises has made no call but those of the import
    and touched no file but the credential file. Either the opening
    itself failed and nothing was written, or the file now exists and
    holds the new credentials or nothing at all: the file is truncated
    when it is opened, so a failure after that has lost what it held,
    and [has_credentials], which only looks for the file, answers
    true. *)
Theorem import_lpcredentials_failure host lpcredentials w e w' :
  Retracer.import_lpcredentials host lpcredentials w = (Raise e, w') ->
  import_frame w w'
  /\ ((fault host (trace w) open_credentials = Some e
       /\ files w' = files w /\ trace w' = trace w ++ [open_credentials])
      \/ (Retracer.has_credentials w' = true
          /\ exists f, files w' !! LP_CREDENTIALS = Some f
                       /\ (content f = "" \/ content f = lpcredentials))).
Proof.
  intros H. split; [by eapply import_lpcredentials_in_frame|].
  revert H. unfold Retracer.import_lpcredentials.
  rewrite try_except_unfold.
  match goal with |- context [match ?b with _ => _ end] =>
    destruct b as [[[]|e0] w1] eqn:Hbody end; [done|].
  apply import_body_failure in Hbody.
  assert (Hout : files w' = files w1 -> trace w' = trace w1 -> e = e0 ->
            (fault host (trace w) open_credentials = Some e
             /\ files w' = files w /\ trace w' = trace w ++ [open_credentials])
            \/ (Retracer.has_credentials w' = true
                /\ exists f, files w' !! LP_CREDENTIALS = Some f
                     /\ (content f = "" \/ content f = lpcredentials))).
  { intros Hf Ht ->. destruct Hbody as [(Ho & Hf1 & Ht1)|(f & Hl & Hc)].
    - left. split; [done|]. by rewrite Hf, Ht.
    - right. rewrite <- Hf in Hl. split; [|by exists f].
      unfold Retracer.has_credentials, Sys.path_exists. rewrite Hl.
      rewrite bool_decide_eq_true_2; [done|]. by eexists. }
  destruct (is_OSError e0); mstep; intros [= <- <-]; by apply Hout.
Qed.

Lemma import_lpcredentials_failure_witness :
  let host := mkHost (fun _ c => match c with
                                 | OsWrite _ _ => Some OSError
                                 | _ => None
                                 end)
                (fun _ => "") (fun _ => []) (fun _ w => w) in
  let run := Retracer.import_lpcredentials host "token" stale_world in
  fst run = Raise OSError
  /\ Retracer.has_credentials (snd run) = true
  /\ exists f, files (snd run) !! LP_CREDENTIALS = Some f /\ content f = "".
Proof.
  cbv zeta.
  set (host := mkHost (fun _ c => match c with
                                  | OsWrite _ _ => Some OSError
                                  | _ => None
                                  end)
                 (fun _ => "") (fun _ => []) (fun _ w => w)).
  assert (Hrun : Retracer.import_lpcredentials host "token" stale_world
                 = (Raise OSError,
                    snd (Retracer.import_lpcredentials host "token"
                           stale_world)))
    by (vm_compute; reflexivity).
  destruct (import_lpcredentials_failure _ _ _ _ _ Hrun)
    as (_ & [(Ho & _)|(Hc & f & Hf & Hcont)]); [discriminate Ho|].
  split; [by rewrite Hrun|]. split; [exact Hc|].
  exists f. split; [exact Hf|].
  assert (E : files (snd (Retracer.import_lpcredentials host "token"
                            stale_world)) !! LP_CREDENTIALS
              = Some (mkFile "" 420 "root" "root"))
    by (vm_compute; reflexivity).
  rewrite E in Hf. by injection Hf as <-.
Defined.

(** ** The proxy block for any environment (retracer.py, lines 41 to 54 and 121 to 124) *)

(** X22. The block appended to the service units, from the environment:
    the two lines of [http] if the Juju HTTP proxy is set and not empty,
    followed by the two of [https] if the HTTPS one is; nothing when
    neither is, and the service units are then the templates, verbatim.
    In each pair the second key is the protocol in upper case followed
    by a lower-case [_proxy]. *)
Theorem systemd_proxy_of_environ environ :
  let http := environ !! "JUJU_CHARM_HTTP_PROXY" in
  let https := environ !! "JUJU_CHARM_HTTPS_PROXY" in
  Retracer.systemd_proxy (Retracer.__init__ environ)
  = (if PyStr.truthy http then proxy_lines "http" (default "" http) else "")
    +:+ (if PyStr.truthy https
         then proxy_lines "https" (default "" https) else "")
  /\ (PyStr.truthy http = false -> PyStr.truthy https = false ->
      forall txt, txt +:+ Retracer.systemd_proxy (Retracer.__init__ environ)
                  = txt)
  /\ (forall proto proxy,
        proxy_lines proto proxy
        = PyStr.nl +:+ "Environment=" +:+ proto +:+ "_proxy=" +:+ proxy
          +:+ PyStr.nl +:+ "Environment=" +:+ PyStr.upper proto
          +:+ "_proxy=" +:+ proxy).
Proof.
  cbv zeta.
  assert (E : Retracer.systemd_proxy (Retracer.__init__ environ)
              = (if PyStr.truthy (environ !! "JUJU_CHARM_HTTP_PROXY")
                 then proxy_lines "http"
                        (default "" (environ !! "JUJU_CHARM_HTTP_PROXY"))
                 else "")
                +:+ (if PyStr.truthy (environ !! "JUJU_CHARM_HTTPS_PROXY")
                     then proxy_lines "https"
                            (default "" (environ !! "JUJU_CHARM_HTTPS_PROXY"))
                     else "")).
  { pose proof (init_proxies environ) as Hp.
    destruct (Retracer.__init__ environ) as [en px]. cbn [proxies] in Hp.
    rewrite Hp.
    destruct (PyStr.truthy (environ !! "JUJU_CHARM_HTTP_PROXY"));
      destruct (PyStr.truthy (environ !! "JUJU_CHARM_HTTPS_PROXY"));
      cbn [app].
    - change [("http", ?p); ("https", ?q)]
        with (([] ++ [("http", p)]) ++ [("https", q)]).
      by rewrite !systemd_proxy_snoc, systemd_proxy_nil, str_app_nil_l.
    - change [("http", ?p)] with ([] ++ [("http", p)]).
      by rewrite systemd_proxy_snoc, systemd_proxy_nil, str_app_nil_l,
        str_app_nil_r.
    - change [("https", ?p)] with ([] ++ [("https", p)]).
      by rewrite systemd_proxy_snoc, systemd_proxy_nil.
    - by rewrite systemd_proxy_nil. }
  split; [exact E|]. split.
  - intros H1 H2 txt. rewrite E, H1, H2. by rewrite !str_app_nil_r.
  - intros proto proxy. unfold proxy_lines.
    by rewrite !str_app_assoc.
Qed.
